(** * Query understanding and resolution: a shallow embedding

    The development follows the Python sources module by module, the
    model first and the properties after it:

    - [Py]: the fragment of the Python runtime the sources rely on
      (exceptions, [str] methods, [int()]);
    - [LRU]: [LRUCache] of [intent_classifier.py], over an [OrderedDict];
    - [Json] and [Intent]: [json.loads] and [IntentClassifierLLM];
    - [Routing]: [classify_query] of [routing_classifier.py];
    - [Data]: [SimpleRugbyDataHandler] of [data_handler.py];
    - [Values], [DataLoad], [LLM], [Interface], [IntentTools]: the loading
      of the corpus, [LLMClient] of [llm_client.py] over its transport, the
      helpers of [module1_interface.py] and the utilities of the
      classifier;
    - [JsonProps], [LRUProps], [IntentProps], [RoutingProps], [DataProps],
      [LoadProps]: what is proved of them, claim by claim (C1 to C10);
    - [LRUFacts], [IntentFacts], [ClientFacts], [DataFacts],
      [InterfaceFacts]: further properties (X1 to X30).

    Conventions of the model:

    - Text is a [string]: a character is a code point below 256, and the
      character tables ([str.isspace], [str.lower], [str.isdigit], the
      regular expression classes [\s] and [\w]) are Python's on that range.
    - A raised exception is a value: fallible code returns a [result], and
      [try]/[except] is a [match] on it.
    - An object that is mutated is passed in and returned.  Identity
      matters for one loaded value only: not-a-number differs from itself,
      and [json] returns the same object for every [NaN] it reads, so a
      dictionary finds it as a key and a container compares it equal.
    - What is logged or printed is left out.
    - The language-model service, [repr] of floats and containers, and the
      rounding of a quotient to a float are parameters: the properties hold
      whatever they are.
    - The bound of 4300 digits on the conversion of text to an integer is
      that of [int()] and of [json.loads]. An integer of the corpus was
      read by [json], so it has no more digits than that, and [str] of an
      integer is taken below the bound. The recursion limit of the
      interpreter is not modelled. *)

From Stdlib Require Import List String Ascii Bool Arith ZArith NArith Lia.
From Stdlib Require Import QArith_base Permutation.
Import ListNotations.

Set Warnings "-register-all".

Local Open Scope string_scope.
Local Open Scope list_scope.
Local Close Scope Q_scope.

(* ================================================================== *)
(** * The Python runtime the sources use *)
(* ================================================================== *)

Module Py.

(** ** Exceptions *)

Inductive exn_class : Type :=
| KeyError | IndexError | AttributeError | TypeError | ValueError
| OverflowError | ZeroDivisionError | RuntimeError | FileNotFoundError
| ConnectionError.

(** An exception: its class and [str(e)]. *)
Record exn : Type := mk_exn { exn_type : exn_class; exn_str : string }.

Inductive result (A : Type) : Type :=
| Ok (a : A)
| Raise (e : exn).
Arguments Ok {A} a.
Arguments Raise {A} e.

Definition bind {A B : Type} (m : result A) (k : A -> result B) : result B :=
  match m with
  | Ok a => k a
  | Raise e => Raise e
  end.

Definition is_ok {A : Type} (m : result A) : bool :=
  match m with Ok _ => true | Raise _ => false end.

(** [for x in xs: acc = f(acc, x)], stopping at the first exception. *)
Fixpoint for_each {A S : Type} (f : S -> A -> result S) (xs : list A) (acc : S)
  : result S :=
  match xs with
  | [] => Ok acc
  | x :: rest => bind (f acc x) (for_each f rest)
  end.

(** ** Characters *)

Definition code (c : ascii) : N := N_of_ascii c.

Definition between (lo hi n : N) : bool := ((lo <=? n) && (n <=? hi))%N.

(** [str.isspace] on one character, which is also the class [\s]. *)
Definition is_space (c : ascii) : bool :=
  let n := code c in
  between 9 13 n || between 28 32 n || (n =? 133)%N || (n =? 160)%N.

(** [str.lower] on one character. *)
Definition lower_char (c : ascii) : ascii :=
  let n := code c in
  if between 65 90 n || (between 192 222 n && negb (n =? 215)%N)
  then ascii_of_N (n + 32) else c.

(** [str.isdigit] on one character: the ASCII digits and the superscripts
    two, three and one. *)
Definition is_digit_char (c : ascii) : bool :=
  let n := code c in
  between 48 57 n || (n =? 178)%N || (n =? 179)%N || (n =? 185)%N.

Definition is_ascii_digit (c : ascii) : bool := between 48 57 (code c).

(** The class [\w]: alphanumerics and the underscore. *)
Definition is_word_char (c : ascii) : bool :=
  let n := code c in
  between 48 57 n || between 65 90 n || between 97 122 n || (n =? 95)%N
  || (n =? 170)%N || (n =? 178)%N || (n =? 179)%N || (n =? 181)%N
  || (n =? 185)%N || (n =? 186)%N || between 188 190 n
  || between 192 214 n || between 216 246 n || between 248 255 n.

(** The double quote, which a literal cannot hold. *)
Definition dquote : ascii := ascii_of_N 34.

(** A literal with a backquote wherever the text has a double quote. *)
Fixpoint q (s : string) : string :=
  match s with
  | EmptyString => EmptyString
  | String c r => String (if (code c =? 96)%N then dquote else c) (q r)
  end.

(** ** [str] methods *)

Definition is_empty (s : string) : bool :=
  match s with EmptyString => true | _ => false end.

Fixpoint lower (s : string) : string :=
  match s with
  | EmptyString => EmptyString
  | String c r => String (lower_char c) (lower r)
  end.

Fixpoint lstrip_by (drop : ascii -> bool) (s : string) : string :=
  match s with
  | EmptyString => EmptyString
  | String c r => if drop c then lstrip_by drop r else s
  end.

Fixpoint rstrip_by (drop : ascii -> bool) (s : string) : string :=
  match s with
  | EmptyString => EmptyString
  | String c r =>
      let r' := rstrip_by drop r in
      if drop c && is_empty r' then EmptyString else String c r'
  end.

Definition strip_by (drop : ascii -> bool) (s : string) : string :=
  rstrip_by drop (lstrip_by drop s).

(** [s.strip()] *)
Definition strip (s : string) : string := strip_by is_space s.

Fixpoint mem_char (c : ascii) (chars : string) : bool :=
  match chars with
  | EmptyString => false
  | String d r => Ascii.eqb c d || mem_char c r
  end.

(** [s.strip(chars)] *)
Definition strip_chars (chars s : string) : string :=
  strip_by (fun c => mem_char c chars) s.

Fixpoint all_chars (p : ascii -> bool) (s : string) : bool :=
  match s with
  | EmptyString => true
  | String c r => p c && all_chars p r
  end.

(** [s.isdigit()]: false on the empty string. *)
Definition isdigit (s : string) : bool :=
  negb (is_empty s) && all_chars is_digit_char s.

Fixpoint starts_with (p s : string) : bool :=
  match p, s with
  | EmptyString, _ => true
  | String a p', String b s' => Ascii.eqb a b && starts_with p' s'
  | String _ _, EmptyString => false
  end.

(** [needle in hay] *)
Fixpoint contains (needle hay : string) : bool :=
  starts_with needle hay ||
  match hay with
  | EmptyString => false
  | String _ r => contains needle r
  end.

Fixpoint take_while (p : ascii -> bool) (s : string) : string :=
  match s with
  | EmptyString => EmptyString
  | String c r => if p c then String c (take_while p r) else EmptyString
  end.

Fixpoint drop_while (p : ascii -> bool) (s : string) : string :=
  match s with
  | EmptyString => EmptyString
  | String c r => if p c then drop_while p r else s
  end.

(** [s.split()[0]]: the first run of non-blank characters; [IndexError]
    when [s.split()] is empty. *)
Definition split_first (s : string) : result string :=
  match drop_while is_space s with
  | EmptyString => Raise (mk_exn IndexError "list index out of range")
  | t => Ok (take_while (fun c => negb (is_space c)) t)
  end.

(** [x in xs] for a list of strings. *)
Definition mem_str (x : string) (xs : list string) : bool :=
  existsb (String.eqb x) xs.

Fixpoint join (sep : string) (xs : list string) : string :=
  match xs with
  | [] => ""
  | [x] => x
  | x :: rest => x ++ sep ++ join sep rest
  end.

(** ** [int(s)] for a string *)

Definition digit_value (c : ascii) : Z := (Z.of_N (code c) - 48)%Z.

(** Digits with single underscores between them, most significant first;
    [after_digit] says whether the previous character was a digit. *)
Fixpoint digits_value (s : string) (after_digit : bool) (acc : Z) : option Z :=
  match s with
  | EmptyString => if after_digit then Some acc else None
  | String c r =>
      if is_ascii_digit c then digits_value r true (10 * acc + digit_value c)%Z
      else if (code c =? 95)%N && after_digit then
        match r with
        | String d _ => if is_ascii_digit d then digits_value r false acc else None
        | EmptyString => None
        end
      else None
  end.

(** The blanks [int()] skips around a literal. *)
Definition int_space (c : ascii) : bool :=
  let n := code c in between 9 13 n || (n =? 32)%N || (n =? 133)%N || (n =? 160)%N.

Definition int_literal (s : string) : option Z :=
  match strip_by int_space s with
  | String c r =>
      if (code c =? 45)%N then option_map Z.opp (digits_value r false 0)
      else if (code c =? 43)%N then digits_value r false 0
      else digits_value (String c r) false 0
  | EmptyString => None
  end.

(** [str(n)] for an integer. *)
Definition digit_char (d : Z) : ascii := ascii_of_N (Z.to_N d + 48)%N.

Fixpoint decimal_digits (fuel : nat) (n : Z) (acc : string) : string :=
  match fuel with
  | O => acc
  | S f =>
      let acc' := String (digit_char (n mod 10)) acc in
      if (n <? 10)%Z then acc' else decimal_digits f (n / 10) acc'
  end.

Definition str_of_int (z : Z) : string :=
  let digits := decimal_digits (S (Z.to_nat (Z.log2 (Z.abs z)))) (Z.abs z) "" in
  if (z <? 0)%Z then String "-" digits else digits.

(** ** [repr(s)] for a string *)

Definition squote : ascii := ascii_of_N 39.
Definition backslash : ascii := ascii_of_N 92.

(** [str.isprintable] on one character. *)
Definition is_printable (c : ascii) : bool :=
  let n := code c in
  between 32 126 n || (between 161 255 n && negb (n =? 173)%N).

Definition hex_digit (n : N) : ascii :=
  ascii_of_N (if (n <? 10)%N then n + 48 else n + 87).

(** One character between the quotes: the quote and the backslash behind a
    backslash, tab, line feed and carriage return by their letter, any other
    character that does not print as [\xhh]. *)
Definition repr_char (quote c : ascii) : string :=
  let n := code c in
  if Ascii.eqb c quote || Ascii.eqb c backslash
  then String backslash (String c "")
  else if (n =? 9)%N then String backslash "t"
  else if (n =? 10)%N then String backslash "n"
  else if (n =? 13)%N then String backslash "r"
  else if is_printable c then String c ""
  else String backslash
         (String "x" (String (hex_digit (n / 16)) (String (hex_digit (n mod 16)) ""))).

Fixpoint repr_chars (quote : ascii) (s : string) : string :=
  match s with
  | EmptyString => EmptyString
  | String c r => repr_char quote c ++ repr_chars quote r
  end.

(** Single quotes around the text, double quotes when it holds a single
    quote and no double one. *)
Definition repr_str (s : string) : string :=
  let quote :=
    if mem_char squote s && negb (mem_char dquote s) then dquote else squote in
  String quote (repr_chars quote s ++ String quote "").

(** ** [int(s)] for a string: the errors *)

(** The literal behind the blanks and the sign in front of it. *)
Definition unsigned_part (s : string) : string :=
  match lstrip_by int_space s with
  | String c r =>
      if (code c =? 45)%N || (code c =? 43)%N then r else String c r
  | EmptyString => EmptyString
  end.

(** The number of digits in the run of digits and underscores [s] starts
    with; [None] when two underscores follow each other in the run or it
    ends with one. *)
Fixpoint digit_run (s : string) (after_underscore : bool) (digits : N)
  : option N :=
  match s with
  | String c r =>
      if is_ascii_digit c then digit_run r false (digits + 1)
      else if (code c =? 95)%N then
        if after_underscore then None else digit_run r true digits
      else if after_underscore then None else Some digits
  | EmptyString => if after_underscore then None else Some digits
  end.

(** [sys.get_int_max_str_digits()], which the sources leave as it is. *)
Definition MAX_STR_DIGITS : N := 4300.

(** The message shows the first 200 characters of [repr(s)]. *)
Definition invalid_literal (s : string) : exn :=
  mk_exn ValueError
    ("invalid literal for int() with base 10: " ++ substring 0 200 (repr_str s)).

Definition too_many_digits (digits : N) : exn :=
  mk_exn ValueError
    ("Exceeds the limit (4300 digits) for integer string conversion: value has "
       ++ str_of_int (Z.of_N digits)
       ++ " digits; use sys.set_int_max_str_digits() to increase the limit").

(** [int(s)]: the run of digits the literal starts with is counted, and
    refused when it has more than [MAX_STR_DIGITS] digits, before it is
    converted and before what follows it is looked at. *)
Definition int_of_str (s : string) : result Z :=
  match unsigned_part s with
  | String c _ as body =>
      if (code c =? 95)%N then Raise (invalid_literal s)
      else
        match digit_run body false 0 with
        | None => Raise (invalid_literal s)
        | Some digits =>
            if (MAX_STR_DIGITS <? digits)%N then Raise (too_many_digits digits)
            else
              match int_literal s with
              | Some z => Ok z
              | None => Raise (invalid_literal s)
              end
        end
  | EmptyString => Raise (invalid_literal s)
  end.

End Py.

Module PyNotations.
Notation "x <- m ;; k" := (Py.bind m (fun x => k))
  (at level 61, m at next level, right associativity).
Notation "' pat <- m ;; k" := (Py.bind m (fun x => match x with pat => k end))
  (at level 61, pat pattern, m at next level, right associativity).
End PyNotations.


(* ================================================================== *)
(** * [LRUCache] (intent_classifier.py) *)
(* ================================================================== *)

Module LRU.
Import Py PyNotations.

Section Cache.
Context {V : Type}.

(** ** [collections.OrderedDict], oldest entry first *)

Definition odict : Type := list (string * V).

(** [key in d] *)
Definition has_key (k : string) (d : odict) : bool :=
  existsb (fun e => String.eqb k (fst e)) d.

Definition key_error (k : string) : exn := mk_exn KeyError ("'" ++ k ++ "'").

(** [d[key]] *)
Fixpoint getitem (k : string) (d : odict) : result V :=
  match d with
  | [] => Raise (key_error k)
  | (k', v) :: rest => if String.eqb k k' then Ok v else getitem k rest
  end.

(** The dictionary without its entry for [k], and that entry's value. *)
Fixpoint unlink (k : string) (d : odict) : option (V * odict) :=
  match d with
  | [] => None
  | (k', v) :: rest =>
      if String.eqb k k' then Some (v, rest)
      else match unlink k rest with
           | Some (w, rest') => Some (w, (k', v) :: rest')
           | None => None
           end
  end.

(** [d.move_to_end(key)] *)
Definition move_to_end (k : string) (d : odict) : result odict :=
  match unlink k d with
  | Some (v, rest) => Ok (rest ++ [(k, v)])
  | None => Raise (key_error k)
  end.

(** [d[key] = value]: in place for a key that is there, at the end for a
    new one. *)
Fixpoint setitem (k : string) (v : V) (d : odict) : odict :=
  match d with
  | [] => [(k, v)]
  | (k', w) :: rest =>
      if String.eqb k k' then (k', v) :: rest else (k', w) :: setitem k v rest
  end.

(** [d.popitem(last=False)] *)
Definition popitem_first (d : odict) : result ((string * V) * odict) :=
  match d with
  | [] => Raise (mk_exn KeyError "'dictionary is empty'")
  | e :: rest => Ok (e, rest)
  end.

(** ** The cache *)

Record LRUCache : Type := mk_cache { max_size : Z; cache : odict }.

(** [LRUCache(max_size)] *)
Definition new (max_size : Z) : LRUCache := mk_cache max_size [].

Definition size (c : LRUCache) : nat := List.length (cache c).

Definition keys (c : LRUCache) : list string := map fst (cache c).

(** [get]: what is returned and the cache afterwards.  [Some v] is the
    stored value [v], returned as it is, and [None] is the [None] returned
    for a key that is not stored.  The caller holds one object and cannot
    tell the two apart when the stored value is [None] itself: see
    [returned]. *)
Definition get (k : string) (c : LRUCache) : result (option V * LRUCache) :=
  if has_key k (cache c) then
    d <- move_to_end k (cache c) ;;
    v <- getitem k d ;;
    Ok (Some v, mk_cache (max_size c) d)
  else Ok (None, c).

(** The object the caller of [get] holds, [none] being Python's [None] among
    the values that are stored: the answer for a missing key and the answer
    for a key that stores [None] are the same object. *)
Definition returned (none : V) (answer : option V) : V :=
  match answer with
  | Some v => v
  | None => none
  end.

Definition put (k : string) (v : V) (c : LRUCache) : result LRUCache :=
  if has_key k (cache c) then
    d <- move_to_end k (cache c) ;;
    Ok (mk_cache (max_size c) (setitem k v d))
  else
    d <- (if (Z.of_nat (List.length (cache c)) >=? max_size c)%Z
          then '(_, rest) <- popitem_first (cache c) ;; Ok rest
          else Ok (cache c)) ;;
    Ok (mk_cache (max_size c) (setitem k v d)).

Definition clear (c : LRUCache) : LRUCache := mk_cache (max_size c) [].

(** ** Runs of operations *)

Inductive op : Type :=
| Get (k : string)
| Put (k : string) (v : V)
| Clear.

Definition step (o : op) (c : LRUCache) : result LRUCache :=
  match o with
  | Get k => '(_, c') <- get k c ;; Ok c'
  | Put k v => put k v c
  | Clear => Ok (clear c)
  end.

(** The caches after each operation of a run, in order. *)
Fixpoint run (ops : list op) (c : LRUCache) : result (list LRUCache) :=
  match ops with
  | [] => Ok []
  | o :: rest =>
      c' <- step o c ;;
      tr <- run rest c' ;;
      Ok (c' :: tr)
  end.

(** [for k, v in kvs: cache.put(k, v)] *)
Definition put_all (kvs : list (string * V)) (c : LRUCache) : result LRUCache :=
  for_each (fun c kv => put (fst kv) (snd kv) c) kvs c.

(** What [get] answers, the cache afterwards left aside. *)
Definition get_value (k : string) (c : LRUCache) : result (option V) :=
  '(v, _) <- get k c ;; Ok v.

End Cache.
Arguments odict : clear implicits.
Arguments LRUCache : clear implicits.
Arguments op : clear implicits.

End LRU.

(* ================================================================== *)
(** * [json.loads] *)
(* ================================================================== *)

Module Json.
Import Py.

(** Decoded text: an escape [\uXXXX] can denote any code point, so the
    strings of a decoded document are lists of code points. *)
Definition ustring : Type := list N.

Definition ustr (s : string) : ustring := map code (list_ascii_of_string s).

Inductive json : Type :=
| JNull
| JBool (b : bool)
| JInt (z : Z)
| JFloat (lexeme : string)           (* a number with a fraction or exponent *)
| JNaN
| JInf (negative : bool)
| JStr (s : ustring)
| JArr (items : list json)
| JObj (pairs : list (ustring * json)). (* as read; a later pair overrides *)

(** A decoding step: a value, a [ValueError] ([JSONDecodeError], or the
    one of an integer with too many digits), or no fuel left. *)
Inductive outcome (A : Type) : Type :=
| Val (a : A)
| Err
| NoFuel.
Arguments Val {A} a.
Arguments Err {A}.
Arguments NoFuel {A}.

Definition is_char (n : N) (c : ascii) : bool := (code c =? n)%N.

Definition is_json_ws (c : ascii) : bool :=
  is_char 32 c || is_char 9 c || is_char 10 c || is_char 13 c.

Definition skip_ws (s : string) : string := drop_while is_json_ws s.

(** ** String literals *)

Definition hex_value (c : ascii) : option N :=
  let n := code c in
  if between 48 57 n then Some (n - 48)%N
  else if between 97 102 n then Some (n - 87)%N
  else if between 65 70 n then Some (n - 55)%N
  else None.

Definition hex4 (a b c d : ascii) : option N :=
  match hex_value a, hex_value b, hex_value c, hex_value d with
  | Some x, Some y, Some z, Some w => Some (((x * 16 + y) * 16 + z) * 16 + w)%N
  | _, _, _, _ => None
  end.

Definition simple_escape (c : ascii) : option N :=
  let n := code c in
  if (n =? 34)%N || (n =? 92)%N || (n =? 47)%N then Some n
  else if is_char 98 c then Some 8%N        (* b *)
  else if is_char 102 c then Some 12%N      (* f *)
  else if is_char 110 c then Some 10%N      (* n *)
  else if is_char 114 c then Some 13%N      (* r *)
  else if is_char 116 c then Some 9%N       (* t *)
  else None.

(** The characters after an opening quote up to the closing one, escapes
    decoded one by one, and the text after the closing quote.  A control
    character, an unknown escape or a missing closing quote is an error. *)
Fixpoint scan_chars (s : string) : option (ustring * string) :=
  match s with
  | EmptyString => None
  | String c r =>
      if is_char 34 c then Some ([], r)
      else if is_char 92 c then
        match r with
        | String e r1 =>
            if is_char 117 e then
              match r1 with
              | String h1 (String h2 (String h3 (String h4 r2))) =>
                  match hex4 h1 h2 h3 h4, scan_chars r2 with
                  | Some n, Some (u, rest) => Some (n :: u, rest)
                  | _, _ => None
                  end
              | _ => None
              end
            else
              match simple_escape e, scan_chars r1 with
              | Some n, Some (u, rest) => Some (n :: u, rest)
              | _, _ => None
              end
        | EmptyString => None
        end
      else if (code c <? 32)%N then None
      else
        match scan_chars r with
        | Some (u, rest) => Some (code c :: u, rest)
        | None => None
        end
  end.

Definition is_high_surrogate (n : N) : bool := between 55296 56319 n.
Definition is_low_surrogate (n : N) : bool := between 56320 57343 n.

(** A high surrogate followed by a low one is one code point.  The text is
    Latin-1, so every surrogate comes from an escape. *)
Fixpoint pair_surrogates (u : ustring) : ustring :=
  match u with
  | [] => []
  | hi :: rest =>
      match rest with
      | lo :: rest' =>
          if is_high_surrogate hi && is_low_surrogate lo
          then (65536 + (hi - 55296) * 1024 + (lo - 56320))%N :: pair_surrogates rest'
          else hi :: pair_surrogates rest
      | [] => [hi]
      end
  end.

(** [scanstring], from the character after the opening quote. *)
Definition scanstring (s : string) : option (ustring * string) :=
  match scan_chars s with
  | Some (u, rest) => Some (pair_surrogates u, rest)
  | None => None
  end.

(** ** Numbers and constants *)

Definition digits_of (s : string) : string := take_while is_ascii_digit s.
Definition after_digits (s : string) : string := drop_while is_ascii_digit s.

(** The integer part: [0], or a nonzero digit and more digits. *)
Definition int_part (s : string) : option (string * string) :=
  match s with
  | String c r =>
      if is_char 48 c then Some ("0", r)
      else if is_ascii_digit c then Some (String c (digits_of r), after_digits r)
      else None
  | EmptyString => None
  end.

(** [.digits], when a digit follows the point. *)
Definition frac_part (s : string) : option (string * string) :=
  match s with
  | String c (String d r) =>
      if is_char 46 c && is_ascii_digit d
      then Some (String c (String d (digits_of r)), after_digits r)
      else None
  | _ => None
  end.

(** [e], an optional sign, and at least one digit. *)
Definition exp_part (s : string) : option (string * string) :=
  match s with
  | String e r =>
      if is_char 101 e || is_char 69 e then
        match r with
        | String sg r' =>
            if is_char 43 sg || is_char 45 sg then
              match r' with
              | String d _ =>
                  if is_ascii_digit d
                  then Some (String e (String sg (digits_of r')), after_digits r')
                  else None
              | EmptyString => None
              end
            else if is_ascii_digit sg
            then Some (String e (digits_of r), after_digits r)
            else None
        | EmptyString => None
        end
      else None
  | EmptyString => None
  end.

Definition or_none (p : option (string * string)) (s : string) : string * string :=
  match p with Some x => x | None => ("", s) end.

(** The longest number at the start of [s]: an integer when it has neither
    fraction nor exponent, which [int()] refuses when it has more than
    [MAX_STR_DIGITS] digits. *)
Definition match_number (s : string) : option (json * string) :=
  let '(sign, s1) :=
    match s with
    | String c r => if is_char 45 c then ("-", r) else ("", s)
    | EmptyString => ("", s)
    end in
  match int_part s1 with
  | None => None
  | Some (ip, s2) =>
      let '(fp, s3) := or_none (frac_part s2) s2 in
      let '(ep, s4) := or_none (exp_part s3) s3 in
      if is_empty fp && is_empty ep then
        if (MAX_STR_DIGITS <? N.of_nat (String.length ip))%N then None else
        match digits_value ip false 0 with
        | Some z => Some (JInt (if is_empty sign then z else Z.opp z), s4)
        | None => None
        end
      else Some (JFloat (sign ++ ip ++ fp ++ ep), s4)
  end.

Fixpoint drop (n : nat) (s : string) : string :=
  match n, s with
  | S n', String _ r => drop n' r
  | _, _ => s
  end.

Definition keyword (w : string) (v : json) (s : string) : option (json * string) :=
  if starts_with w s then Some (v, drop (String.length w) s) else None.

Definition first_some {A : Type} (a b : option A) : option A :=
  match a with Some _ => a | None => b end.

(** Everything but strings, arrays and objects. *)
Definition scan_atom (s : string) : option (json * string) :=
  first_some (keyword "null" JNull s)
 (first_some (keyword "true" (JBool true) s)
 (first_some (keyword "false" (JBool false) s)
 (first_some (keyword "NaN" JNaN s)
 (first_some (keyword "Infinity" (JInf false) s)
 (first_some (keyword "-Infinity" (JInf true) s)
             (match_number s)))))).

(** ** Values *)

Definition of_option {A : Type} (o : option A) : outcome A :=
  match o with Some a => Val a | None => Err end.

Fixpoint scan_once (fuel : nat) (s : string) : outcome (json * string) :=
  match fuel with
  | O => NoFuel
  | S f =>
      match s with
      | EmptyString => Err
      | String c r =>
          if is_char 34 c then
            match scanstring r with
            | Some (u, rest) => Val (JStr u, rest)
            | None => Err
            end
          else if is_char 123 c then
            match skip_ws r with
            | String c' r' =>
                if is_char 125 c' then Val (JObj [], r')
                else parse_pairs f (String c' r') []
            | EmptyString => Err
            end
          else if is_char 91 c then
            match skip_ws r with
            | String c' r' =>
                if is_char 93 c' then Val (JArr [], r')
                else parse_items f (String c' r') []
            | EmptyString => Err
            end
          else of_option (scan_atom s)
      end
  end
with parse_items (fuel : nat) (s : string) (seen : list json)
  : outcome (json * string) :=
  match fuel with
  | O => NoFuel
  | S f =>
      match scan_once f s with
      | Val (v, r) =>
          match skip_ws r with
          | String c r' =>
              if is_char 93 c then Val (JArr (rev (v :: seen)), r')
              else if is_char 44 c then parse_items f (skip_ws r') (v :: seen)
              else Err
          | EmptyString => Err
          end
      | Err => Err
      | NoFuel => NoFuel
      end
  end
with parse_pairs (fuel : nat) (s : string) (seen : list (ustring * json))
  : outcome (json * string) :=
  match fuel with
  | O => NoFuel
  | S f =>
      match s with
      | String c r =>
          if is_char 34 c then
            match scanstring r with
            | Some (key, r1) =>
                match skip_ws r1 with
                | String c2 r2 =>
                    if is_char 58 c2 then
                      match scan_once f (skip_ws r2) with
                      | Val (v, r3) =>
                          match skip_ws r3 with
                          | String c3 r4 =>
                              if is_char 125 c3
                              then Val (JObj (rev ((key, v) :: seen)), r4)
                              else if is_char 44 c3
                              then parse_pairs f (skip_ws r4) ((key, v) :: seen)
                              else Err
                          | EmptyString => Err
                          end
                      | Err => Err
                      | NoFuel => NoFuel
                      end
                    else Err
                | EmptyString => Err
                end
            | None => Err
            end
          else Err
      | EmptyString => Err
      end
  end.

(** Enough fuel for any document of that length. *)
Definition fuel_for (s : string) : nat := 2 * String.length s + 2.

(** [json.loads(s)]: one value, blanks around it, nothing else. *)
Definition loads (s : string) : outcome json :=
  match scan_once (fuel_for s) (skip_ws s) with
  | Val (v, rest) => if is_empty (skip_ws rest) then Val v else Err
  | Err => Err
  | NoFuel => NoFuel
  end.

(** ** The decoded document as Python sees it *)

Fixpoint ueqb (a b : ustring) : bool :=
  match a, b with
  | [], [] => true
  | x :: a', y :: b' => (x =? y)%N && ueqb a' b'
  | _, _ => false
  end.

(** [d.get(key, default)] on the pairs of an object: the last pair with
    that key. *)
Fixpoint dict_get (key : ustring) (pairs : list (ustring * json)) (default : json)
  : json :=
  match pairs with
  | [] => default
  | (k, v) :: rest => dict_get key rest (if ueqb k key then v else default)
  end.

(** [str.isspace] on any code point. *)
Definition is_uspace (n : N) : bool :=
  between 9 13 n || between 28 32 n || (n =? 133)%N || (n =? 160)%N
  || (n =? 5760)%N || between 8192 8202 n || (n =? 8232)%N || (n =? 8233)%N
  || (n =? 8239)%N || (n =? 8287)%N || (n =? 12288)%N.

Definition ustrip (u : ustring) : ustring :=
  let dropl := fix dropl (u : ustring) : ustring :=
    match u with
    | [] => []
    | n :: r => if is_uspace n then dropl r else u
    end in
  rev (dropl (rev (dropl u))).

(** [str.lower] on a code point.  Below 256 it is [lower_char]; five code
    points above have a lowercase with a character below 256.  The lowercase
    of every other one stays above 255: it is left as it is, which no
    comparison with Latin-1 text can tell. *)
Definition ulower_char (n : N) : ustring :=
  if (n <? 256)%N then [code (lower_char (ascii_of_N n))]
  else if (n =? 304)%N then [105; 775]%N
  else if (n =? 376)%N then [255]%N
  else if (n =? 7838)%N then [223]%N
  else if (n =? 8490)%N then [107]%N
  else if (n =? 8491)%N then [229]%N
  else [n]%N.

Definition ulower (u : ustring) : ustring := flat_map ulower_char u.

End Json.

(* ================================================================== *)
(** * [IntentClassifierLLM] (intent_classifier.py) *)
(* ================================================================== *)

Module Intent.
Import Py PyNotations Json.

(** ** The language-model service

    [LLMClient.chat(messages, temperature, max_tokens, model)] is outside
    the program: a call returns text or raises, as the service decides. *)

Record request : Type := mk_request {
  messages : list (string * string);   (* role, content *)
  model : option string;
  temperature : Q;
  max_tokens : Z
}.

Definition service : Type := request -> result string.

(** [a or b] for an optional string: [None] and the empty string are falsy. *)
Definition str_or (a : option string) (b : string) : string :=
  match a with
  | Some s => if is_empty s then b else s
  | None => b
  end.

(** ** The three searches of the parser *)

(** [re.search] for the pattern [\{.*?\}] with [re.S]: from the first brace that has
    a closing brace after it, through the nearest closing brace. *)
Fixpoint through_close (s : string) : option string :=
  match s with
  | EmptyString => None
  | String c r =>
      if is_char 125 c then Some (String c EmptyString)
      else option_map (String c) (through_close r)
  end.

Fixpoint search_object (txt : string) : option string :=
  match txt with
  | EmptyString => None
  | String c r =>
      match (if is_char 123 c then through_close r else None) with
      | Some body => Some (String c body)
      | None => search_object r
      end
  end.

(** A literal of the pattern with [re.I]: the text agrees with it
    character by character up to case. *)
Fixpoint match_nocase (lit s : string) : option string :=
  match lit, s with
  | EmptyString, _ => Some s
  | String a lit', String b s' =>
      if Ascii.eqb (lower_char a) (lower_char b) then match_nocase lit' s' else None
  | String _ _, EmptyString => None
  end.

Definition match_char (n : N) (s : string) : option string :=
  match s with
  | String c r => if is_char n c then Some r else None
  | EmptyString => None
  end.

Definition not_quote (c : ascii) : bool := negb (is_char 34 c).

(** The pattern [`intent`\s*:\s*`([^`]+)`] (a backquote standing for a
    double quote) at the start of [s]: its group 1. *)
Definition match_intent_field (s : string) : option string :=
  match match_nocase (q "`intent`") s with
  | None => None
  | Some s1 =>
      match match_char 58 (drop_while is_space s1) with
      | None => None
      | Some s2 =>
          match match_char 34 (drop_while is_space s2) with
          | None => None
          | Some s3 =>
              let group := take_while not_quote s3 in
              match match_char 34 (drop_while not_quote s3) with
              | Some _ => if is_empty group then None else Some group
              | None => None
              end
          end
      end
  end.

(** [re.search] for that pattern with [re.I]: group 1 of the leftmost
    match. *)
Fixpoint search_intent_field (txt : string) : option string :=
  match match_intent_field txt with
  | Some group => Some group
  | None =>
      match txt with
      | EmptyString => None
      | String _ r => search_intent_field r
      end
  end.

Definition word_before (prev : option ascii) : bool :=
  match prev with Some c => is_word_char c | None => false end.

Definition word_at (s : string) : bool :=
  match s with String c _ => is_word_char c | EmptyString => false end.

(** [\b] between the character [prev] and the text [s]. *)
Definition boundary (prev : option ascii) (s : string) : bool :=
  xorb (word_before prev) (word_at s).

(** The text after the literal [lit] at the start of [s], and the last
    character gone over ([prev] when [lit] is empty). *)
Fixpoint match_literal (lit s : string) (prev : option ascii)
  : option (option ascii * string) :=
  match lit, s with
  | EmptyString, _ => Some (prev, s)
  | String a lit', String b s' =>
      if Ascii.eqb a b then match_literal lit' s' (Some b) else None
  | String _ _, EmptyString => None
  end.

Definition match_word (lbl : string) (prev : option ascii) (s : string) : bool :=
  boundary prev s &&
  match match_literal lbl s prev with
  | Some (last, rest) => boundary last rest
  | None => false
  end.

(** [re.search] for [\b], the label taken literally, [\b] finds a match
    in [txt], [prev] being the character before [txt]. *)
Fixpoint search_word_from (lbl : string) (prev : option ascii) (txt : string) : bool :=
  match_word lbl prev txt ||
  match txt with
  | EmptyString => false
  | String c r => search_word_from lbl (Some c) r
  end.

Definition search_word (lbl txt : string) : bool := search_word_from lbl None txt.

Section Classifier.

(** [str(x)] for a float or a container is the interpreter's [repr]: a
    parameter of the model. *)
Variable py_repr : json -> ustring.

(** [str(x)] for a decoded value. *)
Definition py_str (v : json) : ustring :=
  match v with
  | JStr s => s
  | JNull => ustr "None"
  | JBool true => ustr "True"
  | JBool false => ustr "False"
  | JInt z => ustr (str_of_int z)
  | JNaN => ustr "nan"
  | JInf false => ustr "inf"
  | JInf true => ustr "-inf"
  | JFloat _ | JArr _ | JObj _ => py_repr v
  end.

(** ** The classifier *)

Record IntentClassifierLLM : Type := mk_classifier {
  valid_intents : list string;
  model_name : string;
  enable_caching : bool;
  max_cache_size : Z;
  log_performance : bool;
  cache : option (LRU.LRUCache string);
  cache_hits : Z;
  cache_misses : Z
}.

Definition default_intents : list string :=
  ["get_stats"; "compare"; "get_roster"; "get_result"; "get_player_info";
   "top_stat_in_game"; "get_grades"].

(** The state [__init__] leaves, given what the configuration supplies. *)
Definition init (intents : list string) (model_name : string)
    (enable_caching : bool) (max_cache_size : Z) (log_performance : bool)
  : IntentClassifierLLM :=
  mk_classifier intents model_name enable_caching max_cache_size log_performance
    (if enable_caching then Some (LRU.new max_cache_size) else None) 0 0.

Definition default_classifier : IntentClassifierLLM :=
  init default_intents "phi3:3.8b" true 256 true.

(** Stage A: the first [{...}] span, decoded; its [intent] entry, trimmed
    and lowercased, when that is a valid label.  [None] stands for falling
    through, after a decoding error as well. *)
Definition stage_json (labels : list string) (txt : string) : option string :=
  match search_object txt with
  | None => None
  | Some span =>
      match loads span with
      | Val (JObj pairs) =>
          let intent := ulower (ustrip (py_str (dict_get (ustr "intent") pairs (JStr [])))) in
          find (fun lbl => ueqb intent (ustr lbl)) labels
      | _ => None
      end
  end.

(** Stage B: the intent field anywhere in the text. *)
Definition stage_field (labels : list string) (txt : string) : option string :=
  match search_intent_field txt with
  | None => None
  | Some group =>
      let intent := lower (strip group) in
      if mem_str intent labels then Some intent else None
  end.

(** Stage C: the labels that occur in the lowercased text as whole words. *)
Definition found_labels (labels : list string) (txt : string) : list string :=
  filter (fun lbl => search_word lbl (lower txt)) labels.

Definition stage_words (labels : list string) (txt : string) : string :=
  match found_labels labels txt with
  | [] => "get_stats"
  | found =>
      match filter (fun lbl => negb (String.eqb lbl "get_stats")) found with
      | first :: _ => first
      | [] => "get_stats"
      end
  end.

Definition _parse_llm_json_or_label (self : IntentClassifierLLM) (raw : string)
  : string :=
  let txt := strip raw in
  match stage_json (valid_intents self) txt with
  | Some intent => intent
  | None =>
      match stage_field (valid_intents self) txt with
      | Some intent => intent
      | None => stage_words (valid_intents self) txt
      end
  end.

Definition nl : string := String (ascii_of_N 10) EmptyString.

Definition prompt_for (self : IntentClassifierLLM) (query : string) : string :=
  "You are an intent classifier for rugby queries." ++ nl ++
  "Choose exactly ONE label from this set:" ++ nl ++
  join ", " (valid_intents self) ++ nl ++ nl ++
  q "Return THE INTENT ONLY (no markdown, no code fences, no extra text): {`intent`:`<one of the labels>`}" ++ nl ++
  "Classification hints (concise):" ++ nl ++
  "- Phrases like 'how many', 'number of' => get_stats" ++ nl ++
  "- 'who scored the most/best/top' => top_stat_in_game (NOT get_stats)" ++ nl ++
  "- 'compare X with Y' => compare" ++ nl ++
  "- 'roster', 'lineup', 'squad' => get_roster" ++ nl ++
  "- 'final score', 'result' => get_result" ++ nl ++
  "- 'grade', 'grades', 'rating,' => get grades" ++ nl ++ nl ++
  "Query: " ++ query ++ nl.

(** The one call [_classify_with_llm] makes. *)
Definition request_for (self : IntentClassifierLLM) (query : string)
    (model : option string) : request :=
  mk_request [("user", prompt_for self query)]
    (Some (str_or model (model_name self))) 0 16.

(** The call is inside [try]: whatever it raises becomes [get_stats]. *)
Definition _classify_with_llm (client : service) (self : IntentClassifierLLM)
    (query : string) (model : option string) : string :=
  match client (request_for self query model) with
  | Ok raw => _parse_llm_json_or_label self raw
  | Raise _ => "get_stats"
  end.

Definition with_cache (self : IntentClassifierLLM) (c : option (LRU.LRUCache string))
    (hits misses : Z) : IntentClassifierLLM :=
  mk_classifier (valid_intents self) (model_name self) (enable_caching self)
    (max_cache_size self) (log_performance self) c hits misses.

(** [classify]: the label and the classifier afterwards.  An [LRUCache]
    object is always truthy, so [if self.cache] asks whether there is one;
    [if cached] asks for a non-empty string.  What [verbose] prints is left
    out. *)
Definition classify (client : service) (self : IntentClassifierLLM)
    (query : string) (model : option string)
  : result (string * IntentClassifierLLM) :=
  let qs := strip query in
  if is_empty qs then Ok ("get_stats", self)
  else
    let norm := lower qs in
    let call (self' : IntentClassifierLLM) :=
      let intent := _classify_with_llm client self' qs model in
      match cache self' with
      | Some c =>
          c' <- LRU.put norm intent c ;;
          Ok (intent, with_cache self' (Some c') (cache_hits self') (cache_misses self'))
      | None => Ok (intent, self')
      end in
    match cache self with
    | Some c =>
        '(cached, c') <- LRU.get norm c ;;
        match cached with
        | Some label =>
            if is_empty label
            then call (with_cache self (Some c') (cache_hits self) (cache_misses self + 1))
            else Ok (label, with_cache self (Some c') (cache_hits self + 1) (cache_misses self))
        | None =>
            call (with_cache self (Some c') (cache_hits self) (cache_misses self + 1))
        end
    | None => call self
    end.

(** The query misses the cache: there is no entry, or its label is empty. *)
Definition misses (self : IntentClassifierLLM) (query : string) : Prop :=
  match cache self with
  | Some c =>
      LRU.get_value (lower (strip query)) c = Ok None \/
      LRU.get_value (lower (strip query)) c = Ok (Some "")
  | None => True
  end.

End Classifier.

End Intent.

(* ================================================================== *)
(** * [classify_query] (routing_classifier.py) *)
(* ================================================================== *)

Module Routing.
Import Py PyNotations.

(** What [load_prompt] returns for the routing classifier: a mapping with
    an optional system prompt and optional examples, each example a mapping
    of its own. *)
Record prompt_data : Type := mk_prompt {
  system : option string;
  examples : option (list (list (string * string)))
}.

(** [d[key]] on an example. *)
Fixpoint lookup (key : string) (d : list (string * string)) : result string :=
  match d with
  | [] => Raise (mk_exn KeyError ("'" ++ key ++ "'"))
  | (k, v) :: rest => if String.eqb key k then Ok v else lookup key rest
  end.

Definition option_default {A : Type} (o : option A) (d : A) : A :=
  match o with Some a => a | None => d end.

(** The messages sent: the system prompt, each example as a user turn and
    an assistant turn, then the query. *)
Definition build_messages (p : prompt_data) (query : string)
  : result (list (string * string)) :=
  msgs <- for_each
            (fun msgs example =>
               user <- lookup "user" example ;;
               route <- lookup "route" example ;;
               Ok (msgs ++ [("user", user); ("assistant", route)]))
            (option_default (examples p) [])
            [("system", option_default (system p) "")] ;;
  Ok (msgs ++ [("user", query)]).

(** The characters stripped around the first token (a backquote stands
    for the double quote). *)
Definition punctuation : string := q ".,:;!?'`-_/\()[]{}".

(** The first whitespace-delimited token of the lowercased, trimmed
    response without the punctuation around it. *)
Definition first_token (response : string) : result string :=
  first <- (if is_empty response then Ok "" else split_first response) ;;
  Ok (strip_chars punctuation first).

(** The chain of [if]/[elif] over the first token and the response. *)
Definition map_variants (first response : string) : string :=
  if mem_str first ["simple"; "s"] then "simple"
  else if mem_str first ["complex"; "c"] then "complex"
  else if isdigit first then "simple"
  else if contains "error" response || contains "llmclient" response then "simple"
  else first.

(** From the raw response to the route. *)
Definition normalize (raw : string) : result string :=
  let response := lower (strip raw) in
  first <- first_token response ;;
  let normalized_response := map_variants first response in
  if negb (mem_str normalized_response ["simple"; "complex"])
  then Ok "simple"
  else Ok normalized_response.

(** The body of the [try] block. *)
Definition classify_body (load_prompt : result prompt_data)
    (client : Intent.service) (query : string) (model : option string)
  : result string :=
  p <- load_prompt ;;
  msgs <- build_messages p query ;;
  raw <- client (Intent.mk_request msgs model 0 4) ;;
  normalize raw.

(** [classify_query]: any exception of the body becomes [simple].  What
    [verbose] prints and what is logged are left out. *)
Definition classify_query (load_prompt : result prompt_data)
    (client : Intent.service) (query : string) (model : option string) : string :=
  match classify_body load_prompt client query model with
  | Ok route => route
  | Raise _ => "simple"
  end.

End Routing.

(* ================================================================== *)
(** * [SimpleRugbyDataHandler] (data_handler.py) *)
(* ================================================================== *)

Module Data.
Import Py PyNotations.

(** ** Loaded values

    Games and events are kept as [json.load] returns them.  A float is the
    rational it stands for, or an infinity, or not-a-number. *)

Inductive pyfloat : Type :=
| Finite (x : Q)
| Infinite (negative : bool)
| NaN.

Inductive value : Type :=
| VNone
| VBool (b : bool)
| VInt (z : Z)
| VFloat (f : pyfloat)
| VStr (s : string)
| VList (items : list value)
| VDict (pairs : list (value * value)).

(** [type(v).__name__] *)
Definition type_name (v : value) : string :=
  match v with
  | VNone => "NoneType"
  | VBool _ => "bool"
  | VInt _ => "int"
  | VFloat _ => "float"
  | VStr _ => "str"
  | VList _ => "list"
  | VDict _ => "dict"
  end.

Definition attribute_error (v : value) (attr : string) : exn :=
  mk_exn AttributeError
    ("'" ++ type_name v ++ "' object has no attribute '" ++ attr ++ "'").

(** A dictionary literal with string keys. *)
Definition dict (fields : list (string * value)) : value :=
  VDict (map (fun kv => (VStr (fst kv), snd kv)) fields).

Definition strings (xs : list string) : value := VList (map VStr xs).

(** ** Comparison, truth, hashing *)

Inductive number : Type :=
| NInt (z : Z)
| NFloat (f : pyfloat).

Definition as_number (v : value) : option number :=
  match v with
  | VBool b => Some (NInt (if b then 1 else 0))
  | VInt z => Some (NInt z)
  | VFloat f => Some (NFloat f)
  | _ => None
  end.

Definition float_eqb (f g : pyfloat) : bool :=
  match f, g with
  | Finite x, Finite y => Qeq_bool x y
  | Infinite a, Infinite b => Bool.eqb a b
  | _, _ => false
  end.

Definition number_eqb (a b : number) : bool :=
  match a, b with
  | NInt x, NInt y => (x =? y)%Z
  | NInt x, NFloat f => float_eqb (Finite (inject_Z x)) f
  | NFloat f, NInt y => float_eqb f (Finite (inject_Z y))
  | NFloat f, NFloat g => float_eqb f g
  end.

Definition is_nan (v : value) : bool :=
  match v with VFloat NaN => true | _ => false end.

(** [a == b].  Two dictionaries are equal when they have the same keys with
    equal values; a not-a-number equals nothing, itself included.  The items
    of two containers are compared as a dictionary matches a key: an object
    is equal to itself before [==] is asked.  Of the loaded values only the
    not-a-number differs from itself, and [json] returns one object for
    every [NaN] it reads: inside a container, not-a-number equals
    not-a-number. *)
Fixpoint py_eq (a b : value) {struct a} : bool :=
  match a, b with
  | VNone, VNone => true
  | VStr s, VStr t => String.eqb s t
  | VList xs, VList ys =>
      (fix all2 (xs ys : list value) {struct xs} : bool :=
         match xs, ys with
         | [], [] => true
         | x :: xs', y :: ys' =>
             ((is_nan x && is_nan y) || py_eq x y) && all2 xs' ys'
         | _, _ => false
         end) xs ys
  | VDict ps, VDict qs =>
      Nat.eqb (List.length ps) (List.length qs) &&
      (fix sub (ps : list (value * value)) {struct ps} : bool :=
         match ps with
         | [] => true
         | (k, v) :: ps' =>
             (fix look (qs : list (value * value)) {struct qs} : bool :=
                match qs with
                | [] => false
                | (k', v') :: qs' =>
                    if (is_nan k && is_nan k') || py_eq k k'
                    then (is_nan v && is_nan v') || py_eq v v'
                    else look qs'
                end) qs
             && sub ps'
         end) ps
  | VBool x, _ =>
      match as_number b with
      | Some n => number_eqb (NInt (if x then 1 else 0)) n
      | None => false
      end
  | VInt x, _ =>
      match as_number b with Some n => number_eqb (NInt x) n | None => false end
  | VFloat f, _ =>
      match as_number b with Some n => number_eqb (NFloat f) n | None => false end
  | _, _ => false
  end.

(** [a is b or a == b]: how a dictionary matches a key. *)
Definition is_or_eq (a b : value) : bool := (is_nan a && is_nan b) || py_eq a b.

(** [bool(v)] *)
Definition truthy (v : value) : bool :=
  match v with
  | VNone => false
  | VBool b => b
  | VInt z => negb (z =? 0)%Z
  | VFloat (Finite x) => negb (Qeq_bool x 0)
  | VFloat _ => true
  | VStr s => negb (is_empty s)
  | VList items => match items with [] => false | _ => true end
  | VDict pairs => match pairs with [] => false | _ => true end
  end.

(** What a dictionary key must pass: lists and dictionaries do not hash. *)
Definition hash_check (v : value) : result unit :=
  match v with
  | VList _ | VDict _ =>
      Raise (mk_exn TypeError ("unhashable type: '" ++ type_name v ++ "'"))
  | _ => Ok tt
  end.

(** ** Methods on loaded values *)

Fixpoint lookup_str (key : string) (pairs : list (value * value)) : option value :=
  match pairs with
  | [] => None
  | (k, v) :: rest => if py_eq k (VStr key) then Some v else lookup_str key rest
  end.

(** [v.get(key, default)] *)
Definition get (v : value) (key : string) (default : value) : result value :=
  match v with
  | VDict pairs =>
      Ok (match lookup_str key pairs with Some x => x | None => default end)
  | _ => Raise (attribute_error v "get")
  end.

(** [v.lower()] *)
Definition lower_of (v : value) : result string :=
  match v with
  | VStr s => Ok (lower s)
  | _ => Raise (attribute_error v "lower")
  end.

(** The integer part of a rational, towards zero. *)
Definition truncate (x : Q) : Z := Z.quot (Qnum x) (Zpos (Qden x)).

Definition int_type_error (v : value) : exn :=
  mk_exn TypeError
    ("int() argument must be a string, a bytes-like object or a real number, not '"
       ++ type_name v ++ "'").

(** [int(v)] *)
Definition int_of (v : value) : result Z :=
  match v with
  | VBool b => Ok (if b then 1 else 0)%Z
  | VInt z => Ok z
  | VFloat (Finite x) => Ok (truncate x)
  | VFloat (Infinite _) =>
      Raise (mk_exn OverflowError "cannot convert float infinity to integer")
  | VFloat NaN => Raise (mk_exn ValueError "cannot convert float NaN to integer")
  | VStr s => int_of_str s
  | VNone | VList _ | VDict _ => Raise (int_type_error v)
  end.

(** ** Players, the handler, its results *)

(** The dictionary [_extract_players_from_game] builds for a roster entry:
    always these twelve keys. *)
Record player : Type := mk_player {
  game_id : value;
  team_id : value;
  team_name : value;
  team_type : value;
  jersey_number : value;
  position : value;
  player_id : value;
  first_name : value;
  last_name : value;
  country : value;
  weight : value;
  height : value
}.

Definition player_dict (p : player) : value :=
  dict [("game_id", game_id p); ("team_id", team_id p);
        ("team_name", team_name p); ("team_type", team_type p);
        ("jersey_number", jersey_number p); ("position", position p);
        ("player_id", player_id p); ("first_name", first_name p);
        ("last_name", last_name p); ("country", country p);
        ("weight", weight p); ("height", height p)].

Record handler : Type := mk_handler {
  games : list value;
  events : list value;
  players : list player
}.

Record QueryResult : Type := mk_result {
  intent : string;
  data : list value;
  success : bool;
  error : option string;
  metadata : option value
}.

(** [entities.get(key, [])] on the extracted entities. *)
Definition entity_set : Type := list (string * list string).

Fixpoint entities_get (key : string) (entities : entity_set) : list string :=
  match entities with
  | [] => []
  | (k, v) :: rest => if String.eqb key k then v else entities_get key rest
  end.

Definition nonempty {A : Type} (xs : list A) : bool :=
  match xs with [] => false | _ => true end.

(** [None if results else message] *)
Definition error_unless (results : list value) (message : string) : option string :=
  if nonempty results then None else Some message.

(** [[x for x in xs if test(x)]] with a test that can raise. *)
Fixpoint filter_r {A : Type} (test : A -> result bool) (xs : list A)
  : result (list A) :=
  match xs with
  | [] => Ok []
  | x :: rest =>
      b <- test x ;;
      kept <- filter_r test rest ;;
      Ok (if b then x :: kept else kept)
  end.

(** A loop that leaves at the first [x] whose test holds. *)
Fixpoint exists_r {A : Type} (test : A -> result bool) (xs : list A) : result bool :=
  match xs with
  | [] => Ok false
  | x :: rest =>
      b <- test x ;;
      if b then Ok true else exists_r test rest
  end.

(** [for x in xs: if test(x): return x], then [return None]. *)
Fixpoint first_r {A : Type} (test : A -> result bool) (xs : list A)
  : result (option A) :=
  match xs with
  | [] => Ok None
  | x :: rest =>
      b <- test x ;;
      if b then Ok (Some x) else first_r test rest
  end.

(** ** [_extract_grade] *)

(** [try: return int(grade)], [except (ValueError, TypeError): pass]: the
    integer, [None] for going on, or any other exception. *)
Definition try_int (grade : value) : result (option Z) :=
  match grade with
  | VNone => Ok None
  | _ =>
      match int_of grade with
      | Ok z => Ok (Some z)
      | Raise e =>
          match exn_type e with
          | ValueError | TypeError => Ok None
          | _ => Raise e
          end
      end
  end.

Definition _extract_grade (event : value) : result (option Z) :=
  metadata <- get event "metadata" (VDict []) ;;
  grade <- get metadata "grade" VNone ;;
  nested <- try_int grade ;;
  match nested with
  | Some z => Ok (Some z)
  | None =>
      grade <- get event "grade" VNone ;;
      try_int grade
  end.

Section Handlers.

(** [str(v)] for a float or a container, and the rounding of an exact
    quotient to a float ([None]: too large, [OverflowError]), are the
    interpreter's: parameters of the model. *)
Variable py_repr : value -> string.
Variable round_double : Q -> option Q.

(** [str(v)], as an f-string formats it. *)
Definition py_str (v : value) : string :=
  match v with
  | VStr s => s
  | VNone => "None"
  | VBool true => "True"
  | VBool false => "False"
  | VInt z => str_of_int z
  | VFloat _ | VList _ | VDict _ => py_repr v
  end.

(** [a / b] for integers. *)
Definition truediv (a b : Z) : result Q :=
  if (b =? 0)%Z then Raise (mk_exn ZeroDivisionError "division by zero")
  else match round_double (Qdiv (inject_Z a) (inject_Z b)) with
       | Some x => Ok x
       | None =>
           Raise (mk_exn OverflowError "integer division result too large for a float")
       end.

Variable self : handler.

(** [team_name.lower() in player['team_name'].lower()] *)
Definition on_team (name : string) (p : player) : result bool :=
  team <- lower_of (team_name p) ;;
  Ok (contains (lower name) team).

(** The name test of [_handle_get_player_info] and [_find_player]. *)
Definition name_matches (player_ref : string) (p : player) : result bool :=
  let full_name := (py_str (first_name p) ++ " " ++ py_str (last_name p))%string in
  if contains (lower player_ref) (lower full_name) then Ok true
  else
    last <- lower_of (last_name p) ;;
    Ok (contains (lower player_ref) last).

(** [if event_types:] then one of them, lowercased, occurs in the event's
    lowercased type. *)
Definition type_matches (event_types : list string) (event : value) : result bool :=
  exists_r (fun event_type =>
              ty <- get event "type" (VStr "") ;;
              ty <- lower_of ty ;;
              Ok (contains (lower event_type) ty))
           event_types.

(** ** Statistics by event type *)

Record grade_stat : Type := mk_grade_stat {
  gs_grades : list Z;
  gs_count : Z;
  gs_sum : Z;
  gs_avg : value;
  gs_min : option Z;
  gs_max : option Z
}.

Definition empty_grade_stat : grade_stat := mk_grade_stat [] 0 0 (VInt 0) None None.

Definition opt_int (o : option Z) : value :=
  match o with Some z => VInt z | None => VNone end.

Definition grade_stat_dict (g : grade_stat) : value :=
  dict [("grades", VList (map VInt (gs_grades g))); ("count", VInt (gs_count g));
        ("sum", VInt (gs_sum g)); ("avg", gs_avg g);
        ("min", opt_int (gs_min g)); ("max", opt_int (gs_max g))].

(** One more grade in an entry of [grade_stats]. *)
Definition add_grade (grade : Z) (g : grade_stat) : result grade_stat :=
  let count := (gs_count g + 1)%Z in
  let sum := (gs_sum g + grade)%Z in
  let lo := match gs_min g with
            | Some m => if (grade <? m)%Z then Some grade else Some m
            | None => Some grade
            end in
  let hi := match gs_max g with
            | Some m => if (grade >? m)%Z then Some grade else Some m
            | None => Some grade
            end in
  avg <- truediv sum count ;;
  Ok (mk_grade_stat (gs_grades g ++ [grade]) count sum (VFloat (Finite avg)) lo hi).

(** [if key not in d: d[key] = init], then [d[key] = f(d[key])]: the entry
    is the one whose key is the key given or equal to it, and a new entry
    comes last. *)
Fixpoint upsert {X : Type} (key : value) (init : X) (f : X -> result X)
    (d : list (value * X)) : result (list (value * X)) :=
  match d with
  | [] => x <- f init ;; Ok [(key, x)]
  | (k, x) :: rest =>
      if is_or_eq key k then x' <- f x ;; Ok ((k, x') :: rest)
      else rest' <- upsert key init f rest ;; Ok ((k, x) :: rest')
  end.

(** The loop both statistics functions run over their events. *)
Definition count_event (acc : list (value * Z) * list (value * grade_stat))
    (event : value) : result (list (value * Z) * list (value * grade_stat)) :=
  let '(event_counts, grade_stats) := acc in
  event_type <- get event "type" (VStr "unknown") ;;
  _ <- hash_check event_type ;;
  event_counts <- upsert event_type 0%Z (fun n => Ok (n + 1)%Z) event_counts ;;
  grade <- _extract_grade event ;;
  match grade with
  | Some g =>
      grade_stats <- upsert event_type empty_grade_stat (add_grade g) grade_stats ;;
      Ok (event_counts, grade_stats)
  | None => Ok (event_counts, grade_stats)
  end.

(** From the events of a player or a team to the statistics record. *)
Definition event_stats (selected : list value) (event_types : list string)
  : result value :=
  selected <- (if nonempty event_types
               then filter_r (type_matches event_types) selected
               else Ok selected) ;;
  '(event_counts, grade_stats) <- for_each count_event selected ([], []) ;;
  Ok (dict [("total_events", VInt (Z.of_nat (List.length selected)));
            ("event_counts", VDict (map (fun kv => (fst kv, VInt (snd kv))) event_counts));
            ("grade_stats",
             VDict (map (fun kv => (fst kv, grade_stat_dict (snd kv))) grade_stats))]).

Definition _get_player_event_stats (pid : value) (event_types : list string)
  : result value :=
  player_events <- filter_r (fun e => v <- get e "player_id" VNone ;; Ok (py_eq v pid))
                     (events self) ;;
  event_stats player_events event_types.

Definition _get_team_event_stats (tid : value) (event_types : list string)
  : result value :=
  team_events <- filter_r (fun e => v <- get e "team_id" VNone ;; Ok (py_eq v tid))
                   (events self) ;;
  event_stats team_events event_types.

(** ** Finding players *)

(** The players a jersey number selects in [_handle_get_player_info]: once
    for each named team that matches, once when no team is named. *)
Definition jersey_hits (jersey_num : Z) (teams : list string) (p : player)
  : result (list player) :=
  if py_eq (jersey_number p) (VInt jersey_num) then
    if nonempty teams then
      hits <- filter_r (fun name => on_team name p) teams ;;
      Ok (map (fun _ => p) hits)
    else Ok [p]
  else Ok [].

Definition found_players (player_ref : string) (teams : list string)
  : result (list player) :=
  if isdigit player_ref then
    jersey_num <- int_of_str player_ref ;;
    for_each (fun found p => hits <- jersey_hits jersey_num teams p ;; Ok (found ++ hits))
      (players self) []
  else filter_r (name_matches player_ref) (players self).

Definition _find_player (player_ref : string) (teams : list string)
  : result (option player) :=
  if isdigit player_ref then
    jersey_num <- int_of_str player_ref ;;
    first_r (fun p =>
               if py_eq (jersey_number p) (VInt jersey_num) then
                 if nonempty teams
                 then exists_r (fun name => on_team name p) teams
                 else Ok true
               else Ok false)
      (players self)
  else first_r (name_matches player_ref) (players self).

(** [[p for p in self.players if team_name.lower() in p['team_name'].lower()]] *)
Definition team_players (name : string) : result (list player) :=
  filter_r (on_team name) (players self).

Definition player_name (p : player) : value :=
  VStr (py_str (first_name p) ++ " " ++ py_str (last_name p)).

(** ** The handlers *)

Definition _handle_get_player_info (entities : entity_set) : result QueryResult :=
  let player_refs := entities_get "players" entities in
  let teams := entities_get "teams" entities in
  results <- for_each
    (fun results player_ref =>
       found <- found_players player_ref teams ;;
       Ok (results ++
           map (fun p =>
                  dict [("player_id", player_id p); ("name", player_name p);
                        ("jersey_number", jersey_number p);
                        ("position", position p); ("team", team_name p);
                        ("team_type", team_type p); ("game_id", game_id p)])
               found))
    player_refs [] ;;
  Ok (mk_result "get_player_info" results (nonempty results)
        (error_unless results "No matching players found") None).

Definition summary (p : player) : value :=
  dict [("name", player_name p); ("jersey_number", jersey_number p);
        ("position", position p); ("team", team_name p);
        ("player_id", player_id p)].

Definition _handle_get_stats (entities : entity_set) : result QueryResult :=
  let player_refs := entities_get "players" entities in
  let teams := entities_get "teams" entities in
  let event_types := entities_get "event_types" entities in
  results <-
    (if nonempty player_refs then
       for_each
         (fun results player_ref =>
            player_info <- _find_player player_ref teams ;;
            match player_info with
            | Some p =>
                stats <- _get_player_event_stats (player_id p) event_types ;;
                Ok (results ++
                    [dict [("player", summary p); ("statistics", stats);
                           ("event_types", strings event_types)]])
            | None => Ok results
            end)
         player_refs []
     else if nonempty teams then
       for_each
         (fun results name =>
            members <- team_players name ;;
            match members with
            | p :: _ =>
                team_stats <- _get_team_event_stats (team_id p) event_types ;;
                Ok (results ++
                    [dict [("team", VStr name); ("team_id", team_id p);
                           ("statistics", team_stats);
                           ("event_types", strings event_types)]])
            | [] => Ok results
            end)
         teams []
     else Ok []) ;;
  Ok (mk_result "get_stats" results (nonempty results)
        (error_unless results "No matching data found") None).

(** *** Rankings *)

(** [if teams:] then the event's [team_id] is that of the first player of
    one of the named teams. *)
Definition team_matches (teams : list string) (event : value) : result bool :=
  event_team_id <- get event "team_id" VNone ;;
  exists_r (fun name =>
              members <- team_players name ;;
              match members with
              | p :: _ => Ok (py_eq event_team_id (team_id p))
              | [] => Ok false
              end)
           teams.

(** The events that pass the optional type filter and team filter. *)
Definition relevant_events (teams event_types : list string) : result (list value) :=
  filter_r (fun event =>
              type_ok <- (if nonempty event_types
                          then type_matches event_types event else Ok true) ;;
              if type_ok then
                if nonempty teams then team_matches teams event else Ok true
              else Ok false)
           (events self).

(** An entry of [player_stats]. *)
Record player_stat : Type := mk_player_stat {
  count : Z;
  grades : list Z;
  grade_sum : Z;
  avg_grade : Q
}.

Definition empty_player_stat : player_stat := mk_player_stat 0 [] 0 0.

(** One more event for a player, with its grade when it has one. *)
Definition add_event (grade : option Z) (s : player_stat) : result player_stat :=
  let n := (count s + 1)%Z in
  match grade with
  | Some g =>
      let gs := grades s ++ [g] in
      let sum := (grade_sum s + g)%Z in
      avg <- truediv sum (Z.of_nat (List.length gs)) ;;
      Ok (mk_player_stat n gs sum avg)
  | None => Ok (mk_player_stat n (grades s) (grade_sum s) (avg_grade s))
  end.

(** The body of the loop that fills [player_stats]: events whose
    [player_id] is falsy are passed over. *)
Definition tally (player_stats : list (value * player_stat)) (event : value)
  : result (list (value * player_stat)) :=
  pid <- get event "player_id" VNone ;;
  if truthy pid then
    _ <- hash_check pid ;;
    grade <- _extract_grade event ;;
    upsert pid empty_player_stat (add_event grade) player_stats
  else Ok player_stats.

(** The key of [max]: the count, then the average grade, 0 without grades. *)
Definition rank_key (s : player_stat) : Z * Q :=
  (count s, if nonempty (grades s) then avg_grade s else 0%Q).

(** [a > b] on such pairs: decided at the first component that differs. *)
Definition key_gt (a b : Z * Q) : bool :=
  if negb (fst a =? fst b)%Z then (fst a >? fst b)%Z
  else if negb (Qeq_bool (snd a) (snd b)) then negb (Qle_bool (snd a) (snd b))
  else false.

(** [max(..., key=...)]: the first of the greatest. *)
Fixpoint max_from (best : value * player_stat) (rest : list (value * player_stat))
  : value * player_stat :=
  match rest with
  | [] => best
  | x :: rest' =>
      max_from (if key_gt (rank_key (snd x)) (rank_key (snd best)) then x else best)
        rest'
  end.

(** The first player record with that [player_id]. *)
Definition player_with_id (pid : value) : option player :=
  find (fun p => py_eq (player_id p) pid) (players self).

Definition top_record (p : player) (top_stats : player_stat)
    (event_types : list string) (total : nat) : value :=
  dict [("query_type", VStr "which_team");
        ("top_players",
         VList [dict [("player", summary p);
                      ("count", VInt (count top_stats));
                      ("avg_grade",
                       if nonempty (grades top_stats)
                       then VFloat (Finite (avg_grade top_stats)) else VNone)]]);
        ("event_types", strings event_types);
        ("total_events", VInt (Z.of_nat total))].

Definition _handle_get_rankings (entities : entity_set) : result QueryResult :=
  let teams := entities_get "teams" entities in
  let event_types := entities_get "event_types" entities in
  relevant <- relevant_events teams event_types ;;
  player_stats <- for_each tally relevant [] ;;
  let results :=
    match player_stats with
    | first :: rest =>
        let '(top_player_id, top_stats) := max_from first rest in
        match player_with_id top_player_id with
        | Some top_player =>
            [top_record top_player top_stats event_types (List.length relevant)]
        | None => []
        end
    | [] => []
    end in
  Ok (mk_result "get_rankings" results (nonempty results)
        (error_unless results "No ranking data found") None).

(** *** Team information, comparison, game information *)

Definition _handle_get_team_info (entities : entity_set) : result QueryResult :=
  let teams := entities_get "teams" entities in
  results <- for_each
    (fun results name =>
       members <- team_players name ;;
       match members with
       | p :: _ =>
           Ok (results ++
               [dict [("type", VStr "team_info"); ("team_name", team_name p);
                      ("players", VList (map player_dict members))]])
       | [] => Ok results
       end)
    teams [] ;;
  Ok (mk_result "get_team_info" results (nonempty results)
        (error_unless results "No matching teams found") None).

Definition _handle_compare (entities : entity_set) : result QueryResult :=
  let player_refs := entities_get "players" entities in
  let teams := entities_get "teams" entities in
  results <-
    (if (2 <=? List.length player_refs)%nat then
       comparison_data <- for_each
         (fun comparison_data player_ref =>
            player_info <- _find_player player_ref teams ;;
            match player_info with
            | Some p =>
                stats <- _get_player_event_stats (player_id p) [] ;;
                Ok (comparison_data ++
                    [dict [("player", player_dict p); ("statistics", stats)]])
            | None => Ok comparison_data
            end)
         player_refs [] ;;
       if (2 <=? List.length comparison_data)%nat
       then Ok [dict [("type", VStr "player_comparison");
                      ("comparison_data", VList comparison_data)]]
       else Ok []
     else Ok []) ;;
  Ok (mk_result "compare" results (nonempty results)
        (error_unless results "Insufficient data for comparison") None).

Definition game_summary (game : value) : result value :=
  id <- get game "id" VNone ;;
  round <- get game "round" VNone ;;
  start_time <- get game "start_time" VNone ;;
  competition <- get game "competition" VNone ;;
  venue <- get game "venue" VNone ;;
  home_team <- get game "home_team" (VDict []) ;;
  home <- get home_team "name" VNone ;;
  away_team <- get game "away_team" (VDict []) ;;
  away <- get away_team "name" VNone ;;
  Ok (dict [("game_id", id); ("round", round); ("start_time", start_time);
            ("competition", competition); ("venue", venue);
            ("home_team", home); ("away_team", away)]).

(** The entities are not looked at; no [error] is passed. *)
Definition _handle_get_game_info (entities : entity_set) : result QueryResult :=
  results <- for_each
    (fun results game => info <- game_summary game ;; Ok (results ++ [info]))
    (games self) [] ;;
  Ok (mk_result "get_game_info" results (nonempty results) None None).

(** ** [get_data_for_query] *)

Definition failure (intent message : string) : QueryResult :=
  mk_result intent [] false (Some message) None.

(** The body of the [try] block: the dispatch on the intent. *)
Definition dispatch (entities : entity_set) (intent : string) : result QueryResult :=
  if String.eqb intent "get_player_info" then _handle_get_player_info entities
  else if String.eqb intent "get_stats" then _handle_get_stats entities
  else if String.eqb intent "get_rankings" || String.eqb intent "top_stat_in_game"
  then _handle_get_rankings entities
  else if String.eqb intent "get_team_info" then _handle_get_team_info entities
  else if String.eqb intent "compare" then _handle_compare entities
  else if String.eqb intent "get_game_info" then _handle_get_game_info entities
  else Ok (failure intent ("Unknown intent: " ++ intent)).

(** Any exception of the body becomes a failed result with [str(e)]. *)
Definition get_data_for_query (entities : entity_set) (intent : string) : QueryResult :=
  match dispatch entities intent with
  | Ok r => r
  | Raise e => failure intent (exn_str e)
  end.

End Handlers.
End Data.

(* ================================================================== *)
(** * Iteration and subscripts on loaded values *)
(* ================================================================== *)

Module Values.
Import Py PyNotations Data.

(** The characters of a string, each a string of its own. *)
Fixpoint chars (s : string) : list value :=
  match s with
  | EmptyString => []
  | String c r => VStr (String c EmptyString) :: chars r
  end.

Definition not_iterable (v : value) : exn :=
  mk_exn TypeError ("'" ++ type_name v ++ "' object is not iterable").

(** What [for x in v] goes through: the items of a list, the keys of a
    dictionary, the characters of a string. *)
Definition iterate (v : value) : result (list value) :=
  match v with
  | VList items => Ok items
  | VDict pairs => Ok (map fst pairs)
  | VStr s => Ok (chars s)
  | _ => Raise (not_iterable v)
  end.

Definition not_subscriptable (v : value) : exn :=
  mk_exn TypeError ("'" ++ type_name v ++ "' object is not subscriptable").

(** [key in v] for a dictionary and a string key. *)
Definition has_key (key : string) (pairs : list (value * value)) : bool :=
  match lookup_str key pairs with Some _ => true | None => false end.

(** [v[key]] for a string key. *)
Definition getitem_key (v : value) (key : string) : result value :=
  match v with
  | VDict pairs =>
      match lookup_str key pairs with
      | Some x => Ok x
      | None => Raise (mk_exn KeyError ("'" ++ key ++ "'"))
      end
  | VList _ =>
      Raise (mk_exn TypeError "list indices must be integers or slices, not str")
  | VStr _ => Raise (mk_exn TypeError "string indices must be integers, not 'str'")
  | _ => Raise (not_subscriptable v)
  end.

(** The element at index [i] of a sequence, a negative index counting from
    the end. *)
Definition index {A : Type} (xs : list A) (i : Z) : option A :=
  let n := Z.of_nat (List.length xs) in
  if ((0 <=? i) && (i <? n))%Z then nth_error xs (Z.to_nat i)
  else if ((- n <=? i) && (i <? 0))%Z then nth_error xs (Z.to_nat (n + i))
  else None.

Fixpoint lookup_int (i : Z) (pairs : list (value * value)) : option value :=
  match pairs with
  | [] => None
  | (k, v) :: rest => if py_eq k (VInt i) then Some v else lookup_int i rest
  end.

(** [v[i]] for an integer. *)
Definition getitem_index (v : value) (i : Z) : result value :=
  match v with
  | VList items =>
      match index items i with
      | Some x => Ok x
      | None => Raise (mk_exn IndexError "list index out of range")
      end
  | VStr s =>
      match index (chars s) i with
      | Some x => Ok x
      | None => Raise (mk_exn IndexError "string index out of range")
      end
  | VDict pairs =>
      match lookup_int i pairs with
      | Some x => Ok x
      | None => Raise (mk_exn KeyError (str_of_int i))
      end
  | _ => Raise (not_subscriptable v)
  end.

(** [v.strip()] *)
Definition strip_of (v : value) : result string :=
  match v with
  | VStr s => Ok (strip s)
  | _ => Raise (attribute_error v "strip")
  end.

End Values.

(* ================================================================== *)
(** * Loading the corpus (data_handler.py) *)
(* ================================================================== *)

Module DataLoad.
Import Py PyNotations Data Values.

(** [player_data.get('player', {}).get(key)] *)
Definition player_field (player_data : value) (key : string) : result value :=
  details <- get player_data "player" (VDict []) ;;
  get details key VNone.

(** The dictionary built for one roster entry of a team, its entries
    evaluated in the order they are written. *)
Definition player_info (id team : value) (side : string) (player_data : value)
  : result player :=
  tid <- get team "id" VNone ;;
  name <- get team "name" VNone ;;
  jersey <- get player_data "jersey_number" VNone ;;
  pos <- get player_data "roster_position" VNone ;;
  pid <- player_field player_data "id" ;;
  first <- player_field player_data "first_name" ;;
  last <- player_field player_data "last_name" ;;
  nation <- player_field player_data "country" ;;
  kilos <- player_field player_data "weight" ;;
  tall <- player_field player_data "height" ;;
  Ok (mk_player id tid name (VStr side) jersey pos pid first last nation kilos tall).

(** The loop over one roster: [team.get('roster', [])], then an entry of
    [self.players] for each of its elements. *)
Definition roster_players (id team : value) (side : string) (known : list player)
  : result (list player) :=
  roster <- get team "roster" (VList []) ;;
  entries <- iterate roster ;;
  for_each (fun known player_data =>
              info <- player_info id team side player_data ;;
              Ok (known ++ [info]))
           entries known.

(** [_extract_players_from_game]: [self.players] afterwards. *)
Definition _extract_players_from_game (known : list player) (game_data : value)
  : result (list player) :=
  id <- get game_data "id" VNone ;;
  home_team <- get game_data "home_team" (VDict []) ;;
  known <- roster_players id home_team "home" known ;;
  away_team <- get game_data "away_team" (VDict []) ;;
  roster_players id away_team "away" known.

(** A path the pattern has found: what [exists()] answers when the loop
    comes to it, and what [open] and [json.load] make of the file, the
    decoded document or the exception of opening or decoding it. *)
Record file : Type := mk_file {
  exists_ : bool;
  content : result value
}.

(** One turn of the loop over the game files: a path that does not exist is
    passed over. *)
Definition load_game (self : handler) (game_file : file) : result handler :=
  if exists_ game_file then
    game_data <- content game_file ;;
    known <- _extract_players_from_game (players self) game_data ;;
    Ok (mk_handler (games self ++ [game_data]) (events self) known)
  else Ok self.

(** One turn of the loop over the event files: [self.events.extend]. *)
Definition load_events (self : handler) (event_file : file) : result handler :=
  if exists_ event_file then
    events_data <- content event_file ;;
    items <- iterate events_data ;;
    Ok (mk_handler (games self) (events self ++ items) (players self))
  else Ok self.

(** [_load_data], given the paths the two patterns find, in the order they
    are found: any exception is raised again. *)
Definition _load_data (self : handler) (game_files event_files : list file)
  : result handler :=
  self <- for_each load_game game_files self ;;
  for_each load_events event_files self.

(** [SimpleRugbyDataHandler()] *)
Definition init (game_files event_files : list file) : result handler :=
  _load_data (mk_handler [] [] []) game_files event_files.

End DataLoad.

(* ================================================================== *)
(** * [LLMClient] (llm_client.py) *)
(* ================================================================== *)

Module LLM.
Import Py PyNotations Data Values.

Record LLMClient : Type := mk_client {
  api_key : string;
  model : string;
  referer : string;
  title : string;
  base_url : string
}.

(** [LLMClient(model, title, referer)], given the class attribute
    [DEFAULT_MODEL] and what [os.getenv] finds for the key. *)
Definition init (DEFAULT_MODEL : string) (env_key : option string)
    (model : option string) (title referer : string) : result LLMClient :=
  match env_key with
  | Some key =>
      if is_empty key
      then Raise (mk_exn ValueError "OPENWEBUI_API_KEY environment variable not set")
      else Ok (mk_client key (Intent.str_or model DEFAULT_MODEL) referer title
                 "https://gpt.matchsense.dev/api/chat/completions")
  | None => Raise (mk_exn ValueError "OPENWEBUI_API_KEY environment variable not set")
  end.

(** [switch_model] *)
Definition switch_model (self : LLMClient) (model : string) : LLMClient :=
  mk_client (api_key self) model (referer self) (title self) (base_url self).

(** ** The request and the response

    [requests.post] is outside the program: it returns a response, with its
    status code and what [response.json()] gives, or raises. *)

Record payload : Type := mk_payload {
  p_model : string;
  p_messages : list (string * string);
  p_temperature : Q;
  p_max_tokens : Z;
  p_stream : bool
}.

Record http_request : Type := mk_http_request {
  url : string;
  headers : list (string * string);
  json : payload
}.

Record http_response : Type := mk_http_response {
  status_code : Z;
  body : result value
}.

Definition transport : Type := http_request -> result http_response.

(** What ends the [try] block of [chat] early: the [HTTPError] of
    [raise_for_status], or any other exception. *)
Inductive failure : Type :=
| HTTPError (status : Z)
| Unexpected (e : exn).

Inductive attempt : Type :=
| Reply (text : string)
| Failed (f : failure).

Definition lift {A : Type} (m : result A) (k : A -> attempt) : attempt :=
  match m with
  | Ok a => k a
  | Raise e => Failed (Unexpected e)
  end.

(** [response.raise_for_status()] raises for the codes 400 to 599. *)
Definition is_error_status (status : Z) : bool :=
  ((400 <=? status) && (status <? 600))%Z.

(** [response.json()[`choices`][0][`message`][`content`].strip()] *)
Definition reply_text (response : http_response) : result string :=
  document <- body response ;;
  choices <- getitem_key document "choices" ;;
  first <- getitem_index choices 0 ;;
  message <- getitem_key first "message" ;;
  content <- getitem_key message "content" ;;
  strip_of content.

Definition request_of (self : LLMClient) (req : Intent.request) : http_request :=
  mk_http_request (base_url self)
    [("Authorization", ("Bearer " ++ api_key self)%string);
     ("Content-Type", "application/json")]
    (mk_payload (Intent.str_or (Intent.model req) (model self))
       (Intent.messages req) (Intent.temperature req) (Intent.max_tokens req) false).

(** The [try] block of [chat]. *)
Definition chat_attempt (post : transport) (self : LLMClient) (req : Intent.request)
  : attempt :=
  lift (post (request_of self req)) (fun response =>
  if is_error_status (status_code response)
  then Failed (HTTPError (status_code response))
  else lift (reply_text response) Reply).

Definition sentinel : string := "[LLMClient] ERROR".

(** [chat]: both [except] clauses return the sentinel. *)
Definition chat (post : transport) (self : LLMClient) (req : Intent.request) : string :=
  match chat_attempt post self req with
  | Reply text => text
  | Failed (HTTPError _) => sentinel
  | Failed (Unexpected _) => sentinel
  end.

(** The client as the classifiers call it. *)
Definition service_of (post : transport) (self : LLMClient) : Intent.service :=
  fun req => Ok (chat post self req).

End LLM.

(* ================================================================== *)
(** * The chat interface (module1_interface.py) *)
(* ================================================================== *)

Module Interface.
Import Py PyNotations Data Values.

(** ** [_sanitize_user_input] *)

(** The line boundaries of [str.splitlines] among the characters below
    256. *)
Definition is_line_break (c : ascii) : bool :=
  let n := code c in between 10 13 n || between 28 30 n || (n =? 133)%N.

(** [s.splitlines()]: a carriage return with a line feed after it is one
    boundary; no empty line after the last boundary. *)
Fixpoint splitlines (s : string) : list string :=
  match s with
  | EmptyString => []
  | String c r =>
      if is_line_break c then
        match r with
        | String d r' =>
            if (code c =? 13)%N && (code d =? 10)%N
            then EmptyString :: splitlines r'
            else EmptyString :: splitlines r
        | EmptyString => [EmptyString]
        end
      else
        match splitlines r with
        | [] => [String c EmptyString]
        | line :: lines => String c line :: lines
        end
  end.

Definition log_prefixes : list string := ["INFO:"; "DEBUG:"; "WARNING:"; "ERROR:"].

(** [ln.strip().startswith((...))] *)
Definition is_log_line (ln : string) : bool :=
  existsb (fun prefix => starts_with prefix (strip ln)) log_prefixes.

Definition _sanitize_user_input (text : string) : string :=
  let lines := filter (fun ln => negb (is_empty (strip ln))) (splitlines text) in
  let lines := filter (fun ln => negb (is_log_line ln)) lines in
  match lines with
  | [] => ""
  | _ => strip (last lines "")
  end.

(** ** [format_response_with_llm] *)

(** What the function returns: the fixed apology, whose apostrophe is
    outside the characters of the model, or a text. *)
Inductive response : Type :=
| NoResults
| Text (s : string).

Section Format.

(** [str(v)] for a float or a container, and
    [CHAT_RESPONSE_PROMPT_TEMPLATE.format(query=..., record=...)], are the
    interpreter's and the configuration's: parameters of the model. *)
Variable py_repr : value -> string.
Variable format_template : string -> string -> result string.

(** The module's client. *)
Variable llm : Intent.service.

(** [records[0]] for a list that is not empty, a dictionary as it is,
    anything else wrapped. *)
Definition first_record (records : value) : value :=
  match records with
  | VList (first :: _) => first
  | VDict _ => records
  | _ => dict [("data", records)]
  end.

(** The answers built without the client, for a record with a
    [query_type]; [None] when the record has none of these shapes. *)
Definition direct_answer (record : value) : result (option string) :=
  match record with
  | VDict pairs =>
      if has_key "query_type" pairs then
        query_type <- getitem_key record "query_type" ;;
        if py_eq query_type (VStr "which_team") && has_key "winner" pairs then
          team_info <- getitem_key record "winner" ;;
          team <- getitem_key team_info "team" ;;
          n <- getitem_key team_info "count" ;;
          Ok (Some (py_str py_repr team ++ " had the most with "
                      ++ py_str py_repr n ++ ".")%string)
        else if py_eq query_type (VStr "which_team") && has_key "top_players" pairs then
          top_players <- getitem_key record "top_players" ;;
          if truthy top_players then
            first <- getitem_index top_players 0 ;;
            player <- getitem_key first "player" ;;
            first <- getitem_index top_players 0 ;;
            n <- getitem_key first "count" ;;
            team <- getitem_key player "team" ;;
            jersey <- getitem_key player "jersey_number" ;;
            Ok (Some (py_str py_repr team ++ " (#" ++ py_str py_repr jersey
                        ++ ") had the most with " ++ py_str py_repr n ++ ".")%string)
          else Ok None
        else Ok None
      else Ok None
  | _ => Ok None
  end.

Definition format_response_with_llm (data : value) (query : string)
  : result response :=
  records <- get data "data" (VList []) ;;
  if negb (truthy records) then Ok NoResults
  else
    let record := first_record records in
    direct <- direct_answer record ;;
    match direct with
    | Some answer => Ok (Text answer)
    | None =>
        prompt <- format_template (strip query) (py_str py_repr record) ;;
        match llm (Intent.mk_request [("user", prompt)] None (3 # 10)%Q 100) with
        | Ok reply => Ok (Text (strip reply))
        | Raise e => Ok (Text ("Error formatting response with LLM: " ++ exn_str e)%string)
        end
    end.

End Format.

End Interface.

(* ================================================================== *)
(** * The utilities of [IntentClassifierLLM] (intent_classifier.py) *)
(* ================================================================== *)

Module IntentTools.
Import Py PyNotations Intent.

(** [clear_cache]: with a cache, the cache is emptied and both counters go
    back to zero; without one nothing changes. *)
Definition clear_cache (self : IntentClassifierLLM) : IntentClassifierLLM :=
  match cache self with
  | Some c => with_cache self (Some (LRU.clear c)) 0 0
  | None => self
  end.

Section Stats.

(** The rounding of a quotient to a float, as in [Data]. *)
Variable round_double : Q -> option Q.

(** [get_cache_stats] *)
Definition disabled : Data.value := Data.dict [("enabled", Data.VBool false)].

Definition get_cache_stats (self : IntentClassifierLLM) : result Data.value :=
  if negb (enable_caching self) then Ok disabled
  else
    match cache self with
    | None => Ok disabled
    | Some c =>
        let total := (cache_hits self + cache_misses self)%Z in
        hit_rate <- (if negb (total =? 0)%Z
                     then Data.truediv round_double (cache_hits self) total
                     else Ok 0%Q) ;;
        Ok (Data.dict [("enabled", Data.VBool true);
                       ("size", Data.VInt (Z.of_nat (LRU.size c)));
                       ("max_size", Data.VInt (max_cache_size self));
                       ("hits", Data.VInt (cache_hits self));
                       ("misses", Data.VInt (cache_misses self));
                       ("hit_rate", Data.VFloat (Data.Finite hit_rate))])
    end.

End Stats.

Section Run.

Variable py_repr : Json.json -> Json.ustring.
Variable client : service.

(** The loop of the self-test: [classify] for each query in turn, on the
    same classifier; the labels in order and the classifier afterwards. *)
Fixpoint classify_all (self : IntentClassifierLLM) (queries : list string)
  : result (list string * IntentClassifierLLM) :=
  match queries with
  | [] => Ok ([], self)
  | query :: rest =>
      '(label, self) <- classify py_repr client self query None ;;
      '(labels, self) <- classify_all self rest ;;
      Ok (label :: labels, self)
  end.

End Run.

End IntentTools.

(* ================================================================== *)
(** * The decoder never runs out of fuel *)
(* ================================================================== *)

Module JsonProps.
Import Py Json.

Local Open Scope nat_scope.

Lemma drop_while_length p s : String.length (drop_while p s) <= String.length s.
Proof.
  induction s as [|c s IH]; simpl; [lia|]. destruct (p c); simpl; lia.
Qed.

Lemma skip_ws_length s : String.length (skip_ws s) <= String.length s.
Proof. apply drop_while_length. Qed.

Lemma scan_chars_shorter n :
  forall s u r, String.length s <= n -> scan_chars s = Some (u, r) ->
                String.length r < String.length s.
Proof.
  induction n as [|n IH]; intros s u r Hn H.
  - destruct s; [discriminate|simpl in Hn; lia].
  - destruct s as [|c s]; [discriminate|]. simpl in Hn. simpl in H.
    destruct (is_char 34 c); [injection H as _ <-; simpl; lia|].
    destruct (is_char 92 c).
    + destruct s as [|e s1]; [discriminate|].
      destruct (is_char 117 e).
      * destruct s1 as [|h1 [|h2 [|h3 [|h4 s2]]]]; try discriminate.
        destruct (hex4 h1 h2 h3 h4); [|discriminate].
        destruct (scan_chars s2) as [[u' r']|] eqn:E; [|discriminate].
        injection H as _ <-. apply IH in E; simpl in *; lia.
      * destruct (simple_escape e); [|discriminate].
        destruct (scan_chars s1) as [[u' r']|] eqn:E; [|discriminate].
        injection H as _ <-. apply IH in E; simpl in *; lia.
    + destruct (code c <? 32)%N; [discriminate|].
      destruct (scan_chars s) as [[u' r']|] eqn:E; [|discriminate].
      injection H as _ <-. apply IH in E; simpl in *; lia.
Qed.

Lemma scanstring_shorter s u r :
  scanstring s = Some (u, r) -> String.length r < String.length s.
Proof.
  unfold scanstring. destruct (scan_chars s) as [[u' r']|] eqn:E; [|discriminate].
  intros [= _ <-]. eapply scan_chars_shorter; [reflexivity|exact E].
Qed.

Lemma drop_length n s : String.length (drop n s) <= String.length s.
Proof.
  revert s. induction n as [|n IH]; intros [|c s]; simpl; try lia.
  specialize (IH s). lia.
Qed.

Lemma keyword_shorter w c v s j r :
  keyword (String c w) v s = Some (j, r) -> String.length r < String.length s.
Proof.
  unfold keyword. destruct (starts_with _ s) eqn:E; [|discriminate].
  intros [= _ <-]. destruct s as [|d s]; [discriminate|]. simpl.
  pose proof (drop_length (String.length w) s). lia.
Qed.

Lemma int_part_shorter s ip r :
  int_part s = Some (ip, r) -> String.length r < String.length s.
Proof.
  destruct s as [|c s]; simpl; [discriminate|].
  destruct (is_char 48 c); [intros [= _ <-]; lia|].
  destruct (is_ascii_digit c); [|discriminate].
  intros [= _ <-]. pose proof (drop_while_length is_ascii_digit s).
  unfold after_digits. lia.
Qed.

Lemma frac_part_shorter s fp r :
  frac_part s = Some (fp, r) -> String.length r <= String.length s.
Proof.
  destruct s as [|c [|d s]]; simpl; try discriminate.
  destruct (_ && _); [|discriminate]. intros [= _ <-].
  pose proof (drop_while_length is_ascii_digit s). unfold after_digits. lia.
Qed.

Lemma exp_part_shorter s ep r :
  exp_part s = Some (ep, r) -> String.length r <= String.length s.
Proof.
  destruct s as [|e s]; simpl; [discriminate|].
  destruct (_ || _); [|discriminate].
  destruct s as [|sg s']; [discriminate|].
  destruct (is_char 43 sg || is_char 45 sg).
  - destruct s' as [|d s'']; [discriminate|].
    destruct (is_ascii_digit d); [|discriminate]. intros [= _ <-].
    pose proof (drop_while_length is_ascii_digit (String d s'')).
    unfold after_digits. simpl in *. lia.
  - destruct (is_ascii_digit sg); [|discriminate]. intros [= _ <-].
    pose proof (drop_while_length is_ascii_digit (String sg s')).
    unfold after_digits. simpl in *. lia.
Qed.

Lemma or_none_shorter p s x r :
  (forall y r', p = Some (y, r') -> String.length r' <= String.length s) ->
  or_none p s = (x, r) -> String.length r <= String.length s.
Proof.
  intros H. destruct p as [[y r']|]; simpl; intros [= _ <-]; [eauto|lia].
Qed.

Lemma match_number_shorter s j r :
  match_number s = Some (j, r) -> String.length r < String.length s.
Proof.
  unfold match_number.
  set (signed := match s with
                 | String c r0 => if is_char 45 c then ("-", r0) else ("", s)
                 | EmptyString => ("", s)
                 end).
  assert (Hs : String.length (snd signed) <= String.length s).
  { subst signed. destruct s as [|c s0]; simpl; [lia|].
    destruct (is_char 45 c); simpl; lia. }
  destruct signed as [sign s1]. simpl in Hs.
  destruct (int_part s1) as [[ip s2]|] eqn:E1; [|discriminate].
  apply int_part_shorter in E1.
  destruct (or_none (frac_part s2) s2) as [fp s3] eqn:E2.
  apply or_none_shorter in E2; [|intros; eapply frac_part_shorter; eassumption].
  destruct (or_none (exp_part s3) s3) as [ep s4] eqn:E3.
  apply or_none_shorter in E3; [|intros; eapply exp_part_shorter; eassumption].
  destruct (_ && _).
  - destruct (_ <? _)%N; [discriminate|].
    destruct (digits_value ip false 0); [|discriminate]. intros [= _ <-]. lia.
  - intros [= _ <-]. lia.
Qed.

Lemma scan_atom_shorter s j r :
  scan_atom s = Some (j, r) -> String.length r < String.length s.
Proof.
  unfold scan_atom, first_some.
  repeat match goal with
  | |- context [keyword ?w ?v s] =>
      let E := fresh "E" in
      destruct (keyword w v s) as [[? ?]|] eqn:E;
      [intros [= _ <-]; eapply keyword_shorter; exact E|]
  end.
  apply match_number_shorter.
Qed.

(** With fuel for twice the text, the three mutually recursive scanners
    return a value or an error, and a value leaves a shorter text. *)
Definition fuelled (scan : string -> outcome (json * string)) (s : string) : Prop :=
  scan s <> NoFuel /\
  forall v r, scan s = Val (v, r) -> String.length r < String.length s.

Lemma scanners_fuelled fuel :
  (forall s, 2 * String.length s + 1 <= fuel -> fuelled (scan_once fuel) s)
  /\ (forall s seen, 2 * String.length s + 2 <= fuel ->
                     fuelled (fun s => parse_items fuel s seen) s)
  /\ (forall s seen, 2 * String.length s + 2 <= fuel ->
                     fuelled (fun s => parse_pairs fuel s seen) s).
Proof.
  induction fuel as [|f (IHonce & IHitems & IHpairs)].
  - repeat split; intros; lia.
  - split; [|split].
    + (* scan_once *)
      intros s Hf. unfold fuelled. simpl.
      destruct s as [|c r]; [split; [discriminate|intros; discriminate]|].
      simpl in Hf.
      destruct (is_char 34 c).
      { destruct (scanstring r) as [[u rest]|] eqn:E;
          [|split; [discriminate|intros; discriminate]].
        apply scanstring_shorter in E.
        split; [discriminate|]. intros v r' [= _ <-]. simpl. lia. }
      destruct (is_char 123 c).
      { pose proof (skip_ws_length r) as Hw.
        destruct (skip_ws r) as [|c' r'] eqn:E;
          [split; [discriminate|intros; discriminate]|].
        simpl in Hw. destruct (is_char 125 c').
        - split; [discriminate|]. intros v r0 [= _ <-]. simpl. lia.
        - destruct (IHpairs (String c' r') []) as [Hno Hlen]; [simpl; lia|].
          split; [exact Hno|]. intros v r0 Hv. apply Hlen in Hv. simpl in *. lia. }
      destruct (is_char 91 c).
      { pose proof (skip_ws_length r) as Hw.
        destruct (skip_ws r) as [|c' r'] eqn:E;
          [split; [discriminate|intros; discriminate]|].
        simpl in Hw. destruct (is_char 93 c').
        - split; [discriminate|]. intros v r0 [= _ <-]. simpl. lia.
        - destruct (IHitems (String c' r') []) as [Hno Hlen]; [simpl; lia|].
          split; [exact Hno|]. intros v r0 Hv. apply Hlen in Hv. simpl in *. lia. }
      unfold of_option.
      destruct (scan_atom (String c r)) as [[j rest]|] eqn:E;
        [|split; [discriminate|intros; discriminate]].
      apply scan_atom_shorter in E.
      split; [discriminate|]. intros v r0 [= _ <-]. exact E.
    + (* parse_items *)
      intros s seen Hf. unfold fuelled. simpl.
      destruct (IHonce s) as [Hno Hlen]; [lia|].
      destruct (scan_once f s) as [[v r]| |] eqn:E;
        [|split; [discriminate|intros; discriminate]|contradiction].
      specialize (Hlen _ _ eq_refl).
      pose proof (skip_ws_length r) as Hw.
      destruct (skip_ws r) as [|c r'] eqn:Er;
        [split; [discriminate|intros; discriminate]|].
      simpl in Hw. destruct (is_char 93 c).
      { split; [discriminate|]. intros v0 r0 [= _ <-]. lia. }
      destruct (is_char 44 c); [|split; [discriminate|intros; discriminate]].
      pose proof (skip_ws_length r') as Hw'.
      destruct (IHitems (skip_ws r') (v :: seen)) as [Hno' Hlen']; [lia|].
      split; [exact Hno'|]. intros v0 r0 Hv. apply Hlen' in Hv. lia.
    + (* parse_pairs *)
      intros s seen Hf. unfold fuelled. simpl.
      destruct s as [|c r]; [split; [discriminate|intros; discriminate]|].
      simpl in Hf.
      destruct (is_char 34 c); [|split; [discriminate|intros; discriminate]].
      destruct (scanstring r) as [[key r1]|] eqn:Ek;
        [|split; [discriminate|intros; discriminate]].
      apply scanstring_shorter in Ek.
      pose proof (skip_ws_length r1) as Hw1.
      destruct (skip_ws r1) as [|c2 r2] eqn:E1;
        [split; [discriminate|intros; discriminate]|].
      simpl in Hw1.
      destruct (is_char 58 c2); [|split; [discriminate|intros; discriminate]].
      pose proof (skip_ws_length r2) as Hw2.
      destruct (IHonce (skip_ws r2)) as [Hno Hlen]; [lia|].
      destruct (scan_once f (skip_ws r2)) as [[v r3]| |] eqn:E;
        [|split; [discriminate|intros; discriminate]|contradiction].
      specialize (Hlen _ _ eq_refl).
      pose proof (skip_ws_length r3) as Hw3.
      destruct (skip_ws r3) as [|c3 r4] eqn:E3;
        [split; [discriminate|intros; discriminate]|].
      simpl in Hw3. destruct (is_char 125 c3).
      { split; [discriminate|]. intros v0 r0 [= _ <-]. simpl. lia. }
      destruct (is_char 44 c3); [|split; [discriminate|intros; discriminate]].
      pose proof (skip_ws_length r4) as Hw4.
      destruct (IHpairs (skip_ws r4) ((key, v) :: seen)) as [Hno' Hlen']; [lia|].
      split; [exact Hno'|]. intros v0 r0 Hv. apply Hlen' in Hv. simpl. lia.
Qed.

(** [loads] decodes or fails with an error: the fuel it takes is enough. *)
Theorem loads_has_fuel s : loads s <> NoFuel.
Proof.
  unfold loads, fuel_for.
  destruct (scanners_fuelled (2 * String.length s + 2)) as (Honce & _ & _).
  pose proof (skip_ws_length s) as Hw.
  destruct (Honce (skip_ws s)) as [Hno _]; [lia|].
  destruct (scan_once _ (skip_ws s)) as [[v rest]| |]; try discriminate.
  - destruct (is_empty _); discriminate.
  - contradiction.
Qed.

End JsonProps.

(* ================================================================== *)
(** * Properties of the cache *)
(* ================================================================== *)

Module LRUProps.
Import Py PyNotations LRU.

Section Facts.
Context {V : Type}.
Implicit Types (d : odict V) (c : LRUCache V) (k : string) (v : V).

Lemma has_key_In k d : has_key k d = true <-> In k (map fst d).
Proof.
  unfold has_key. rewrite existsb_exists. split.
  - intros [[k' v] [Hin Heq]]. apply String.eqb_eq in Heq. subst.
    apply in_map_iff. now exists (k', v).
  - intros Hin. apply in_map_iff in Hin. destruct Hin as [[k' v] [Heq Hin]].
    exists (k', v). split; [assumption|]. simpl in *. subst. apply String.eqb_refl.
Qed.

Lemma has_key_false k d : has_key k d = false <-> ~ In k (map fst d).
Proof.
  rewrite <- has_key_In. destruct (has_key k d); split; intros; congruence.
Qed.

(** A key that is there can be unlinked: one entry less, the other entries
    in their order. *)
Lemma unlink_present k d :
  has_key k d = true ->
  exists v before after,
    d = before ++ (k, v) :: after /\ ~ In k (map fst before) /\
    unlink k d = Some (v, before ++ after).
Proof.
  induction d as [|[k' w] rest IH]; simpl; [discriminate|].
  destruct (String.eqb_spec k k') as [->|Hne]; simpl.
  - intros _. exists w, [], rest. simpl. tauto.
  - intros H. destruct (IH H) as (v & before & after & -> & Hnot & Heq).
    exists v, ((k', w) :: before), after. rewrite Heq. simpl.
    repeat split; try reflexivity. intros [E|E]; [congruence|tauto].
Qed.

Lemma getitem_app_fresh k v d1 d2 :
  ~ In k (map fst d1) -> getitem k (d1 ++ (k, v) :: d2) = Ok v.
Proof.
  induction d1 as [|[k' w] rest IH]; simpl; intros Hnot.
  - now rewrite String.eqb_refl.
  - destruct (String.eqb_spec k k') as [->|Hne]; [tauto|]. apply IH. tauto.
Qed.

Lemma getitem_absent k d : ~ In k (map fst d) -> is_ok (getitem k d) = false.
Proof.
  induction d as [|[k' w] rest IH]; simpl; intros Hnot; [reflexivity|].
  destruct (String.eqb_spec k k') as [->|Hne]; [tauto|]. apply IH. tauto.
Qed.

Lemma setitem_fresh k v d : ~ In k (map fst d) -> setitem k v d = d ++ [(k, v)].
Proof.
  induction d as [|[k' w] rest IH]; simpl; intros Hnot; [reflexivity|].
  destruct (String.eqb_spec k k') as [->|Hne]; [tauto|]. rewrite IH; tauto.
Qed.

Lemma setitem_present k v w d1 d2 :
  ~ In k (map fst d1) ->
  setitem k v (d1 ++ (k, w) :: d2) = d1 ++ (k, v) :: d2.
Proof.
  induction d1 as [|[k' u] rest IH]; simpl; intros Hnot.
  - now rewrite String.eqb_refl.
  - destruct (String.eqb_spec k k') as [->|Hne]; [tauto|]. rewrite IH; tauto.
Qed.

(** ** What [get] and [put] do, entry by entry *)

Lemma get_miss k c : ~ In k (keys c) -> get k c = Ok (None, c).
Proof.
  intros H. unfold get. apply has_key_false in H. now rewrite H.
Qed.

Lemma get_hit k c :
  In k (keys c) -> NoDup (keys c) ->
  exists v before after,
    cache c = before ++ (k, v) :: after /\
    get k c = Ok (Some v, mk_cache (max_size c) (before ++ after ++ [(k, v)])).
Proof.
  intros Hin Hnd. unfold get. pose proof Hin as Hk. apply has_key_In in Hk.
  rewrite Hk. destruct (unlink_present _ _ Hk) as (v & before & after & Hd & Hnot & Hu).
  exists v, before, after. split; [assumption|].
  unfold move_to_end. rewrite Hu. simpl.
  unfold keys in Hnd. rewrite Hd, map_app in Hnd. simpl in Hnd.
  apply NoDup_remove_2 in Hnd.
  rewrite <- app_assoc.
  replace (before ++ after ++ [(k, v)]) with ((before ++ after) ++ (k, v) :: [])
    by now rewrite <- app_assoc.
  rewrite getitem_app_fresh; [reflexivity|]. now rewrite map_app.
Qed.

Lemma put_fresh k v c :
  ~ In k (keys c) ->
  put k v c =
  if (Z.of_nat (size c) >=? max_size c)%Z then
    match cache c with
    | [] => Raise (mk_exn KeyError "'dictionary is empty'")
    | _ :: rest => Ok (mk_cache (max_size c) (rest ++ [(k, v)]))
    end
  else Ok (mk_cache (max_size c) (cache c ++ [(k, v)])).
Proof.
  intros H. unfold put, size. pose proof H as Hk. apply has_key_false in Hk.
  rewrite Hk. destruct (_ >=? _)%Z; simpl.
  - destruct (cache c) as [|e rest] eqn:E; simpl; [reflexivity|].
    rewrite setitem_fresh; [reflexivity|].
    unfold keys in H. rewrite E in H. simpl in H. tauto.
  - now rewrite setitem_fresh.
Qed.

Lemma put_present k v c :
  In k (keys c) -> NoDup (keys c) ->
  exists w before after,
    cache c = before ++ (k, w) :: after /\
    put k v c = Ok (mk_cache (max_size c) (before ++ after ++ [(k, v)])).
Proof.
  intros Hin Hnd. unfold put. pose proof Hin as Hk. apply has_key_In in Hk.
  rewrite Hk. destruct (unlink_present _ _ Hk) as (w & before & after & Hd & Hnot & Hu).
  exists w, before, after. split; [assumption|].
  unfold move_to_end. rewrite Hu. simpl. do 2 f_equal.
  unfold keys in Hnd. rewrite Hd, map_app in Hnd. simpl in Hnd.
  apply NoDup_remove_2 in Hnd. rewrite <- map_app in Hnd.
  rewrite <- app_assoc.
  replace (before ++ after ++ [(k, w)]) with ((before ++ after) ++ (k, w) :: [])
    by now rewrite <- app_assoc.
  rewrite setitem_present by assumption. now rewrite <- app_assoc.
Qed.

(** ** The invariant of a cache: distinct keys, no more than [max_size] *)

Definition wf c : Prop :=
  NoDup (keys c) /\ (Z.of_nat (size c) <= max_size c)%Z.

Lemma keys_move_NoDup (before after : odict V) k v w :
  NoDup (map fst (before ++ (k, w) :: after)) ->
  NoDup (map fst (before ++ after ++ [(k, v)])).
Proof.
  rewrite !map_app. simpl. intros H.
  eapply Permutation.Permutation_NoDup; [|exact H].
  apply Permutation.Permutation_app_head, Permutation.Permutation_cons_append.
Qed.

Lemma length_move (before after : odict V) k v w :
  List.length (before ++ after ++ [(k, v)]) = List.length (before ++ (k, w) :: after).
Proof. rewrite !length_app. simpl. rewrite ?length_app. simpl. lia. Qed.

Lemma wf_new m : (0 <= m)%Z -> wf (@new V m).
Proof. intros H. split; simpl; [constructor|exact H]. Qed.

Lemma get_wf k c :
  wf c ->
  exists r c', get k c = Ok (r, c') /\ max_size c' = max_size c /\ wf c' /\
               size c' = size c.
Proof.
  intros [Hnd Hsz]. destruct (in_dec string_dec k (keys c)) as [Hin|Hout].
  - destruct (get_hit _ _ Hin Hnd) as (v & before & after & Hd & ->).
    eexists _, _. split; [reflexivity|]. unfold wf, keys, size in *. simpl.
    rewrite Hd in *. rewrite (length_move _ _ _ _ v). repeat split; auto.
    eapply keys_move_NoDup; eassumption.
  - rewrite (get_miss _ _ Hout). eexists _, _. now repeat split.
Qed.

Lemma put_wf k v c :
  wf c -> (1 <= max_size c)%Z ->
  exists c', put k v c = Ok c' /\ max_size c' = max_size c /\ wf c'.
Proof.
  intros [Hnd Hsz] Hm. destruct (in_dec string_dec k (keys c)) as [Hin|Hout].
  - destruct (put_present _ v _ Hin Hnd) as (w & before & after & Hd & ->).
    eexists. split; [reflexivity|]. unfold wf, keys, size in *. simpl.
    rewrite Hd in *. rewrite (length_move _ _ _ _ w). repeat split; auto.
    eapply keys_move_NoDup; eassumption.
  - rewrite (put_fresh _ v _ Hout). unfold wf, keys, size in *.
    destruct (Z.geb_spec (Z.of_nat (List.length (cache c))) (max_size c)) as [Hfull|Hroom].
    + destruct (cache c) as [|[k0 v0] rest] eqn:E; simpl in *; [lia|].
      eexists. split; [reflexivity|]. simpl. split; [reflexivity|]. split.
      * rewrite map_app. simpl. apply NoDup_cons_iff in Hnd as [_ Hnd].
        eapply Permutation.Permutation_NoDup;
          [apply Permutation.Permutation_cons_append|].
        constructor; tauto.
      * rewrite length_app. simpl. lia.
    + eexists. split; [reflexivity|]. simpl. split; [reflexivity|]. split.
      * rewrite map_app. simpl.
        eapply Permutation.Permutation_NoDup;
          [apply Permutation.Permutation_cons_append|].
        now constructor.
      * rewrite length_app. simpl. lia.
Qed.

Lemma step_wf (o : op V) c :
  wf c -> (1 <= max_size c)%Z ->
  exists c', step o c = Ok c' /\ max_size c' = max_size c /\ wf c'.
Proof.
  intros Hwf Hm. destruct o as [k|k v|]; simpl.
  - destruct (get_wf k _ Hwf) as (r & c' & -> & Hmax & Hwf' & _). simpl. eauto.
  - now apply put_wf.
  - eexists. split; [reflexivity|]. split; [reflexivity|].
    split; simpl; [constructor|lia].
Qed.

Lemma run_wf (ops : list (op V)) c :
  wf c -> (1 <= max_size c)%Z ->
  exists tr, run ops c = Ok tr /\ List.length tr = List.length ops /\
             Forall (fun c' => wf c' /\ max_size c' = max_size c) tr.
Proof.
  revert c. induction ops as [|o rest IH]; intros c Hwf Hm; simpl.
  - exists []. repeat split. constructor.
  - destruct (step_wf o _ Hwf Hm) as (c' & -> & Hmax & Hwf'). simpl.
    rewrite <- Hmax in Hm. destruct (IH _ Hwf' Hm) as (tr & -> & Hlen & Hall).
    simpl. exists (c' :: tr). repeat split; [simpl; congruence| ].
    constructor; [auto|]. eapply Forall_impl; [|exact Hall].
    intros a [? ?]. split; congruence.
Qed.

Lemma In_unique_value (d : odict V) k v w before after :
  d = before ++ (k, w) :: after -> NoDup (map fst d) -> In (k, v) d -> v = w.
Proof.
  intros -> Hnd Hin. rewrite map_app in Hnd. simpl in Hnd.
  pose proof (NoDup_remove_2 _ _ _ Hnd) as Hout. rewrite in_app_iff in Hout.
  apply in_app_iff in Hin. destruct Hin as [Hin|[Hin|Hin]].
  - exfalso. apply Hout. left. apply in_map_iff. now exists (k, v).
  - congruence.
  - exfalso. apply Hout. right. apply in_map_iff. now exists (k, v).
Qed.

Lemma get_value_present k v c :
  NoDup (keys c) -> In (k, v) (cache c) -> get_value k c = Ok (Some v).
Proof.
  intros Hnd Hin. assert (Hk : In k (keys c)).
  { apply in_map_iff. now exists (k, v). }
  destruct (get_hit _ _ Hk Hnd) as (w & before & after & Hd & Hget).
  unfold get_value. rewrite Hget. simpl.
  now rewrite (In_unique_value _ _ _ _ _ _ Hd Hnd Hin).
Qed.

Lemma get_value_absent k c : ~ In k (keys c) -> get_value k c = Ok None.
Proof. intros H. unfold get_value. now rewrite get_miss. Qed.

Lemma for_each_app {A S : Type} (f : S -> A -> result S) xs ys acc :
  for_each f (xs ++ ys) acc = bind (for_each f xs acc) (for_each f ys).
Proof.
  revert acc. induction xs as [|x xs IH]; intros acc; simpl; [reflexivity|].
  destruct (f acc x); simpl; auto.
Qed.

(** New keys that fit are appended in the order they are put. *)
Lemma put_all_room (kvs : list (string * V)) c :
  NoDup (keys c ++ map fst kvs) ->
  (Z.of_nat (size c + List.length kvs) <= max_size c)%Z ->
  put_all kvs c = Ok (mk_cache (max_size c) (cache c ++ kvs)).
Proof.
  revert c. induction kvs as [|[k v] rest IH]; intros c Hnd Hsz; simpl.
  - rewrite app_nil_r. now destruct c.
  - unfold put_all. simpl. rewrite put_fresh.
    2:{ apply NoDup_remove_2 in Hnd. rewrite in_app_iff in Hnd. tauto. }
    destruct (Z.geb_spec (Z.of_nat (size c)) (max_size c)) as [Hfull|_];
      [simpl in Hsz; lia|]. simpl.
    fold (put_all rest (mk_cache (max_size c) (cache c ++ [(k, v)]))).
    rewrite IH; simpl.
    + now rewrite <- app_assoc.
    + unfold keys. simpl. rewrite map_app, <- app_assoc. exact Hnd.
    + unfold size in *. simpl in *. rewrite length_app. simpl. lia.
Qed.

(** After a [put] the key is the most recently used entry, with the value
    put. *)
Lemma put_last k v c :
  wf c -> (1 <= max_size c)%Z ->
  exists c' older,
    put k v c = Ok c' /\ cache c' = older ++ [(k, v)] /\
    max_size c' = max_size c /\ wf c'.
Proof.
  intros Hwf Hm. destruct (put_wf k v _ Hwf Hm) as (c' & Hput & Hmax & Hwf').
  exists c'. destruct Hwf as [Hnd Hsz].
  destruct (in_dec string_dec k (keys c)) as [Hin|Hout].
  - destruct (put_present _ v _ Hin Hnd) as (w & before & after & Hd & Hp).
    rewrite Hp in Hput. injection Hput as <-. simpl.
    exists (before ++ after). rewrite <- app_assoc. rewrite Hp. auto.
  - pose proof (put_fresh _ v _ Hout) as Hp. rewrite Hput in Hp.
    destruct (_ >=? _)%Z.
    + destruct (cache c) as [|e rest]; [discriminate|].
      injection Hp as ->. simpl. exists rest. auto.
    + injection Hp as ->. simpl. exists (cache c). auto.
Qed.

Lemma unlink_last k w (older : odict V) :
  ~ In k (map fst older) -> unlink k (older ++ [(k, w)]) = Some (w, older).
Proof.
  induction older as [|[k' u] rest IH]; simpl; intros Hout.
  - now rewrite String.eqb_refl.
  - destruct (String.eqb_spec k k') as [->|Hne]; [tauto|]. rewrite IH; tauto.
Qed.

(** A [put] on the key of the most recently used entry replaces its value
    and moves nothing. *)
Lemma put_at_end k v w (older : odict V) m :
  ~ In k (map fst older) ->
  put k v (mk_cache m (older ++ [(k, w)])) = Ok (mk_cache m (older ++ [(k, v)])).
Proof.
  intros Hout. unfold put. simpl.
  assert (Hk : has_key k (older ++ [(k, w)]) = true).
  { apply has_key_In. rewrite map_app, in_app_iff. right. now left. }
  rewrite Hk. unfold move_to_end. rewrite (unlink_last _ _ _ Hout). simpl.
  now rewrite setitem_present.
Qed.

End Facts.

(** C2. An [LRUCache] built with [max_size >= 1] never holds more than
    [max_size] entries: every run of [get], [put] and [clear] from the new
    cache goes through without an exception, and after each operation the
    number of entries is at most [max_size]. *)
Theorem lru_size_bounded (V : Type) (m : Z) (ops : list (op V)) :
  (1 <= m)%Z ->
  exists tr,
    run ops (new m) = Ok tr /\
    List.length tr = List.length ops /\
    Forall (fun c => (Z.of_nat (size c) <= m)%Z) tr.
Proof.
  intros Hm.
  destruct (run_wf ops (new m)) as (tr & Hrun & Hlen & Hall);
    [apply wf_new; lia | exact Hm |].
  exists tr. repeat split; try assumption.
  eapply Forall_impl; [|exact Hall].
  intros c [[_ Hsz] Hmax]. simpl in Hmax. now rewrite Hmax in Hsz.
Qed.

(** A run on a cache of two entries: the third key overflows it. *)
Lemma lru_size_bounded_witness :
  exists tr,
    run [Put "a" 1; Put "b" 2; Get "a"; Put "c" 3; Clear; Put "d" 4] (new 2)
      = Ok tr /\
    List.length tr = 6 /\
    Forall (fun c => (Z.of_nat (size c) <= 2)%Z) tr.
Proof.
  apply (lru_size_bounded nat 2
           [Put "a" 1; Put "b" 2; Get "a"; Put "c" 3; Clear; Put "d" 4]).
  lia.
Defined.

(** C3. In a cache with [max_size = n >= 2]: putting [n + 1] distinct keys
    into the new cache evicts exactly the first one put, the least recently
    used (every other key is still retrievable, with its value); and [get]
    on a present key moves it to the most recently used end, so that it
    survives the next [put] of a new key, and when the cache is full that
    [put] evicts the oldest entry instead, which is another key. *)
Theorem lru_evicts_least_recent (V : Type) (n : nat) (k0 : string) (v0 : V)
    (rest : list (string * V)) :
  2 <= n -> List.length rest = n -> NoDup (k0 :: map fst rest) ->
  (exists c,
      put_all ((k0, v0) :: rest) (new (Z.of_nat n)) = Ok c /\
      get_value k0 c = Ok None /\
      (forall k v, In (k, v) rest -> get_value k c = Ok (Some v)) /\
      keys c = map fst rest)
  /\
  (forall (c : LRUCache V) (k k' : string) (v' : V),
      max_size c = Z.of_nat n -> wf c -> In k (keys c) -> ~ In k' (keys c) ->
      exists v older c1 c2,
        get k c = Ok (Some v, c1) /\
        cache c1 = older ++ [(k, v)] /\
        put k' v' c1 = Ok c2 /\
        get_value k c2 = Ok (Some v) /\
        (size c = n ->
         exists victim, hd_error (cache c1) = Some victim /\
                        fst victim <> k /\
                        get_value (fst victim) c2 = Ok None)).
Proof.
  intros Hn Hlen Hnd. split.
  - destruct (exists_last (l := rest)) as (front & [kl vl] & Hrest).
    { intros ->. simpl in Hlen. lia. }
    assert (Hfront : List.length front = n - 1).
    { rewrite Hrest, length_app in Hlen. simpl in Hlen. lia. }
    exists (mk_cache (Z.of_nat n) rest).
    assert (Hnd' : NoDup (map fst rest)) by now inversion Hnd.
    assert (Hk0 : ~ In k0 (map fst rest)) by now inversion Hnd.
    split; [|split; [|split]].
    + replace ((k0, v0) :: rest) with (((k0, v0) :: front) ++ [(kl, vl)])
        by (rewrite Hrest; reflexivity).
      unfold put_all. rewrite for_each_app.
      fold (put_all ((k0, v0) :: front) (@new V (Z.of_nat n))).
      rewrite put_all_room; simpl.
      * rewrite put_fresh.
        -- unfold size. cbn [cache max_size List.length]. rewrite Hfront.
           replace (S (n - 1)) with n by lia.
           destruct (Z.geb_spec (Z.of_nat n) (Z.of_nat n)); [|lia].
           now rewrite Hrest.
        -- rewrite Hrest, map_app in Hnd. simpl in Hnd.
           intros [E|E].
           ++ subst kl. inversion Hnd as [|? ? Hout _]. apply Hout.
              rewrite in_app_iff. simpl. tauto.
           ++ inversion Hnd as [|? ? _ Hnd2]. apply NoDup_remove_2 in Hnd2.
              rewrite app_nil_r in Hnd2. contradiction.
      * rewrite Hrest, map_app in Hnd. simpl in Hnd.
        inversion Hnd as [|? ? Hout Hnd2]. constructor.
        -- intros E. apply Hout. rewrite in_app_iff. tauto.
        -- apply NoDup_remove_1 in Hnd2. now rewrite app_nil_r in Hnd2.
      * rewrite Hfront. lia.
    + now apply get_value_absent.
    + intros k v Hin. now apply get_value_present.
    + reflexivity.
  - intros c k k' v' Hmax [Hndc Hsz] Hin Hout.
    destruct (get_hit _ _ Hin Hndc) as (v & before & after & Hd & Hget).
    set (c1 := mk_cache (max_size c) (before ++ after ++ [(k, v)])) in *.
    assert (Hnd1 : NoDup (keys c1)).
    { unfold keys, c1. simpl. eapply keys_move_NoDup.
      unfold keys in Hndc. rewrite Hd in Hndc. exact Hndc. }
    assert (Hout1 : ~ In k' (keys c1)).
    { unfold keys, c1 in *. simpl. rewrite Hd in Hout.
      rewrite !map_app, !in_app_iff in *. simpl in *. tauto. }
    assert (Hlen1 : size c1 = size c).
    { unfold size, c1. simpl. rewrite Hd. apply length_move. }
    assert (Hkk' : k <> k') by (intros ->; contradiction).
    exists v, (before ++ after), c1.
    rewrite (put_fresh _ v' _ Hout1). rewrite Hlen1.
    destruct (Z.geb_spec (Z.of_nat (size c)) (max_size c1)) as [Hfull|Hroom].
    + (* the cache is full: the oldest entry goes, and it is not [k] *)
      simpl in Hfull.
      destruct (before ++ after) as [|[kv vv] others] eqn:Eo.
      { exfalso. unfold size in Hfull. rewrite Hd in Hfull.
        apply app_eq_nil in Eo as [-> ->]. simpl in Hfull. lia. }
      assert (Ec1 : cache c1 = (kv, vv) :: others ++ [(k, v)]).
      { unfold c1. simpl. now rewrite app_assoc, Eo. }
      rewrite Ec1. eexists. split; [exact Hget|]. split; [reflexivity|].
      split; [reflexivity|].
      unfold keys in Hnd1. rewrite Ec1 in Hnd1. simpl in Hnd1.
      split.
      * apply get_value_present; unfold keys; simpl.
        -- rewrite <- app_assoc, map_app. simpl.
           eapply Permutation_NoDup; [apply Permutation_app_head, perm_swap|].
           replace (map fst others ++ [k'; k]) with ((map fst others ++ [k']) ++ [k])
             by now rewrite <- app_assoc.
           eapply Permutation_NoDup; [apply Permutation_cons_append|].
           constructor.
           ++ rewrite in_app_iff. simpl. intros [E|[E|[]]]; [|congruence].
              inversion Hnd1 as [|? ? _ H2]. rewrite map_app in H2.
              simpl in H2. apply NoDup_remove_2 in H2.
              rewrite app_nil_r in H2. contradiction.
           ++ eapply Permutation_NoDup; [apply Permutation_cons_append|].
              constructor.
              ** intros E. apply Hout1. unfold keys. rewrite Ec1. simpl.
                 right. rewrite map_app, in_app_iff. tauto.
              ** inversion Hnd1 as [|? ? _ H2]. rewrite map_app in H2.
                 simpl in H2. apply NoDup_remove_1 in H2.
                 now rewrite app_nil_r in H2.
        -- rewrite !in_app_iff. simpl. tauto.
      * intros _. exists (kv, vv). simpl. split; [reflexivity|].
        inversion Hnd1 as [|? ? Hkv _]. rewrite map_app, in_app_iff in Hkv.
        simpl in Hkv. split; [intros ->; tauto|].
        apply get_value_absent. unfold keys. simpl.
        rewrite !map_app, !in_app_iff. simpl.
        intros [[E|[E|[]]]|[E|[]]]; subst; try tauto.
        apply Hout1. unfold keys. rewrite Ec1. simpl. tauto.
    + eexists. split; [exact Hget|]. split; [unfold c1; simpl; now rewrite app_assoc|].
      split; [reflexivity|]. split.
      * apply get_value_present; unfold keys; simpl.
        -- fold (keys c1). rewrite map_app. simpl.
           eapply Permutation_NoDup; [apply Permutation_cons_append|].
           now constructor.
        -- rewrite !in_app_iff. simpl. tauto.
      * intros Hfull. simpl in Hroom. lia.
Qed.

(** Three keys into a cache of two; and a cache of two where the older
    key is read before a third arrives. *)
Lemma lru_evicts_least_recent_witness :
  (exists c,
      put_all [("a", 1); ("b", 2); ("c", 3)] (new 2) = Ok c /\
      get_value "a" c = Ok None /\
      (forall k v, In (k, v) [("b", 2); ("c", 3)] -> get_value k c = Ok (Some v)) /\
      keys c = ["b"; "c"])
  /\
  (forall (c : LRUCache nat) (k k' : string) (v' : nat),
      max_size c = 2%Z -> wf c -> In k (keys c) -> ~ In k' (keys c) ->
      exists v older c1 c2,
        get k c = Ok (Some v, c1) /\
        cache c1 = older ++ [(k, v)] /\
        put k' v' c1 = Ok c2 /\
        get_value k c2 = Ok (Some v) /\
        (size c = 2 ->
         exists victim, hd_error (cache c1) = Some victim /\
                        fst victim <> k /\
                        get_value (fst victim) c2 = Ok None)).
Proof.
  apply (lru_evicts_least_recent nat 2 "a" 1 [("b", 2); ("c", 3)]).
  - lia.
  - reflexivity.
  - repeat constructor; simpl; intuition discriminate.
Defined.

End LRUProps.

(* ================================================================== *)
(** * Properties of the intent classifier *)
(* ================================================================== *)

Module IntentProps.
Import Py PyNotations Json Intent.

(** ** Trimming a text around a fixed part *)

Lemma append_assoc (a b c : string) : ((a ++ b) ++ c = a ++ (b ++ c))%string.
Proof. induction a as [|x a IH]; simpl; [reflexivity|now rewrite IH]. Qed.

Lemma lstrip_by_app drop pre c r :
  drop c = false ->
  lstrip_by drop (pre ++ String c r) = (lstrip_by drop pre ++ String c r)%string.
Proof.
  intros Hc. induction pre as [|x pre IH]; simpl.
  - now rewrite Hc.
  - destruct (drop x); [exact IH|reflexivity].
Qed.

Lemma rstrip_by_app drop s c r :
  drop c = false ->
  rstrip_by drop (s ++ String c r) = (s ++ String c (rstrip_by drop r))%string.
Proof.
  intros Hc. induction s as [|x s IH]; simpl.
  - now rewrite Hc.
  - rewrite IH. destruct s; simpl; now rewrite andb_false_r.
Qed.

Lemma all_chars_lstrip p drop s :
  all_chars p s = true -> all_chars p (lstrip_by drop s) = true.
Proof.
  induction s as [|x s IH]; simpl; [reflexivity|].
  intros H. destruct (drop x); [|exact H].
  apply IH. now apply andb_true_iff in H.
Qed.

(** ** The searches *)

Lemma quote_only_matches_quote c :
  Ascii.eqb (lower_char dquote) (lower_char c) = true -> not_quote c = false.
Proof.
  destruct c as [[] [] [] [] [] [] [] []]; vm_compute; congruence.
Qed.

Lemma match_intent_field_needs_quote c r :
  not_quote c = true -> match_intent_field (String c r) = None.
Proof.
  intros H. unfold match_intent_field.
  change (q "`intent`") with (String dquote (q "intent`")).
  cbn [match_nocase].
  destruct (Ascii.eqb (lower_char dquote) (lower_char c)) eqn:E; [|reflexivity].
  apply quote_only_matches_quote in E. congruence.
Qed.

(** No match of the intent field starts before the first double quote. *)
Lemma search_intent_field_skip pre rest :
  all_chars not_quote pre = true ->
  search_intent_field (pre ++ rest) = search_intent_field rest.
Proof.
  induction pre as [|c pre IH]; simpl; [reflexivity|].
  intros H. apply andb_true_iff in H as [Hc Hpre].
  change (match_intent_field (String c (pre ++ rest)))
    with (match_intent_field (String c (pre ++ rest)%string)).
  rewrite match_intent_field_needs_quote by exact Hc. auto.
Qed.

(** The search goes over the positions where the pattern does not match. *)
Lemma search_intent_field_first before rest :
  (forall skipped tail,
      before = (skipped ++ tail)%string -> tail <> "" ->
      match_intent_field (tail ++ rest) = None) ->
  search_intent_field (before ++ rest) = search_intent_field rest.
Proof.
  induction before as [|c before IH]; intros H; [reflexivity|].
  change (search_intent_field (String c before ++ rest))
    with (match match_intent_field (String c before ++ rest) with
          | Some group => Some group
          | None => search_intent_field (before ++ rest)
          end).
  rewrite (H "" (String c before)) by (reflexivity || discriminate).
  apply IH. intros skipped tail -> Htail.
  now apply (H (String c skipped) tail).
Qed.

(** Whether the pattern matches at a position of [before], the text going
    on with [rest]. *)
Fixpoint field_starts_in (before rest : string) : bool :=
  match before with
  | EmptyString => false
  | String _ r =>
      match match_intent_field (before ++ rest) with
      | Some _ => true
      | None => field_starts_in r rest
      end
  end.

Lemma field_starts_in_false before rest :
  field_starts_in before rest = false ->
  forall skipped tail,
    before = (skipped ++ tail)%string -> tail <> "" ->
    match_intent_field (tail ++ rest) = None.
Proof.
  induction before as [|c before IH]; intros H skipped tail Heq Htail.
  - destruct skipped; [|discriminate]. simpl in Heq. now subst tail.
  - cbn [field_starts_in] in H.
    destruct (match_intent_field (String c before ++ rest)) eqn:E; [discriminate|].
    destruct skipped as [|c' skipped]; simpl in Heq.
    + now subst tail.
    + injection Heq as _ ->. now apply (IH H skipped tail).
Qed.

(** The text the second part of the parser claim is about. *)
Definition roster_field : string := q "`intent`: `get_roster`".

Lemma match_roster_field post :
  match_intent_field (roster_field ++ post) = Some "get_roster".
Proof. reflexivity. Qed.

(** An instance of the interpreter's [repr], to run the model on examples
    (none of them reaches it): a float as its literal is written, a
    container by its brackets. *)
Definition literal_repr (v : json) : ustring :=
  match v with
  | JFloat lexeme => ustr lexeme
  | JArr _ => ustr "[...]"
  | JObj _ => ustr "{...}"
  | _ => []
  end.

(** Two intent fields, the first with a value that is no label. *)
Definition two_fields : string := q "`intent`: `compare x` `intent`: `get_roster`".

(** ** The parser *)

Lemma filter_none {A : Type} (f : A -> bool) (xs : list A) :
  (forall x, In x xs -> f x = false) -> filter f xs = [].
Proof.
  induction xs as [|x xs IH]; simpl; intros H; [reflexivity|].
  rewrite (H x) by now left. apply IH. intros y Hy. apply H. now right.
Qed.

Lemma parse_unfold py_repr self raw :
  _parse_llm_json_or_label py_repr self raw =
  match stage_json py_repr (valid_intents self) (strip raw) with
  | Some intent => intent
  | None =>
      match stage_field (valid_intents self) (strip raw) with
      | Some intent => intent
      | None => stage_words (valid_intents self) (strip raw)
      end
  end.
Proof. reflexivity. Qed.

Lemma stage_json_no_object py_repr labels txt :
  (forall span, search_object txt = Some span -> loads span = Err) ->
  stage_json py_repr labels txt = None.
Proof.
  intros H. unfold stage_json. destruct (search_object txt) as [span|]; [|reflexivity].
  now rewrite (H span eq_refl).
Qed.

Lemma strip_around_field pre post :
  strip (pre ++ roster_field ++ post) =
  (lstrip_by is_space pre ++ roster_field ++ rstrip_by is_space post)%string.
Proof.
  unfold strip, strip_by.
  change (roster_field ++ post)%string
    with (String dquote (q "intent`: `get_roster`" ++ post)).
  rewrite lstrip_by_app by reflexivity.
  change (String dquote (q "intent`: `get_roster`" ++ post))
    with (q "`intent`: `get_roster" ++ String dquote post)%string.
  rewrite <- append_assoc.
  rewrite rstrip_by_app by reflexivity.
  now rewrite append_assoc.
Qed.

(** C4 (as amended).  With the default seven labels the parser maps the
    text with the embedded object to [compare]; a text with no decodable
    [{...}] span that, trimmed, holds the field [`intent`: `get_roster`]
    with no match of the intent-field pattern starting before it, to
    [get_roster] -- as does, in particular, the field with no double quote
    before it; the text naming
    [get_result] and [get_stats] to [get_result]; when neither an object
    nor a field yields a label, to the first label other than [get_stats]
    found as a whole word, in the order of the label list; and a text with
    no [{...}] span, no intent field and no label as a whole word to
    [get_stats]. *)
Theorem parser_fallback_chain (py_repr : json -> ustring)
    (self : IntentClassifierLLM) :
  valid_intents self = default_intents ->
  let parse := _parse_llm_json_or_label py_repr self in
  parse (q "here you go: {`intent`:`compare`} thanks") = "compare"
  /\ (forall raw before after,
        strip raw = (before ++ roster_field ++ after)%string ->
        (forall skipped tail,
            before = (skipped ++ tail)%string -> tail <> "" ->
            match_intent_field (tail ++ roster_field ++ after) = None) ->
        (forall span, search_object (strip raw) = Some span -> loads span = Err) ->
        parse raw = "get_roster")
  /\ (forall pre post,
        all_chars not_quote pre = true ->
        (forall span,
            search_object (strip (pre ++ roster_field ++ post)) = Some span ->
            loads span = Err) ->
        parse (pre ++ roster_field ++ post)%string = "get_roster")
  /\ parse "I think get_result is right, get_stats too" = "get_result"
  /\ (forall raw,
        stage_json py_repr default_intents (strip raw) = None ->
        stage_field default_intents (strip raw) = None ->
        parse raw =
        hd "get_stats"
          (filter (fun lbl => negb (String.eqb lbl "get_stats"))
                  (found_labels default_intents (strip raw))))
  /\ (forall raw,
        search_object (strip raw) = None ->
        search_intent_field (strip raw) = None ->
        (forall lbl, In lbl default_intents ->
                     search_word lbl (lower (strip raw)) = false) ->
        parse raw = "get_stats").
Proof.
  intros Hlabels parse. subst parse.
  repeat split; intros; rewrite parse_unfold, Hlabels.
  - reflexivity.
  - rewrite stage_json_no_object by assumption.
    unfold stage_field. rewrite H.
    rewrite search_intent_field_first by assumption.
    unfold search_intent_field at 1.
    destruct after; reflexivity.
  - rewrite stage_json_no_object by assumption.
    unfold stage_field. rewrite strip_around_field.
    rewrite search_intent_field_skip by now apply all_chars_lstrip.
    unfold search_intent_field at 1.
    destruct (rstrip_by is_space post); reflexivity.
  - reflexivity.
  - rewrite H, H0. unfold stage_words.
    destruct (found_labels default_intents (strip raw)) as [|l ls]; [reflexivity|].
    destruct (filter _ (l :: ls)); reflexivity.
  - unfold stage_json, stage_field. rewrite H, H0. unfold stage_words, found_labels.
    assert (E : filter (fun lbl => search_word lbl (lower (strip raw))) default_intents = []).
    { apply filter_none. exact H1. }
    now rewrite E.
Qed.

(** The parser on a reply with the field after a remark, on a reply with
    the field after a quoted word, and on a reply that names no label. *)
Lemma parser_fallback_chain_witness :
  _parse_llm_json_or_label literal_repr default_classifier
    (q "sure, `intent`: `get_roster` it is") = "get_roster"
  /\ _parse_llm_json_or_label literal_repr default_classifier
       (q "  say `hi` then `intent`: `get_roster` ") = "get_roster"
  /\ _parse_llm_json_or_label literal_repr default_classifier
       "this is gibberish not rugby" = "get_stats".
Proof.
  destruct (parser_fallback_chain literal_repr default_classifier eq_refl)
    as (_ & Hfirst & Hfield & _ & _ & Hnone).
  split; [|split].
  - apply (Hfield "sure, " " it is"); [reflexivity|].
    intros span Hspan. vm_compute in Hspan. discriminate Hspan.
  - apply (Hfirst _ (q "say `hi` then ") "").
    + reflexivity.
    + apply field_starts_in_false. reflexivity.
    + intros span Hspan. vm_compute in Hspan. discriminate Hspan.
  - apply Hnone; try reflexivity.
    intros lbl Hin. simpl in Hin.
    repeat (destruct Hin as [<-|Hin]; [vm_compute; reflexivity|]).
    contradiction.
Defined.

(** C4 as stated does not hold: this text has no [{...}] span and holds the
    field [`intent`: `get_roster`], yet the leftmost intent field is an
    earlier one whose value is no label, and among the labels found as
    whole words [compare] comes first. *)
Lemma parser_first_field_wins :
  search_object (strip two_fields) = None
  /\ contains roster_field two_fields = true
  /\ _parse_llm_json_or_label literal_repr default_classifier two_fields = "compare".
Proof. vm_compute. repeat split. Qed.

(** ** [classify] when the service fails *)

(** A service that is down. *)
Definition unreachable : service :=
  fun _ => Raise (mk_exn ConnectionError "connection refused").

(** C1 (as amended).  For a query that misses the cache, when the service
    call raises, [classify] returns [get_stats]; with caching disabled
    nothing is stored; with caching enabled (a cache of at least one entry)
    the default label is stored under the normalized query like any other
    answer, as the most recently used entry, and the miss is counted.  The
    entries before it are those the cache held, in their order: all of them
    when the query is new and there is room; all but the oldest when the
    query is new and the cache is full; all but the entry of the query when
    the query was stored with an empty label. *)
Theorem classify_failure_stores_default (py_repr : json -> ustring)
    (client : service) (self : IntentClassifierLLM) (query : string)
    (model : option string) (e : exn) :
  is_empty (strip query) = false ->
  misses self query ->
  client (request_for self (strip query) model) = Raise e ->
  match cache self with
  | None => classify py_repr client self query model = Ok ("get_stats", self)
  | Some c =>
      LRUProps.wf c -> (1 <= LRU.max_size c)%Z ->
      exists c' older,
        classify py_repr client self query model =
          Ok ("get_stats",
              with_cache self (Some c') (cache_hits self) (cache_misses self + 1))
        /\ LRU.cache c' = older ++ [(lower (strip query), "get_stats")]
        /\ LRU.max_size c' = LRU.max_size c
        /\ ((~ In (lower (strip query)) (LRU.keys c)
             /\ (Z.of_nat (LRU.size c) < LRU.max_size c)%Z
             /\ older = LRU.cache c)
            \/ (~ In (lower (strip query)) (LRU.keys c)
                /\ Z.of_nat (LRU.size c) = LRU.max_size c
                /\ exists oldest, LRU.cache c = oldest :: older)
            \/ (exists before after,
                  LRU.cache c = before ++ (lower (strip query), "") :: after
                  /\ older = before ++ after))
  end.
Proof.
  intros Hq Hmiss Hdown. unfold classify. rewrite Hq.
  unfold misses in Hmiss. destruct (cache self) as [c|] eqn:Hc.
  - intros [Hnd Hsz] Hm.
    assert (Hcall :
      forall c1 hits missed,
        _classify_with_llm py_repr client
          (with_cache self (Some c1) hits missed) (strip query) model = "get_stats").
    { intros c1 hits missed. unfold _classify_with_llm.
      change (request_for (with_cache self (Some c1) hits missed) (strip query) model)
        with (request_for self (strip query) model).
      now rewrite Hdown. }
    destruct (in_dec string_dec (lower (strip query)) (LRU.keys c)) as [Hin|Hout].
    + (* the query is stored, with an empty label *)
      destruct (LRUProps.get_hit _ _ Hin Hnd) as (v & before & after & Hd & Hget).
      assert (Hv : v = "").
      { unfold LRU.get_value in Hmiss. rewrite Hget in Hmiss. simpl in Hmiss.
        destruct Hmiss as [E|E]; [discriminate|]. now injection E. }
      subst v. rewrite Hget. cbn [bind is_empty cache with_cache]. rewrite Hcall.
      assert (Hfresh : ~ In (lower (strip query)) (map fst (before ++ after))).
      { unfold LRU.keys in Hnd. rewrite Hd, map_app in Hnd. simpl in Hnd.
        apply NoDup_remove_2 in Hnd. now rewrite map_app. }
      rewrite app_assoc, (LRUProps.put_at_end _ "get_stats" "" _ _ Hfresh).
      cbn [bind]. eexists. exists (before ++ after).
      split; [reflexivity|]. split; [reflexivity|]. split; [reflexivity|].
      right. right. now exists before, after.
    + (* the query is new *)
      rewrite (LRUProps.get_miss _ _ Hout).
      cbn [bind is_empty cache with_cache]. rewrite Hcall.
      rewrite (LRUProps.put_fresh _ "get_stats" _ Hout).
      destruct (Z.geb_spec (Z.of_nat (LRU.size c)) (LRU.max_size c)) as [Hfull|Hroom].
      * unfold LRU.size in *. destruct (LRU.cache c) as [|oldest rest] eqn:Hd;
          [simpl in Hfull; lia|].
        cbn [bind]. eexists. exists rest.
        split; [reflexivity|]. split; [reflexivity|]. split; [reflexivity|].
        right. left. split; [exact Hout|]. split; [lia|]. now exists oldest.
      * cbn [bind]. eexists. exists (LRU.cache c).
        split; [reflexivity|]. split; [reflexivity|]. split; [reflexivity|].
        left. split; [exact Hout|]. split; [lia|reflexivity].
  - unfold _classify_with_llm. now rewrite Hdown.
Qed.

(** A first query to the default classifier while the service is down. *)
Lemma classify_failure_stores_default_witness :
  exists c',
    classify literal_repr unreachable default_classifier "  Who is player 7? " None =
      Ok ("get_stats", with_cache default_classifier (Some c') 0 1)
    /\ LRU.cache c' = [("who is player 7?", "get_stats")]
    /\ LRU.max_size c' = 256%Z.
Proof.
  assert (Hroom : (1 <= 256)%Z) by lia.
  assert (Hsize : (0 <= 256)%Z) by lia.
  destruct (classify_failure_stores_default literal_repr unreachable
              default_classifier "  Who is player 7? " None
              (mk_exn ConnectionError "connection refused")
              eq_refl (or_introl eq_refl) eq_refl (LRUProps.wf_new 256 Hsize) Hroom)
    as (c' & older & Hc & Hlast & Hmax & Hold).
  exists c'. split; [exact Hc|]. split; [|exact Hmax].
  destruct Hold as [(_ & _ & ->)|[(_ & Hfull & _)|(before & after & Hd & _)]].
  - exact Hlast.
  - discriminate Hfull.
  - destruct before; discriminate Hd.
Defined.

(** A classifier whose cache of two entries is full, the entry of the query
    [hello] holding an empty label. *)
Definition full_classifier : IntentClassifierLLM :=
  with_cache (init default_intents "some-model" true 2 false)
    (Some (LRU.mk_cache 2 [("hello", ""); ("who won?", "get_game_info")])) 0 0.

(** While the service is down a new query evicts the oldest entry, and the
    query stored with an empty label is moved behind the other, which is
    kept. *)
Example classify_failure_evicts_oldest :
  (exists after,
     classify literal_repr unreachable full_classifier "Top scorer" None
     = Ok ("get_stats", after)
     /\ option_map LRU.cache (cache after)
        = Some [("who won?", "get_game_info"); ("top scorer", "get_stats")])
  /\ (exists after,
        classify literal_repr unreachable full_classifier "Hello" None
        = Ok ("get_stats", after)
        /\ option_map LRU.cache (cache after)
           = Some [("who won?", "get_game_info"); ("hello", "get_stats")]).
Proof. split; eexists; split; reflexivity. Qed.

(** C1 as stated does not hold: the query misses the empty cache of the
    default classifier, the service call raises, [get_stats] is returned,
    and afterwards the cache holds an entry for the normalized query. *)
Lemma classify_failure_is_cached :
  option_map LRU.cache (cache default_classifier) = Some []
  /\ unreachable (request_for default_classifier "Hello" None)
     = Raise (mk_exn ConnectionError "connection refused")
  /\ exists after,
       classify literal_repr unreachable default_classifier "Hello" None
         = Ok ("get_stats", after)
       /\ option_map LRU.cache (cache after) = Some [("hello", "get_stats")].
Proof.
  split; [reflexivity|]. split; [reflexivity|].
  eexists. split; reflexivity.
Qed.

End IntentProps.

(* ================================================================== *)
(** * Properties of the routing classifier *)
(* ================================================================== *)

Module RoutingProps.
Import Py PyNotations Routing.

(** ** The first token never fails *)

Lemma lstrip_by_head drop s :
  lstrip_by drop s = "" \/
  exists c r, lstrip_by drop s = String c r /\ drop c = false.
Proof.
  induction s as [|x s IH]; simpl; [now left|].
  destruct (drop x) eqn:E; [exact IH|]. right. now exists x, s.
Qed.

Lemma strip_head s :
  strip s = "" \/ exists c r, strip s = String c r /\ is_space c = false.
Proof.
  unfold strip, strip_by. destruct (lstrip_by_head is_space s) as [->|(c & r & -> & Hc)].
  - now left.
  - right. simpl. rewrite Hc. simpl. now exists c, (rstrip_by is_space r).
Qed.

Lemma is_space_lower c : is_space (lower_char c) = is_space c.
Proof. destruct c as [[] [] [] [] [] [] [] []]; reflexivity. Qed.

Lemma first_token_total raw : exists first, first_token (lower (strip raw)) = Ok first.
Proof.
  unfold first_token. destruct (strip_head raw) as [->|(c & r & -> & Hc)]; simpl.
  - eexists. reflexivity.
  - unfold split_first. simpl. rewrite is_space_lower, Hc. simpl.
    eexists. reflexivity.
Qed.

(** ** The route *)

Lemma mem_str_In x xs : mem_str x xs = true <-> In x xs.
Proof.
  unfold mem_str. rewrite existsb_exists. split.
  - intros (y & Hin & E). apply String.eqb_eq in E. now subst.
  - intros H. exists x. split; [assumption|apply String.eqb_refl].
Qed.

Lemma mem_str_not_In x xs : mem_str x xs = false <-> ~ In x xs.
Proof.
  rewrite <- mem_str_In. destruct (mem_str x xs); split; congruence.
Qed.

Lemma normalize_route raw route :
  normalize raw = Ok route -> route = "simple" \/ route = "complex".
Proof.
  unfold normalize. destruct (first_token _) as [first|e]; [|discriminate].
  cbn [bind]. destruct (mem_str (map_variants _ _) _) eqn:E; simpl.
  - intros [= <-]. apply mem_str_In in E. simpl in E. intuition.
  - intros [= <-]. now left.
Qed.

(** With the first token at hand, the route is [complex] exactly for
    [complex] and [c]. *)
Lemma normalize_by_first raw first :
  first_token (lower (strip raw)) = Ok first ->
  normalize raw =
  Ok (if mem_str first ["complex"; "c"] then "complex" else "simple").
Proof.
  intros H. unfold normalize. rewrite H. cbn [bind]. unfold map_variants.
  destruct (mem_str first ["simple"; "s"]) eqn:Es.
  - apply mem_str_In in Es. simpl in Es.
    destruct Es as [<-|[<-|[]]]; reflexivity.
  - destruct (mem_str first ["complex"; "c"]) eqn:Ec; [reflexivity|].
    destruct (isdigit first); [reflexivity|].
    destruct (contains "error" _ || contains "llmclient" _); [reflexivity|].
    unfold mem_str in *. simpl in *.
    apply orb_false_iff in Es as [E1 _]. apply orb_false_iff in Ec as [E2 _].
    now rewrite E1, E2.
Qed.

(** C5 (as amended).  [classify_query] always returns [simple] or [complex]:
    any exception, a failing service call among them, gives [simple]; and
    for any raw response, empty or the error sentinel included, a first
    token [simple] or [s] gives [simple], [complex] or [c] gives [complex],
    a first token of digits gives [simple], a response that holds [error]
    or [llmclient] gives [simple] unless its first token is [complex] or
    [c], and any other first token gives [simple]. *)
Theorem classify_query_routes (load_prompt : result prompt_data)
    (client : Intent.service) (query : string) (model : option string) :
  let route := classify_query load_prompt client query model in
  (route = "simple" \/ route = "complex")
  /\ (forall e, classify_body load_prompt client query model = Raise e ->
                route = "simple")
  /\ (forall p msgs,
        load_prompt = Ok p -> build_messages p query = Ok msgs ->
        (forall e, client (Intent.mk_request msgs model 0 4) = Raise e ->
                   route = "simple")
        /\
        (forall raw, client (Intent.mk_request msgs model 0 4) = Ok raw ->
           let response := lower (strip raw) in
           exists first,
             first_token response = Ok first
             /\ (In first ["simple"; "s"] -> route = "simple")
             /\ (In first ["complex"; "c"] -> route = "complex")
             /\ (isdigit first = true -> route = "simple")
             /\ (contains "error" response || contains "llmclient" response = true ->
                 ~ In first ["complex"; "c"] -> route = "simple")
             /\ (~ In first ["complex"; "c"] -> route = "simple"))).
Proof.
  intros route. subst route. unfold classify_query.
  split; [|split; [|intros p msgs Hp Hmsgs; split]].
  - destruct (classify_body _ _ _ _) as [r|e] eqn:E; [|now left].
    unfold classify_body in E.
    destruct load_prompt as [p|]; [|discriminate]. cbn [bind] in E.
    destruct (build_messages p query) as [msgs|]; [|discriminate]. cbn [bind] in E.
    destruct (client _) as [raw|]; [|discriminate]. cbn [bind] in E.
    eapply normalize_route; eassumption.
  - intros e ->. reflexivity.
  - intros e He. unfold classify_body. rewrite Hp. cbn [bind].
    rewrite Hmsgs. cbn [bind]. now rewrite He.
  - intros raw Hraw. cbv zeta.
    destruct (first_token_total raw) as (first & Hfirst).
    exists first. split; [exact Hfirst|].
    unfold classify_body. rewrite Hp. cbn [bind]. rewrite Hmsgs. cbn [bind].
    rewrite Hraw. cbn [bind].
    rewrite (normalize_by_first _ _ Hfirst).
    assert (Hdigit : isdigit first = true -> mem_str first ["complex"; "c"] = false).
    { intros Hd. apply mem_str_not_In. simpl.
      intros [<-|[<-|[]]]; discriminate. }
    split; [|split; [|split; [|split]]].
    + intros Hin. destruct (mem_str first ["complex"; "c"]) eqn:Ec; [|reflexivity].
      apply mem_str_In in Ec. simpl in Hin, Ec.
      destruct Hin as [<-|[<-|[]]]; destruct Ec as [E|[E|[]]]; discriminate.
    + intros Hin. apply mem_str_In in Hin. now rewrite Hin.
    + intros Hd. now rewrite (Hdigit Hd).
    + intros _ Hout. apply mem_str_not_In in Hout. now rewrite Hout.
    + intros Hout. apply mem_str_not_In in Hout. now rewrite Hout.
Qed.

(** A prompt definition with one example, and a service with a fixed
    answer. *)
Definition sample_prompt : result prompt_data :=
  Ok (mk_prompt (Some "Answer simple or complex.")
        (Some [[("user", "How many tackles did player X make?"); ("route", "simple")]])).

Definition answers (raw : string) : Intent.service := fun _ => Ok raw.

(** The sentinel of the client is routed to [simple]. *)
Lemma classify_query_routes_witness :
  classify_query sample_prompt (answers "[LLMClient] ERROR") "who won?" None = "simple".
Proof.
  destruct (classify_query_routes sample_prompt (answers "[LLMClient] ERROR")
              "who won?" None) as (_ & _ & H).
  destruct (H _ _ eq_refl eq_refl) as (_ & Hraw).
  destruct (Hraw _ eq_refl) as (first & Hfirst & _ & _ & _ & Herror & _).
  apply Herror; [reflexivity|].
  vm_compute in Hfirst. injection Hfirst as <-.
  simpl. intros [E|[E|[]]]; discriminate.
Defined.

(** C5 as stated does not hold: this response holds [error], yet its first
    token is [complex] and the route is [complex]. *)
Lemma error_after_complex_is_complex :
  contains "error" (lower (strip "Complex error")) = true
  /\ classify_query sample_prompt (answers "Complex error") "who won?" None = "complex".
Proof. split; reflexivity. Qed.

End RoutingProps.

(* ================================================================== *)
(** * Properties of the data handler *)
(* ================================================================== *)

Module DataProps.
Import Py PyNotations Data.

(** ** Grades *)

(** The integer [int(v)] gives, when it gives one. *)
Definition parsed (v : value) : option Z :=
  match v with
  | VNone => None
  | _ => match int_of v with Ok z => Some z | Raise _ => None end
  end.

Definition is_infinite (v : value) : bool :=
  match v with VFloat (Infinite _) => true | _ => false end.

(** Whatever [int(s)] refuses, it refuses with a [ValueError]. *)
Lemma int_of_str_raises s e : int_of_str s = Raise e -> exn_type e = ValueError.
Proof.
  unfold int_of_str. destruct (unsigned_part s) as [|c r]; [now intros [= <-]|].
  destruct (code c =? 95)%N; [now intros [= <-]|].
  destruct (digit_run _ _ _) as [digits|]; [|now intros [= <-]].
  destruct (_ <? _)%N; [now intros [= <-]|].
  destruct (int_literal s); [discriminate|now intros [= <-]].
Qed.

Lemma try_int_parsed v : is_infinite v = false -> try_int v = Ok (parsed v).
Proof.
  destruct v as [| b | z | [x|neg|] | s | items | pairs]; simpl; try reflexivity;
    try discriminate.
  destruct (int_of_str s) as [z|e] eqn:E; [reflexivity|].
  now rewrite (int_of_str_raises _ _ E).
Qed.

(** Where the coercion does not overflow, [_extract_grade] returns the
    nested grade when it parses, else the top-level grade when it parses,
    else [None]. *)
Lemma extract_grade_first_parseable event nested top :
  (exists meta, get event "metadata" (VDict []) = Ok meta /\
                get meta "grade" VNone = Ok nested) ->
  get event "grade" VNone = Ok top ->
  is_infinite nested = false ->
  (parsed nested = None -> is_infinite top = false) ->
  _extract_grade event =
  Ok (match parsed nested with Some z => Some z | None => parsed top end).
Proof.
  intros (meta & Hmeta & Hnested) Htop Hfin1 Hfin2. unfold _extract_grade.
  rewrite Hmeta. cbn [bind]. rewrite Hnested. cbn [bind].
  rewrite (try_int_parsed _ Hfin1). cbn [bind].
  destruct (parsed nested) as [z|]; [reflexivity|].
  rewrite Htop. cbn [bind]. now rewrite try_int_parsed by auto.
Qed.

(** An event of the corpus whose grade was written [1e999]. *)
Definition overflowing_event : value :=
  dict [("type", VStr "tackle"); ("player_id", VInt 7);
        ("grade", VFloat (Infinite false))].

(** C6 is not met by the code: the top-level grade of this event, whose
    metadata is absent, is not integer-parseable, and [_extract_grade]
    raises [OverflowError] where C6 has it return [None]:
    [except (ValueError, TypeError)] does not cover it. *)
Theorem extract_grade_overflow_escapes :
  parsed (VFloat (Infinite false)) = None
  /\ get overflowing_event "metadata" (VDict []) = Ok (VDict [])
  /\ _extract_grade overflowing_event =
     Raise (mk_exn OverflowError "cannot convert float infinity to integer").
Proof. repeat split. Qed.

(** The two examples of C6 do hold. *)
Example extract_grade_examples :
  _extract_grade (dict [("type", VStr "try"); ("metadata", dict [("grade", VStr "7")])])
    = Ok (Some 7%Z)
  /\ _extract_grade (dict [("type", VStr "try"); ("grade", VStr "seven")]) = Ok None.
Proof. split; reflexivity. Qed.

Section Handler.
Variable py_repr : value -> string.
Variable round_double : Q -> option Q.
Variable self : handler.


(** ** Every handler builds its result the same way *)

(** A result whose [success] says that [data] is not empty and whose
    [error] is [message] exactly when it is. *)
Definition built (name : string) (message : option string) (r : QueryResult) : Prop :=
  intent r = name /\ success r = nonempty (data r) /\
  error r = (if nonempty (data r) then None else message).

Lemma built_intro name message results :
  built name (Some message)
    (mk_result name results (nonempty results) (error_unless results message) None).
Proof. unfold built, error_unless. simpl. auto. Qed.

Ltac handler_built h :=
  let r := fresh "r" in
  let H := fresh "H" in
  intros r H; unfold h in H;
  match type of H with
  | bind ?m _ = _ => destruct m; [|discriminate]
  end;
  cbn [bind] in H; injection H as <-; apply built_intro.

Lemma player_info_built entities :
  forall r, _handle_get_player_info py_repr self entities = Ok r ->
            built "get_player_info" (Some "No matching players found") r.
Proof. handler_built _handle_get_player_info. Qed.

Lemma stats_built entities :
  forall r, _handle_get_stats py_repr round_double self entities = Ok r ->
            built "get_stats" (Some "No matching data found") r.
Proof. handler_built _handle_get_stats. Qed.

Lemma rankings_built entities :
  forall r, _handle_get_rankings py_repr round_double self entities = Ok r ->
            built "get_rankings" (Some "No ranking data found") r.
Proof.
  intros r H. unfold _handle_get_rankings in H.
  destruct (relevant_events _ _ _) as [relevant|]; [|discriminate]. cbn [bind] in H.
  destruct (for_each _ relevant []) as [stats|]; [|discriminate]. cbn [bind] in H.
  injection H as <-. apply built_intro.
Qed.

Lemma team_info_built entities :
  forall r, _handle_get_team_info self entities = Ok r ->
            built "get_team_info" (Some "No matching teams found") r.
Proof. handler_built _handle_get_team_info. Qed.

Lemma compare_built entities :
  forall r, _handle_compare py_repr round_double self entities = Ok r ->
            built "compare" (Some "Insufficient data for comparison") r.
Proof. handler_built _handle_compare. Qed.

Lemma game_info_built entities :
  forall r, _handle_get_game_info self entities = Ok r ->
            built "get_game_info" None r.
Proof.
  intros r H. unfold _handle_get_game_info in H.
  destruct (for_each _ _ _) as [results|]; [|discriminate].
  cbn [bind] in H. injection H as <-. unfold built. simpl.
  destruct (nonempty results); auto.
Qed.

(** The intents [get_data_for_query] knows, and what each handler says
    when it has nothing to return. *)
Definition known_intents : list string :=
  ["get_player_info"; "get_stats"; "get_rankings"; "top_stat_in_game";
   "get_team_info"; "compare"; "get_game_info"].

Definition empty_message (intent : string) : option string :=
  if String.eqb intent "get_player_info" then Some "No matching players found"
  else if String.eqb intent "get_stats" then Some "No matching data found"
  else if String.eqb intent "get_rankings" || String.eqb intent "top_stat_in_game"
  then Some "No ranking data found"
  else if String.eqb intent "get_team_info" then Some "No matching teams found"
  else if String.eqb intent "compare" then Some "Insufficient data for comparison"
  else None.

Lemma dispatch_unknown entities intent :
  ~ In intent known_intents ->
  dispatch py_repr round_double self entities intent =
  Ok (failure intent ("Unknown intent: " ++ intent)).
Proof.
  intros H. unfold dispatch.
  repeat match goal with
  | |- context [String.eqb intent ?s] =>
      destruct (String.eqb_spec intent s) as [->|_];
      [exfalso; apply H; simpl; tauto|]
  end.
  reflexivity.
Qed.

(** What a handler returns is built as above, with the message of its
    intent. *)
Lemma dispatch_built entities intent r :
  In intent known_intents ->
  dispatch py_repr round_double self entities intent = Ok r ->
  success r = nonempty (data r) /\
  error r = (if nonempty (data r) then None else empty_message intent).
Proof.
  intros Hin H. simpl in Hin.
  destruct Hin as [<-|[<-|[<-|[<-|[<-|[<-|[<-|[]]]]]]]];
    cbv [dispatch String.eqb Ascii.eqb Bool.eqb orb] in H.
  - now destruct (player_info_built _ _ H) as (_ & ? & ?).
  - now destruct (stats_built _ _ H) as (_ & ? & ?).
  - now destruct (rankings_built _ _ H) as (_ & ? & ?).
  - now destruct (rankings_built _ _ H) as (_ & ? & ?).
  - now destruct (team_info_built _ _ H) as (_ & ? & ?).
  - now destruct (compare_built _ _ H) as (_ & ? & ?).
  - now destruct (game_info_built _ _ H) as (_ & ? & ?).
Qed.

(** Whatever the intent, [success] says whether there is [data]: a handler
    builds its result so, and the two results [get_data_for_query] builds
    itself are failures without data. *)
Lemma success_is_nonempty (entities : entity_set) (intent : string) :
  success (get_data_for_query py_repr round_double self entities intent)
  = nonempty (data (get_data_for_query py_repr round_double self entities intent)).
Proof.
  unfold get_data_for_query.
  destruct (dispatch _ _ _ _ _) as [r|e] eqn:H; [|reflexivity].
  destruct (in_dec string_dec intent known_intents) as [Hin|Hout].
  - now destruct (dispatch_built _ _ _ Hin H).
  - rewrite dispatch_unknown in H by assumption. now injection H as <-.
Qed.

(** The handler [get_data_for_query] calls for an intent, if any. *)
Definition handler_of (intent : string)
  : option (entity_set -> result QueryResult) :=
  if String.eqb intent "get_player_info"
  then Some (_handle_get_player_info py_repr self)
  else if String.eqb intent "get_stats"
  then Some (_handle_get_stats py_repr round_double self)
  else if String.eqb intent "get_rankings" || String.eqb intent "top_stat_in_game"
  then Some (_handle_get_rankings py_repr round_double self)
  else if String.eqb intent "get_team_info" then Some (_handle_get_team_info self)
  else if String.eqb intent "compare"
  then Some (_handle_compare py_repr round_double self)
  else if String.eqb intent "get_game_info" then Some (_handle_get_game_info self)
  else None.

Lemma dispatch_handler entities intent :
  dispatch py_repr round_double self entities intent =
  match handler_of intent with
  | Some handle => handle entities
  | None => Ok (failure intent ("Unknown intent: " ++ intent))
  end.
Proof.
  unfold dispatch, handler_of.
  destruct (String.eqb intent "get_player_info"); [reflexivity|].
  destruct (String.eqb intent "get_stats"); [reflexivity|].
  destruct (String.eqb intent "get_rankings" || String.eqb intent "top_stat_in_game");
    [reflexivity|].
  destruct (String.eqb intent "get_team_info"); [reflexivity|].
  destruct (String.eqb intent "compare"); [reflexivity|].
  destruct (String.eqb intent "get_game_info"); reflexivity.
Qed.

Lemma handler_of_known intent :
  In intent known_intents <-> exists handle, handler_of intent = Some handle.
Proof.
  split.
  - simpl. intros [<-|[<-|[<-|[<-|[<-|[<-|[<-|[]]]]]]]]; eexists; reflexivity.
  - intros [handle H]. unfold handler_of in H.
    repeat match type of H with
    | context [String.eqb intent ?s] =>
        destruct (String.eqb_spec intent s) as [->|_]; [simpl; tauto|]
    end.
    discriminate.
Qed.

(** C9. [get_data_for_query] returns a result whatever happens: an intent
    outside the recognized names has no handler and gives a failed result
    with no data and the unknown-intent message; an exception raised by
    the handler of a recognized intent gives a failed result with no data
    and the exception's message; what a handler returns is passed on. *)
Theorem query_never_raises (entities : entity_set) (intent : string) :
  (~ In intent known_intents ->
   handler_of intent = None /\
   get_data_for_query py_repr round_double self entities intent =
   mk_result intent [] false (Some ("Unknown intent: " ++ intent)%string) None)
  /\ (forall handle, handler_of intent = Some handle ->
        In intent known_intents
        /\ (forall e, handle entities = Raise e ->
              get_data_for_query py_repr round_double self entities intent =
              mk_result intent [] false (Some (exn_str e)) None)
        /\ (forall r, handle entities = Ok r ->
              get_data_for_query py_repr round_double self entities intent = r)).
Proof.
  unfold get_data_for_query. rewrite dispatch_handler. split.
  - intros H. destruct (handler_of intent) as [handle|] eqn:E.
    + exfalso. apply H. apply handler_of_known. now exists handle.
    + split; reflexivity.
  - intros handle E. rewrite E. split; [|split].
    + apply handler_of_known. now exists handle.
    + intros e ->. reflexivity.
    + intros r ->. reflexivity.
Qed.

(** C10. With no game loaded, a game-info query returns a failed result
    whose [error] is [None]; the handler of every other intent, when it
    returns a failed result, gives its message. *)
Theorem game_info_fails_silently (entities : entity_set) :
  (games self = [] ->
   get_data_for_query py_repr round_double self entities "get_game_info"
   = mk_result "get_game_info" [] false None None)
  /\ (forall intent handle r,
        handler_of intent = Some handle -> intent <> "get_game_info" ->
        handle entities = Ok r -> success r = false ->
        exists message,
          error r = Some message /\ empty_message intent = Some message
          /\ is_empty message = false).
Proof.
  split.
  - intros Hgames. unfold get_data_for_query.
    cbv [dispatch String.eqb Ascii.eqb Bool.eqb orb].
    unfold _handle_get_game_info. rewrite Hgames. reflexivity.
  - intros intent handle r Hh Hne H Hfail.
    assert (Hin : In intent known_intents).
    { apply handler_of_known. now exists handle. }
    assert (Hd : dispatch py_repr round_double self entities intent = Ok r).
    { rewrite dispatch_handler, Hh. exact H. }
    destruct (dispatch_built _ _ _ Hin Hd) as (Hs & He).
    rewrite Hfail in Hs. rewrite <- Hs in He. rewrite He.
    simpl in Hin.
    destruct Hin as [<-|[<-|[<-|[<-|[<-|[<-|[<-|[]]]]]]]];
      try contradiction; eexists; repeat split.
Qed.

(** ** Rankings *)















(** *** What [player_stats] holds

    For player identifiers that are integers or strings, the entry of a
    player is the aggregate of that player's filtered events. *)






Definition total (gs : list Z) : Z := fold_right Z.add 0%Z gs.









(** *** The order of [player_stats]

    A dictionary keeps its keys in the order they were inserted: the entries
    of [player_stats] stand in the order in which the filtered events first
    name their players. *)





Lemma total_app gs g : total (gs ++ [g]) = (total gs + g)%Z.
Proof. unfold total. induction gs as [|x gs IH]; simpl; lia. Qed.










End Handler.

(** ** Examples

    Instances of the two parameters, to run the model: a float prints as
    [<float>] and a container as its brackets (no example formats one), and
    a quotient is kept as it is (exact for the small numbers used here). *)

Definition value_repr (v : value) : string :=
  match v with
  | VFloat _ => "<float>"
  | VList _ => "[...]"
  | VDict _ => "{...}"
  | _ => ""
  end.

Definition exact_double (x : Q) : option Q := Some x.

Definition roster_entry (id jersey : Z) (first last : string) : player :=
  mk_player (VInt 1) (VInt 10) (VStr "Lyon") (VStr "home") (VInt jersey)
    (VStr "wing") (VInt id) (VStr first) (VStr last) (VStr "FRA") VNone VNone.

Definition graded (pid grade : Z) : value :=
  dict [("type", VStr "try"); ("player_id", VInt pid); ("team_id", VInt 10);
        ("metadata", dict [("grade", VInt grade)])].

Definition ungraded (pid : Z) : value :=
  dict [("type", VStr "try"); ("player_id", VInt pid); ("team_id", VInt 10)].

(** Player 1 with three events graded 8 and 9, player 2 with three events,
    one graded 5, player 2 seen first. *)
Definition tie_handler : handler :=
  mk_handler
    [dict [("id", VInt 1); ("round", VInt 3);
           ("home_team", dict [("id", VInt 10); ("name", VStr "Lyon")])]]
    [graded 2 5; graded 1 8; ungraded 2; graded 1 9; ungraded 1; ungraded 2]
    [roster_entry 1 11 "Ann" "Arnaud"; roster_entry 2 14 "Bob" "Bernard"].



(** The tie of the specification: equal counts, and the higher average
    wins although the other player was seen first. *)
Example ranking_tie_break :
  data (get_data_for_query value_repr exact_double tie_handler [] "top_stat_in_game")
  = [top_record value_repr (roster_entry 1 11 "Ann" "Arnaud")
       (mk_player_stat 3 [8%Z; 9%Z] 17 (17 # 2)) [] 6].
Proof. reflexivity. Qed.




(** Events whose [player_id] is not-a-number are counted under one entry,
    as [json] reads every [NaN] as the same object; with three of them and
    two events of player 7 that entry wins, and no player has its
    identifier, as not-a-number equals nothing: no record is returned. *)
Definition anonymous_event : value :=
  dict [("type", VStr "try"); ("player_id", VFloat NaN); ("team_id", VInt 10)].

Definition anonymous_handler : handler :=
  mk_handler []
    [anonymous_event; ungraded 7; anonymous_event; ungraded 7; anonymous_event]
    [roster_entry 7 11 "Ann" "Arnaud"].

Example not_a_number_is_one_entry :
  for_each (tally exact_double) (events anonymous_handler) []
  = Ok [(VFloat NaN, mk_player_stat 3 [] 0 0); (VInt 7, mk_player_stat 2 [] 0 0)]
  /\ player_with_id anonymous_handler (VFloat NaN) = None
  /\ get_data_for_query value_repr exact_double anonymous_handler [] "get_rankings"
     = mk_result "get_rankings" [] false (Some "No ranking data found") None.
Proof. repeat split. Qed.

(** An event whose [metadata] is [null] makes the rankings handler raise;
    the caller gets a failed result with the message. *)
Definition null_metadata_handler : handler :=
  mk_handler []
    [dict [("type", VStr "try"); ("player_id", VInt 1); ("metadata", VNone)]]
    [roster_entry 1 11 "Ann" "Arnaud"].

Lemma query_never_raises_witness :
  get_data_for_query value_repr exact_double null_metadata_handler [] "get_rankings"
  = mk_result "get_rankings" [] false
      (Some "'NoneType' object has no attribute 'get'") None
  /\ get_data_for_query value_repr exact_double null_metadata_handler [] "get_weather"
     = mk_result "get_weather" [] false (Some "Unknown intent: get_weather") None.
Proof.
  destruct (query_never_raises value_repr exact_double null_metadata_handler []
              "get_rankings") as [_ Hknown].
  destruct (query_never_raises value_repr exact_double null_metadata_handler []
              "get_weather") as [Hunknown _].
  split.
  - destruct (Hknown _ eq_refl) as (_ & Hraise & _).
    apply (Hraise (mk_exn AttributeError "'NoneType' object has no attribute 'get'")).
    reflexivity.
  - apply Hunknown. simpl. intuition discriminate.
Defined.

(** With nothing loaded: game information fails without a message, a
    comparison fails with one. *)
Lemma game_info_fails_silently_witness :
  get_data_for_query value_repr exact_double (mk_handler [] [] []) [] "get_game_info"
  = mk_result "get_game_info" [] false None None
  /\ exists message,
       error (mk_result "compare" [] false (Some "Insufficient data for comparison") None)
       = Some message
       /\ empty_message "compare" = Some message
       /\ is_empty message = false.
Proof.
  destruct (game_info_fails_silently value_repr exact_double (mk_handler [] [] []) [])
    as [Hgames Hothers].
  split.
  - apply Hgames. reflexivity.
  - apply (Hothers "compare" _ _ eq_refl); [discriminate|reflexivity|reflexivity].
Defined.

End DataProps.

(* ================================================================== *)
(** * Properties of a loaded corpus *)
(* ================================================================== *)

Module LoadProps.
Import Py PyNotations Data Values DataLoad.

(** ** Loops that collect *)

Lemma for_each_collect {A B : Type} (f : A -> result B) (xs : list A) :
  forall acc out,
    for_each (fun acc x => y <- f x ;; Ok (acc ++ [y])) xs acc = Ok out ->
    exists ys, Forall2 (fun x y => f x = Ok y) xs ys /\ out = acc ++ ys.
Proof.
  induction xs as [|x xs IH]; intros acc out H; simpl in H.
  - injection H as <-. exists []. split; [constructor|now rewrite app_nil_r].
  - destruct (f x) as [y|] eqn:E; [|discriminate]. cbn [bind] in H.
    destruct (IH _ _ H) as (ys & Hall & ->).
    exists (y :: ys). split; [now constructor|now rewrite <- app_assoc].
Qed.

Lemma for_each_collect_ok {A B : Type} (f : A -> result B) (xs : list A) :
  Forall (fun x => exists y, f x = Ok y) xs ->
  forall acc, exists ys,
    for_each (fun acc x => y <- f x ;; Ok (acc ++ [y])) xs acc = Ok (acc ++ ys)
    /\ List.length ys = List.length xs.
Proof.
  induction 1 as [|x xs [y Hy] _ IH]; intros acc; simpl.
  - exists []. now rewrite app_nil_r.
  - rewrite Hy. cbn [bind]. destruct (IH (acc ++ [y])) as (ys & -> & Hlen).
    exists (y :: ys). rewrite <- app_assoc. simpl. auto.
Qed.

Lemma get_ok_dict v key default x :
  get v key default = Ok x -> exists pairs, v = VDict pairs.
Proof. destruct v; try discriminate. eauto. Qed.

Lemma get_dict_ok pairs key default : exists x, get (VDict pairs) key default = Ok x.
Proof. simpl. eauto. Qed.

(** ** A game that was loaded can be summarized *)

Definition summarizable (game : value) : Prop := exists info, game_summary game = Ok info.

Lemma roster_players_dict id team side known known' :
  roster_players id team side known = Ok known' -> exists pairs, team = VDict pairs.
Proof.
  unfold roster_players. intros H.
  destruct (get team "roster" (VList [])) eqn:E; [|discriminate].
  eapply get_ok_dict. exact E.
Qed.

(** The extraction of the players reads the game and its two teams with
    [get]: where it went through, they are dictionaries, and the summary of
    the game, which reads them the same way, goes through. *)
Lemma extract_summarizable known game_data known' :
  _extract_players_from_game known game_data = Ok known' -> summarizable game_data.
Proof.
  unfold _extract_players_from_game. intros H.
  destruct (get game_data "id" VNone) as [id|] eqn:Hid; [|discriminate]. cbn [bind] in H.
  destruct (get_ok_dict _ _ _ _ Hid) as [pairs ->].
  destruct (get (VDict pairs) "home_team" (VDict [])) as [home_team|] eqn:Hh; [|discriminate].
  cbn [bind] in H.
  destruct (roster_players id home_team "home" known) as [known1|] eqn:H1; [|discriminate].
  cbn [bind] in H.
  destruct (get (VDict pairs) "away_team" (VDict [])) as [away_team|] eqn:Ha; [|discriminate].
  cbn [bind] in H.
  destruct (roster_players_dict _ _ _ _ _ H1) as [hp ->].
  destruct (roster_players_dict _ _ _ _ _ H) as [ap ->].
  unfold summarizable, game_summary.
  destruct (get_dict_ok pairs "id" VNone) as [x1 ->]. cbn [bind].
  destruct (get_dict_ok pairs "round" VNone) as [x2 ->]. cbn [bind].
  destruct (get_dict_ok pairs "start_time" VNone) as [x3 ->]. cbn [bind].
  destruct (get_dict_ok pairs "competition" VNone) as [x4 ->]. cbn [bind].
  destruct (get_dict_ok pairs "venue" VNone) as [x5 ->]. cbn [bind].
  rewrite Hh. cbn [bind].
  destruct (get_dict_ok hp "name" VNone) as [x6 ->]. cbn [bind].
  rewrite Ha. cbn [bind].
  destruct (get_dict_ok ap "name" VNone) as [x7 ->]. cbn [bind].
  eauto.
Qed.

(** ** The two loops of [_load_data] *)

(** The loop over the game files, when it goes through: every path that
    exists was decoded, and the games are their documents, in order. *)
Lemma load_games_all files : forall self self',
  for_each load_game files self = Ok self' ->
  exists loaded,
    map content (filter exists_ files) = map Ok loaded
    /\ games self' = games self ++ loaded
    /\ events self' = events self
    /\ Forall summarizable loaded.
Proof.
  induction files as [|f files IH]; intros self self' H; simpl in H.
  - injection H as <-. exists []. rewrite app_nil_r. auto.
  - destruct (load_game self f) as [self1|] eqn:E; [|discriminate]. cbn [bind] in H.
    unfold load_game in E. simpl. destruct (exists_ f).
    + destruct (content f) as [game_data|] eqn:C; [|discriminate]. cbn [bind] in E.
      destruct (_extract_players_from_game _ _) as [known|] eqn:X; [|discriminate].
      cbn [bind] in E. injection E as <-.
      destruct (IH _ _ H) as (loaded & Hfiles & Hg & He & Hall). simpl in Hg, He.
      exists (game_data :: loaded). rewrite Hg, <- app_assoc. simpl.
      rewrite Hfiles, C. repeat split; auto. constructor; [|exact Hall].
      eapply extract_summarizable. exact X.
    + injection E as <-. now apply IH.
Qed.

Lemma load_events_all files : forall self self',
  for_each load_events files self = Ok self' ->
  games self' = games self /\ players self' = players self
  /\ exists parts,
       Forall2 (fun f items => bind (content f) iterate = Ok items)
         (filter exists_ files) parts
       /\ events self' = events self ++ List.concat parts.
Proof.
  induction files as [|f files IH]; intros self self' H; simpl in H.
  - injection H as <-. repeat split. exists []. split; [constructor|].
    simpl. now rewrite app_nil_r.
  - destruct (load_events self f) as [self1|] eqn:E; [|discriminate]. cbn [bind] in H.
    unfold load_events in E. simpl. destruct (exists_ f).
    + destruct (content f) as [events_data|] eqn:C; [|discriminate].
      cbn [bind] in E. destruct (iterate events_data) as [items|] eqn:I; [|discriminate].
      cbn [bind] in E. injection E as <-.
      destruct (IH _ _ H) as (Hg & Hp & parts & Hall & He). simpl in Hg, Hp, He.
      split; [exact Hg|]. split; [exact Hp|].
      exists (items :: parts). split.
      * constructor; [|exact Hall]. rewrite C. cbn [bind]. exact I.
      * rewrite He, <- app_assoc. reflexivity.
    + injection E as <-. now apply IH.
Qed.

(** What [SimpleRugbyDataHandler()] holds when it was built. *)
Lemma init_loaded game_files event_files self :
  init game_files event_files = Ok self ->
  map content (filter exists_ game_files) = map Ok (games self)
  /\ Forall summarizable (games self)
  /\ exists parts,
       Forall2 (fun f items => bind (content f) iterate = Ok items)
         (filter exists_ event_files) parts
       /\ events self = List.concat parts.
Proof.
  unfold init, _load_data. intros H.
  destruct (for_each load_game game_files _) as [self1|] eqn:G; [|discriminate].
  cbn [bind] in H.
  destruct (load_games_all _ _ _ G) as (loaded & Hfiles & Hg & He & Hsum).
  simpl in Hg, He.
  destruct (load_events_all _ _ _ H) as (Hg' & _ & parts & Hall & He').
  rewrite Hg', Hg. split; [exact Hfiles|]. split; [exact Hsum|].
  exists parts. split; [exact Hall|]. now rewrite He', He.
Qed.

(** The game handler on games that can be summarized: one record for each,
    in order. *)
Lemma game_info_records self entities :
  Forall summarizable (games self) ->
  exists records,
    _handle_get_game_info self entities
    = Ok (mk_result "get_game_info" records (nonempty (games self)) None None)
    /\ Forall2 (fun game record => game_summary game = Ok record) (games self) records.
Proof.
  intros Hsum. unfold _handle_get_game_info.
  destruct (for_each_collect_ok game_summary (games self) Hsum []) as (records & E & Hlen).
  destruct (for_each_collect _ _ _ _ E) as (records' & Hall & Heq).
  simpl in E, Heq. subst records'. rewrite E. cbn [bind].
  exists records. split; [|exact Hall].
  destruct records, (games self); simpl in *; try discriminate; reflexivity.
Qed.

(** ** A small corpus *)

(** A game with one player on each side, an events file, and what loading
    them gives. *)
Definition sample_game : value :=
  dict [("id", VInt 1); ("round", VInt 3);
        ("home_team",
         dict [("id", VInt 10); ("name", VStr "Lyon");
               ("roster",
                VList [dict [("jersey_number", VInt 7);
                             ("roster_position", VStr "flanker");
                             ("player", dict [("id", VInt 100);
                                              ("first_name", VStr "Ann");
                                              ("last_name", VStr "Arnaud")])]])]);
        ("away_team",
         dict [("id", VInt 20); ("name", VStr "Toulon");
               ("roster", VList [dict [("jersey_number", VInt 15)]])])].

Definition sample_players : list player :=
  [mk_player (VInt 1) (VInt 10) (VStr "Lyon") (VStr "home") (VInt 7) (VStr "flanker")
     (VInt 100) (VStr "Ann") (VStr "Arnaud") VNone VNone VNone;
   mk_player (VInt 1) (VInt 20) (VStr "Toulon") (VStr "away") (VInt 15) VNone
     VNone VNone VNone VNone VNone VNone].

Definition sample_events : value :=
  VList [dict [("type", VStr "tackle"); ("player_id", VInt 100)];
         dict [("type", VStr "try"); ("player_id", VInt 100); ("grade", VInt 8)]].

Definition sample_corpus : handler :=
  mk_handler [sample_game]
    [dict [("type", VStr "tackle"); ("player_id", VInt 100)];
     dict [("type", VStr "try"); ("player_id", VInt 100); ("grade", VInt 8)]]
    sample_players.

(** The paths the patterns found: the game file, a game file that is gone
    when the loop comes to it, and the events file. *)
Definition sample_game_files : list file :=
  [mk_file true (Ok sample_game);
   mk_file false (Raise (mk_exn FileNotFoundError "game2.json"))].

Definition sample_event_files : list file := [mk_file true (Ok sample_events)].

(** ** Success and data *)

(** C8. For every entity set and every intent string, the result of
    [get_data_for_query] has [success] true if and only if its [data] is
    not empty.  The game-info handler, which passes no [error], agrees with
    the rule: on a handler that was built from the data files it returns
    one record for each loaded game, the summary of that game, in order,
    and the games are the documents of the game files that exist; its
    [success] is true exactly when at least one game was loaded. *)
Theorem success_iff_data (py_repr : value -> string) (round_double : Q -> option Q)
    (self : handler) (entities : entity_set) (intent : string) :
  (success (get_data_for_query py_repr round_double self entities intent) = true
   <-> data (get_data_for_query py_repr round_double self entities intent) <> [])
  /\ (forall game_files event_files,
        init game_files event_files = Ok self ->
        exists records,
          get_data_for_query py_repr round_double self entities "get_game_info"
          = mk_result "get_game_info" records (nonempty (games self)) None None
          /\ Forall2 (fun game record => game_summary game = Ok record)
               (games self) records
          /\ List.length records = List.length (games self)
          /\ map content (filter exists_ game_files) = map Ok (games self)
          /\ (success
                (get_data_for_query py_repr round_double self entities "get_game_info")
              = true <-> games self <> [])).
Proof.
  split.
  - rewrite DataProps.success_is_nonempty.
    destruct (data _); simpl; split; congruence.
  - intros game_files event_files Hinit.
    destruct (init_loaded _ _ _ Hinit) as (Hfiles & Hsum & _).
    destruct (game_info_records self entities Hsum) as (records & Hr & Hall).
    assert (E : get_data_for_query py_repr round_double self entities "get_game_info"
                = mk_result "get_game_info" records (nonempty (games self)) None None).
    { unfold get_data_for_query.
      cbv [dispatch String.eqb Ascii.eqb Bool.eqb orb]. now rewrite Hr. }
    exists records. split; [exact E|]. split; [exact Hall|].
    split; [symmetry; eapply Forall2_length; exact Hall|].
    split; [exact Hfiles|].
    rewrite E. simpl. destruct (games self); simpl; split; congruence.
Qed.

(** The small corpus: one game was loaded, and the game query returns its
    summary. *)
Lemma success_iff_data_witness :
  exists records,
    get_data_for_query DataProps.value_repr DataProps.exact_double sample_corpus
      [("teams", ["Pau"])] "get_game_info"
    = mk_result "get_game_info" records true None None
    /\ List.length records = 1.
Proof.
  destruct (success_iff_data DataProps.value_repr DataProps.exact_double sample_corpus
              [("teams", ["Pau"])] "get_game_info") as [_ H].
  destruct (H sample_game_files sample_event_files eq_refl)
    as (records & Hr & _ & Hlen & _).
  exists records. split; [exact Hr|exact Hlen].
Defined.

(** A handler that does not come from the data files: its one game is no
    dictionary, the game query raises, and the result has no data although
    there is a game.  The rule of C8 holds of it all the same. *)
Example game_info_of_a_broken_game :
  get_data_for_query DataProps.value_repr DataProps.exact_double
    (mk_handler [VNone] [] []) [] "get_game_info"
  = mk_result "get_game_info" [] false
      (Some "'NoneType' object has no attribute 'get'") None
  /\ init [mk_file true (Ok VNone)] []
     = Raise (mk_exn AttributeError "'NoneType' object has no attribute 'get'").
Proof. split; reflexivity. Qed.

End LoadProps.

(* ================================================================== *)
(** * More on the cache: reads, updates, evictions *)
(* ================================================================== *)

Module LRUFacts.
Import Py PyNotations LRU LRUProps.

Section Facts.
Context {V : Type}.
Implicit Types (d : odict V) (c : LRUCache V) (k : string) (v : V).

Lemma getitem_present k d :
  In k (map fst d) -> exists v, getitem k d = Ok v.
Proof.
  induction d as [|[k' w] rest IH]; simpl; [contradiction|].
  destruct (String.eqb_spec k k') as [->|Hne].
  - intros _. now exists w.
  - intros [E|Hin]; [congruence|]. now apply IH.
Qed.

Lemma moved_entries (before after : odict V) (e : string * V) :
  Permutation (before ++ e :: after) ((before ++ after) ++ [e]).
Proof.
  rewrite <- app_assoc. apply Permutation_app_head, Permutation_cons_append.
Qed.

Lemma getitem_In k d v : getitem k d = Ok v -> In (k, v) d.
Proof.
  induction d as [|[k' w] rest IH]; simpl; [discriminate|].
  destruct (String.eqb_spec k k') as [->|Hne].
  - intros [= ->]. now left.
  - intros H. right. now apply IH.
Qed.

(** What [get] does to a cache, with no assumption on it. *)
Lemma get_cases k c :
  (~ In k (keys c) /\ get k c = Ok (None, c))
  \/ (exists v w before after,
        cache c = before ++ (k, w) :: after /\
        In (k, v) ((before ++ after) ++ [(k, w)]) /\
        get k c = Ok (Some v, mk_cache (max_size c) ((before ++ after) ++ [(k, w)]))).
Proof.
  destruct (has_key k (cache c)) eqn:Hk.
  - right. destruct (unlink_present _ _ Hk) as (w & before & after & Hd & _ & Hu).
    destruct (getitem_present k ((before ++ after) ++ [(k, w)])) as [v Hv].
    { rewrite map_app, in_app_iff. right. now left. }
    exists v, w, before, after. split; [exact Hd|].
    split; [now apply getitem_In|].
    unfold get, move_to_end. rewrite Hk, Hu. cbn [bind]. now rewrite Hv.
  - left. apply has_key_false in Hk. split; [exact Hk|]. now apply get_miss.
Qed.

(** The cache after a [get] holds the entries it held, the answer among
    them. *)
Lemma get_keeps_entries_of k c answer c1 :
  get k c = Ok (answer, c1) ->
  Permutation (cache c) (cache c1)
  /\ (forall label, answer = Some label -> In (k, label) (cache c1)).
Proof.
  destruct (get_cases k c) as [[_ Hget]|(v & w & before & after & Hd & Hin & Hget)];
    rewrite Hget; intros [= <- <-].
  - split; [apply Permutation_refl|discriminate].
  - split; [simpl; rewrite Hd; apply moved_entries|].
    intros label [= <-]. exact Hin.
Qed.

End Facts.

(** X1. [get] is a read: it never raises, and the cache afterwards holds
    the same entries as before, in another order at most, under the same
    [max_size].  For a key that is not stored it returns [None] and leaves
    the cache as it is; for a stored key it returns a value stored under
    that key.  So a returned value other than [None] shows that the key is
    stored, while a returned [None] leaves open whether the key is missing
    or stores [None]. *)
Theorem get_keeps_entries (V : Type) (none : V) (k : string) (c : LRUCache V) :
  exists answer c',
    get k c = Ok (answer, c')
    /\ Permutation (cache c) (cache c')
    /\ max_size c' = max_size c
    /\ (~ In k (keys c) -> returned none answer = none /\ c' = c)
    /\ (In k (keys c) -> In (k, returned none answer) (cache c))
    /\ (returned none answer <> none -> In k (keys c))
    /\ (returned none answer = none -> ~ In k (keys c) \/ In (k, none) (cache c)).
Proof.
  destruct (get_cases k c) as [[Hout Hget]|(v & w & before & after & Hd & Hv & Hget)].
  - exists None, c. split; [exact Hget|]. split; [apply Permutation_refl|].
    split; [reflexivity|]. simpl. split; [auto|]. split; [intros H; contradiction|].
    split; [intros H; now contradiction H|auto].
  - assert (Hin : In k (keys c)).
    { unfold keys. rewrite Hd, map_app, in_app_iff. right. now left. }
    assert (Hstored : In (k, v) (cache c)).
    { eapply Permutation_in; [|exact Hv]. apply Permutation_sym.
      rewrite Hd. apply moved_entries. }
    exists (Some v), (mk_cache (max_size c) ((before ++ after) ++ [(k, w)])).
    split; [exact Hget|]. split; [simpl; rewrite Hd; apply moved_entries|].
    split; [reflexivity|]. simpl. split; [intros H; contradiction|].
    split; [auto|]. split; [auto|]. intros <-. now right.
Qed.

(** A cache of optional numbers in which the key [a] stores [None]: the
    caller gets the same object for [a] and for the missing key [b]. *)
Example get_cannot_tell_a_stored_none :
  let c := mk_cache 2 [("a", None); ("c", Some 3)] in
  get_value "a" c = Ok (Some None)
  /\ get_value "b" c = Ok None
  /\ returned None (Some None) = returned None (@None (option nat)).
Proof. repeat split. Qed.

(** X2. What is put can be read back: in a cache with distinct keys, no
    more than [max_size] entries and [max_size] at least one, [put] goes
    through and a [get] of the same key
    right after it answers the value put. *)
Theorem put_then_get (V : Type) (k : string) (v : V) (c : LRUCache V) :
  wf c -> (1 <= max_size c)%Z ->
  exists c', put k v c = Ok c' /\ get_value k c' = Ok (Some v).
Proof.
  intros Hwf Hm.
  destruct (put_last k v c Hwf Hm) as (c' & older & Hput & Hlast & _ & [Hnd _]).
  exists c'. split; [exact Hput|].
  apply get_value_present; [exact Hnd|].
  rewrite Hlast, in_app_iff. right. now left.
Qed.

Lemma put_then_get_witness :
  exists c', put "b" 5 (mk_cache 2 [("a", 1); ("b", 2)]) = Ok c'
             /\ get_value "b" c' = Ok (Some 5).
Proof.
  apply (put_then_get nat "b" 5 (mk_cache 2 [("a", 1); ("b", 2)])).
  - split; simpl; [|lia].
    repeat constructor; simpl; intuition discriminate.
  - simpl. lia.
Defined.

(** X3. [put] loses at most the oldest entry: in a cache with distinct keys,
    no more than [max_size] entries and [max_size] at least one, [put] goes
    through and every entry under another key is
    still there afterwards with its value, unless it was the first entry of
    a cache that was full when a key not yet stored was put. *)
Theorem put_evicts_at_most_oldest (V : Type) (k : string) (v : V) (c : LRUCache V) :
  wf c -> (1 <= max_size c)%Z ->
  exists c',
    put k v c = Ok c' /\
    forall k' w, In (k', w) (cache c) -> k' <> k ->
      In (k', w) (cache c')
      \/ (hd_error (cache c) = Some (k', w)
          /\ Z.of_nat (size c) = max_size c /\ ~ In k (keys c)).
Proof.
  intros [Hnd Hsz] Hm. destruct (in_dec string_dec k (keys c)) as [Hin|Hout].
  - destruct (put_present _ v _ Hin Hnd) as (w0 & before & after & Hd & ->).
    eexists. split; [reflexivity|]. intros k' w Hw Hne. left. simpl.
    rewrite Hd in Hw. rewrite !in_app_iff in *. simpl in *.
    destruct Hw as [H|[H|H]]; [tauto| |tauto].
    injection H as -> ->. congruence.
  - rewrite (put_fresh _ v _ Hout). unfold size in *.
    destruct (Z.geb_spec (Z.of_nat (List.length (cache c))) (max_size c)) as [Hfull|Hroom].
    + destruct (cache c) as [|e rest] eqn:E; [simpl in *; lia|].
      eexists. split; [reflexivity|]. intros k' w Hw Hne. simpl.
      destruct Hw as [->|Hw].
      * right. split; [reflexivity|]. split; [simpl in *; lia|exact Hout].
      * left. rewrite in_app_iff. now left.
    + eexists. split; [reflexivity|]. intros k' w Hw Hne. left. simpl.
      rewrite in_app_iff. now left.
Qed.

Lemma put_evicts_at_most_oldest_witness :
  exists c',
    put "c" 3 (mk_cache 2 [("a", 1); ("b", 2)]) = Ok c' /\
    forall k' w, In (k', w) [("a", 1); ("b", 2)] -> k' <> "c" ->
      In (k', w) (cache c')
      \/ (Some ("a", 1) = Some (k', w)
          /\ 2%Z = 2%Z /\ ~ In "c" ["a"; "b"]).
Proof.
  apply (put_evicts_at_most_oldest nat "c" 3 (mk_cache 2 [("a", 1); ("b", 2)])).
  - split; simpl; [|lia].
    repeat constructor; simpl; intuition discriminate.
  - simpl. lia.
Defined.

(** X4. Putting a key that is already stored never evicts: whatever [max_size]
    is, [put] goes through, the keys afterwards are the keys before with
    the key put moved to the most recently used end, and the number of
    entries is unchanged. *)
Theorem put_update_keeps_size (V : Type) (k : string) (v : V) (c : LRUCache V) :
  NoDup (keys c) -> In k (keys c) ->
  exists c' older,
    put k v c = Ok c'
    /\ cache c' = older ++ [(k, v)]
    /\ Permutation (keys c) (keys c')
    /\ size c' = size c.
Proof.
  intros Hnd Hin.
  destruct (put_present _ v _ Hin Hnd) as (w & before & after & Hd & ->).
  exists (mk_cache (max_size c) (before ++ after ++ [(k, v)])), (before ++ after).
  split; [reflexivity|]. split; [simpl; now rewrite app_assoc|].
  unfold keys, size. simpl. rewrite Hd. split.
  - rewrite !map_app. simpl. rewrite ?map_app. simpl.
    apply Permutation_app_head, Permutation_cons_append.
  - apply length_move.
Qed.

(** A cache of size zero that was handed an entry: the update still goes
    through. *)
Lemma put_update_keeps_size_witness :
  exists c' older,
    put "a" 9 (mk_cache 0 [("a", 1); ("b", 2)]) = Ok c'
    /\ cache c' = older ++ [("a", 9)]
    /\ Permutation ["a"; "b"] (keys c')
    /\ size c' = 2.
Proof.
  apply (put_update_keeps_size nat "a" 9 (mk_cache 0 [("a", 1); ("b", 2)])).
  - repeat constructor; simpl; intuition discriminate.
  - simpl. now left.
Defined.

End LRUFacts.

(* ================================================================== *)
(** * More on the intent classifier: labels, cache hits, counters *)
(* ================================================================== *)

Module IntentFacts.
Import Py PyNotations Json Intent IntentTools.

(** ** Entries of a cache after [put] *)

Lemma put_entries {V : Type} (k : string) (v : V) (c c' : LRU.LRUCache V) :
  NoDup (LRU.keys c) -> LRU.put k v c = Ok c' ->
  (forall e, In e (LRU.cache c') -> e = (k, v) \/ In e (LRU.cache c))
  /\ LRU.size c' <= S (LRU.size c).
Proof.
  intros Hnd Hput. destruct (in_dec string_dec k (LRU.keys c)) as [Hin|Hout].
  - destruct (LRUProps.put_present _ v _ Hin Hnd) as (w & before & after & Hd & Hp).
    rewrite Hp in Hput. injection Hput as <-. unfold LRU.size. simpl. rewrite Hd.
    split.
    + intros e. rewrite !in_app_iff. simpl. intuition.
    + rewrite ?length_app. simpl. rewrite ?length_app. simpl. lia.
  - rewrite (LRUProps.put_fresh _ v _ Hout) in Hput. unfold LRU.size in *.
    destruct (_ >=? _)%Z.
    + destruct (LRU.cache c) as [|e0 rest]; [discriminate|].
      injection Hput as <-. simpl. split.
      * intros e. rewrite in_app_iff. simpl. intuition.
      * rewrite length_app. simpl. lia.
    + injection Hput as <-. simpl. split.
      * intros e. rewrite in_app_iff. simpl. intuition.
      * rewrite length_app. simpl. lia.
Qed.

Lemma lower_is_empty s : is_empty (lower s) = is_empty s.
Proof. now destruct s. Qed.

Section Facts.
Variable py_repr : json -> ustring.

(** ** The parser answers within the labels *)

Definition known (labels : list string) (label : string) : Prop :=
  In label ("get_stats" :: labels).

Lemma stage_words_known labels txt : known labels (stage_words labels txt).
Proof.
  unfold stage_words, known.
  destruct (found_labels labels txt) as [|l ls] eqn:E; [now left|].
  destruct (filter _ (l :: ls)) as [|first rest] eqn:F; [now left|].
  right. assert (H : In first (filter (fun lbl => negb (lbl =? "get_stats")%string) (l :: ls))).
  { rewrite F. now left. }
  apply filter_In in H as [H _]. rewrite <- E in H.
  unfold found_labels in H. now apply filter_In in H as [H _].
Qed.

Lemma parse_known self raw :
  known (valid_intents self) (_parse_llm_json_or_label py_repr self raw).
Proof.
  rewrite IntentProps.parse_unfold.
  destruct (stage_json _ _ _) as [intent|] eqn:A.
  - right. unfold stage_json in A.
    destruct (search_object _); [|discriminate].
    destruct (loads _) as [[]| |]; try discriminate.
    now apply find_some in A as [A _].
  - destruct (stage_field _ _) as [intent|] eqn:B.
    + right. unfold stage_field in B.
      destruct (search_intent_field _); [|discriminate].
      destruct (mem_str _ _) eqn:M; [|discriminate].
      injection B as <-. now apply RoutingProps.mem_str_In.
    + apply stage_words_known.
Qed.

Lemma llm_known client self query model :
  known (valid_intents self) (_classify_with_llm py_repr client self query model).
Proof.
  unfold _classify_with_llm. destruct (client _); [apply parse_known|now left].
Qed.

(** ** [classify] with a cache, by cases *)

Lemma classify_hit client self c query model label c1 :
  cache self = Some c -> is_empty (strip query) = false ->
  LRU.get (lower (strip query)) c = Ok (Some label, c1) ->
  is_empty label = false ->
  classify py_repr client self query model =
  Ok (label, with_cache self (Some c1) (cache_hits self + 1) (cache_misses self)).
Proof.
  intros Hc Hq Hget Hl. unfold classify. rewrite Hq, Hc, Hget. cbn [bind].
  now rewrite Hl.
Qed.

Lemma classify_miss client self c query model answer c1 :
  cache self = Some c -> is_empty (strip query) = false ->
  LRU.get (lower (strip query)) c = Ok (answer, c1) ->
  answer = None \/ answer = Some "" ->
  classify py_repr client self query model =
  bind (LRU.put (lower (strip query))
          (_classify_with_llm py_repr client self (strip query) model) c1)
       (fun c2 =>
          Ok (_classify_with_llm py_repr client self (strip query) model,
              with_cache self (Some c2) (cache_hits self) (cache_misses self + 1))).
Proof.
  intros Hc Hq Hget Ha. unfold classify. rewrite Hq, Hc, Hget. cbn [bind].
  destruct Ha as [-> | ->]; reflexivity.
Qed.

(** What one call leaves, for a cache that holds distinct keys and has room
    for an entry: the label is in the cache afterwards, under the
    normalized query. *)
Lemma classify_cached client self c query model :
  cache self = Some c -> LRUProps.wf c -> (1 <= LRU.max_size c)%Z ->
  is_empty (strip query) = false ->
  exists label c' hits missed,
    classify py_repr client self query model =
      Ok (label, with_cache self (Some c') hits missed)
    /\ LRUProps.wf c' /\ LRU.max_size c' = LRU.max_size c
    /\ In (lower (strip query), label) (LRU.cache c')
    /\ (forall e, In e (LRU.cache c') ->
          e = (lower (strip query), label) \/ In e (LRU.cache c))
    /\ LRU.size c' <= S (LRU.size c)
    /\ ((hits = cache_hits self + 1 /\ missed = cache_misses self
         /\ is_empty label = false /\ LRU.size c' = LRU.size c
         /\ In (lower (strip query), label) (LRU.cache c))
        \/ (hits = cache_hits self /\ missed = cache_misses self + 1
            /\ label = _classify_with_llm py_repr client self (strip query) model
            /\ misses self query))%Z.
Proof.
  intros Hc Hwf Hm Hq. set (norm := lower (strip query)).
  destruct (LRUProps.get_wf norm c Hwf) as (answer & c1 & Hget & Hmax1 & Hwf1 & Hsize1).
  destruct (LRUFacts.get_keeps_entries_of _ _ _ _ Hget) as (Hperm & Hanswer).
  assert (Hback : forall e, In e (LRU.cache c1) -> In e (LRU.cache c)).
  { intros e He. eapply Permutation_in; [apply Permutation_sym; exact Hperm|exact He]. }
  destruct answer as [label|].
  - destruct (is_empty label) eqn:Hl.
    + (* an empty label counts as a miss *)
      destruct label; [|discriminate].
      destruct (LRUProps.put_last norm
                  (_classify_with_llm py_repr client self (strip query) model) c1 Hwf1)
        as (c2 & older & Hput & Hlast & Hmax2 & Hwf2); [lia|].
      destruct (put_entries _ _ _ _ (proj1 Hwf1) Hput) as (Hent & Hsz).
      eexists _, c2, _, _. split.
      { rewrite (classify_miss client self c query model (Some "") c1); auto.
        fold norm. rewrite Hput. reflexivity. }
      split; [exact Hwf2|]. split; [congruence|].
      split; [rewrite Hlast, in_app_iff; right; now left|].
      split; [intros e He; destruct (Hent e He); auto|].
      split; [lia|]. right. repeat split.
      unfold misses. rewrite Hc. right. unfold LRU.get_value. fold norm.
      now rewrite Hget.
    + assert (Hin : In (norm, label) (LRU.cache c1)) by (apply Hanswer; reflexivity).
      eexists label, c1, _, _. split.
      { apply (classify_hit client self c query model label c1); auto. }
      split; [exact Hwf1|]. split; [exact Hmax1|]. split; [exact Hin|].
      split; [intros e He; right; now apply Hback|].
      split; [lia|]. left. repeat split; auto.
  - destruct (LRUProps.put_last norm
                (_classify_with_llm py_repr client self (strip query) model) c1 Hwf1)
      as (c2 & older & Hput & Hlast & Hmax2 & Hwf2); [lia|].
    destruct (put_entries _ _ _ _ (proj1 Hwf1) Hput) as (Hent & Hsz).
    eexists _, c2, _, _. split.
    { rewrite (classify_miss client self c query model None c1); auto.
      fold norm. rewrite Hput. reflexivity. }
    split; [exact Hwf2|]. split; [congruence|].
    split; [rewrite Hlast, in_app_iff; right; now left|].
    split; [intros e He; destruct (Hent e He); auto|].
    split; [lia|]. right. repeat split.
    unfold misses. rewrite Hc. left. unfold LRU.get_value. fold norm.
    now rewrite Hget.
Qed.

(** ** A run of calls *)

Definition has_cache (self : IntentClassifierLLM) : bool :=
  match cache self with Some _ => true | None => false end.

Definition non_blank (query : string) : bool := negb (is_empty (strip query)).

(** The queries of a run that reach the cache. *)
Definition lookups (queries : list string) : Z :=
  Z.of_nat (List.length (filter non_blank queries)).

(** What every call keeps: a cache with distinct keys, room for an entry
    and the size the classifier was configured with; known labels in it;
    no more entries than misses. *)
Definition steady (self : IntentClassifierLLM) : Prop :=
  match cache self with
  | Some c =>
      LRUProps.wf c /\ (1 <= LRU.max_size c)%Z
      /\ LRU.max_size c = max_cache_size self
      /\ Forall (fun e => known (valid_intents self) (snd e)) (LRU.cache c)
      /\ (0 <= cache_hits self)%Z
      /\ (Z.of_nat (LRU.size c) <= cache_misses self)%Z
  | None => True
  end.

Lemma steady_init intents name caching size log :
  caching = false \/ (1 <= size)%Z -> steady (init intents name caching size log).
Proof.
  intros H. unfold steady, init. destruct caching; simpl; [|exact I].
  destruct H as [H|H]; [discriminate|].
  repeat split; simpl; try lia; constructor.
Qed.

Lemma classify_steady client self query model :
  steady self ->
  exists label self',
    classify py_repr client self query model = Ok (label, self')
    /\ steady self'
    /\ known (valid_intents self) label
    /\ valid_intents self' = valid_intents self
    /\ max_cache_size self' = max_cache_size self
    /\ has_cache self' = has_cache self
    /\ (has_cache self = true ->
        cache_hits self' + cache_misses self'
        = cache_hits self + cache_misses self + (if non_blank query then 1 else 0))%Z.
Proof.
  intros Hs. unfold non_blank. destruct (is_empty (strip query)) eqn:Hq.
  - exists "get_stats", self. unfold classify. rewrite Hq.
    repeat split; auto; [now left|simpl; lia].
  - unfold steady, has_cache in *. destruct (cache self) as [c|] eqn:Hc.
    + destruct Hs as (Hwf & Hm & Hmax & Hall & Hhits & Hsize).
      destruct (classify_cached client self c query model Hc Hwf Hm Hq)
        as (label & c' & hits & missed & Hcl & Hwf' & Hmax' & Hin & Hent & Hsz & Hcase).
      exists label, (with_cache self (Some c') hits missed).
      split; [exact Hcl|]. simpl.
      assert (Hlabel : known (valid_intents self) label).
      { destruct Hcase as [(_ & _ & _ & _ & Hold)|(_ & _ & -> & _)].
        - rewrite Forall_forall in Hall. exact (Hall _ Hold).
        - apply llm_known. }
      split; [|repeat split; auto].
      * split; [exact Hwf'|]. split; [lia|]. split; [congruence|].
        split; [|destruct Hcase as [(-> & -> & _ & Hsame & _)|(-> & -> & _)]; lia].
        apply Forall_forall. intros e He. destruct (Hent e He) as [->|Hold]; [exact Hlabel|].
        rewrite Forall_forall in Hall. exact (Hall _ Hold).
      * intros _. destruct Hcase as [(-> & -> & _)|(-> & -> & _)]; simpl; lia.
    + exists (_classify_with_llm py_repr client self (strip query) model), self.
      unfold classify. rewrite Hq, Hc. rewrite ?Hc.
      repeat split; auto; try apply llm_known; discriminate.
Qed.

Lemma classify_all_steady client queries : forall self,
  steady self ->
  exists labels self',
    classify_all py_repr client self queries = Ok (labels, self')
    /\ steady self'
    /\ List.length labels = List.length queries
    /\ Forall (known (valid_intents self)) labels
    /\ max_cache_size self' = max_cache_size self
    /\ has_cache self' = has_cache self
    /\ (has_cache self = true ->
        cache_hits self' + cache_misses self'
        = cache_hits self + cache_misses self + lookups queries)%Z.
Proof.
  induction queries as [|query rest IH]; intros self Hs.
  - exists [], self. simpl. repeat split; auto. unfold lookups. simpl. lia.
  - destruct (classify_steady client self query None Hs)
      as (label & self1 & Hcl & Hs1 & Hk & Hv & Hmax & Hc & Hcount).
    destruct (IH self1 Hs1) as (labels & self2 & Hall & Hs2 & Hlen & Hks & Hmax2 & Hc2 & Hcount2).
    exists (label :: labels), self2. simpl. rewrite Hcl. cbn [bind]. rewrite Hall. cbn [bind].
    split; [reflexivity|]. split; [exact Hs2|]. split; [simpl; congruence|].
    split; [constructor; [exact Hk|now rewrite <- Hv]|].
    split; [congruence|]. split; [congruence|].
    intros H. specialize (Hcount H). rewrite Hc in Hcount2. specialize (Hcount2 H).
    unfold lookups in *. simpl. destruct (non_blank query); simpl List.length; lia.
Qed.

(** ** The properties *)

(** X5. Whatever the text, [_parse_llm_json_or_label] returns one of the
    valid labels or [get_stats]: never a part of the text that is not a
    label. *)
Theorem parser_returns_known_label (self : IntentClassifierLLM) (raw : string) :
  In (_parse_llm_json_or_label py_repr self raw) ("get_stats" :: valid_intents self).
Proof. apply parse_known. Qed.

(** X7. The cache answers a repeated query.  With a cache that holds
    distinct keys and no more than [max_size] entries, [max_size] being at
    least one, once [classify] has returned a
    label that is not empty for a query, a call for any query with the same
    trimmed, lowercased text returns that label whatever the service would
    say, counts one more hit and leaves the misses as they are. *)
Theorem classify_repeat_hits_cache (client client' : service)
    (self : IntentClassifierLLM) (c : LRU.LRUCache string)
    (query query' : string) (model model' : option string) :
  cache self = Some c -> LRUProps.wf c -> (1 <= LRU.max_size c)%Z ->
  is_empty (strip query) = false ->
  lower (strip query') = lower (strip query) ->
  exists label self1,
    classify py_repr client self query model = Ok (label, self1)
    /\ (is_empty label = false ->
        exists self2,
          classify py_repr client' self1 query' model' = Ok (label, self2)
          /\ cache_hits self2 = (cache_hits self1 + 1)%Z
          /\ cache_misses self2 = cache_misses self1).
Proof.
  intros Hc Hwf Hm Hq Hsame.
  destruct (classify_cached client self c query model Hc Hwf Hm Hq)
    as (label & c' & hits & missed & Hcl & [Hnd' Hsz'] & Hmax' & Hin & _).
  exists label, (with_cache self (Some c') hits missed). split; [exact Hcl|].
  intros Hlabel.
  assert (Hq' : is_empty (strip query') = false).
  { rewrite <- lower_is_empty, Hsame, lower_is_empty. exact Hq. }
  assert (Hk : In (lower (strip query)) (LRU.keys c')).
  { unfold LRU.keys. apply in_map_iff. now exists (lower (strip query), label). }
  destruct (LRUProps.get_hit _ _ Hk Hnd') as (v & before & after & Hd & Hget).
  assert (E : label = v) by exact (LRUProps.In_unique_value _ _ _ _ _ _ Hd Hnd' Hin).
  subst v. eexists. split.
  - apply (classify_hit client' _ c' query' model' label); auto.
    rewrite Hsame. exact Hget.
  - simpl. auto.
Qed.

(** X8. [classify] keeps its promise over a whole run.  For a classifier
    as [__init__] leaves it, with caching disabled or a cache size of at
    least one, the self-test loop over any list of queries goes through
    without an exception, whatever the service does, and every label
    returned is one of the valid labels or [get_stats]. *)
Theorem classify_all_labels_known (client : service) (intents : list string)
    (name : string) (caching : bool) (size : Z) (log : bool)
    (queries : list string) :
  caching = false \/ (1 <= size)%Z ->
  exists labels self',
    classify_all py_repr client (init intents name caching size log) queries
      = Ok (labels, self')
    /\ List.length labels = List.length queries
    /\ Forall (fun label => In label ("get_stats" :: intents)) labels.
Proof.
  intros H.
  destruct (classify_all_steady client queries _ (steady_init intents name caching size log H))
    as (labels & self' & Hall & _ & Hlen & Hk & _).
  exists labels, self'. auto.
Qed.

(** X9. The counters count the lookups.  For a classifier as [__init__]
    leaves it with caching enabled and a cache size of at least one, after
    the self-test loop over any list of queries the hits and the misses add
    up to the number of queries that are not blank, and the cache holds no
    more entries than there were misses and no more than its size. *)
Theorem classify_all_counts_lookups (client : service) (intents : list string)
    (name : string) (size : Z) (log : bool) (queries : list string) :
  (1 <= size)%Z ->
  exists labels self' c',
    classify_all py_repr client (init intents name true size log) queries
      = Ok (labels, self')
    /\ cache self' = Some c'
    /\ (cache_hits self' + cache_misses self' = lookups queries)%Z
    /\ (0 <= cache_hits self')%Z
    /\ (Z.of_nat (LRU.size c') <= cache_misses self')%Z
    /\ (Z.of_nat (LRU.size c') <= size)%Z.
Proof.
  intros H.
  destruct (classify_all_steady client queries _
              (steady_init intents name true size log (or_intror H)))
    as (labels & self' & Hall & Hs & _ & _ & Hmax & Hc & Hcount).
  unfold steady, has_cache in *. simpl in Hc, Hcount, Hmax.
  destruct (cache self') as [c'|] eqn:Hcache; [|discriminate].
  destruct Hs as ([_ Hsz] & _ & Hm & _ & Hhits & Hsize).
  exists labels, self', c'. specialize (Hcount eq_refl).
  repeat split; auto; lia.
Qed.

(** X10. A cache size of zero or less breaks the classifier.  With caching
    enabled and such a size, the first call of [classify] with a query
    that is not blank raises the [KeyError] of taking an entry out of the
    empty cache, whatever the service answers. *)
Theorem classify_zero_capacity_raises (client : service) (intents : list string)
    (name : string) (size : Z) (log : bool) (query : string)
    (model : option string) :
  (size <= 0)%Z -> is_empty (strip query) = false ->
  classify py_repr client (init intents name true size log) query model
  = Raise (mk_exn KeyError "'dictionary is empty'").
Proof.
  intros Hsize Hq. unfold classify. rewrite Hq. simpl.
  unfold LRU.put. simpl.
  destruct (Z.geb_spec 0 size) as [_|Hlt]; [reflexivity|lia].
Qed.

End Facts.

(** A query asked twice, the second time in capitals and with blanks
    around it, while the service has gone down in between. *)
Lemma classify_repeat_hits_cache_witness :
  exists label self1,
    classify IntentProps.literal_repr (RoutingProps.answers (q "{`intent`:`get_roster`}"))
      default_classifier "show me lyon's roster" None = Ok (label, self1)
    /\ (is_empty label = false ->
        exists self2,
          classify IntentProps.literal_repr IntentProps.unreachable self1
            "  Show me LYON's roster " None = Ok (label, self2)
          /\ cache_hits self2 = (cache_hits self1 + 1)%Z
          /\ cache_misses self2 = cache_misses self1).
Proof.
  apply (classify_repeat_hits_cache IntentProps.literal_repr
           (RoutingProps.answers (q "{`intent`:`get_roster`}")) IntentProps.unreachable
           default_classifier (LRU.new 256)
           "show me lyon's roster" "  Show me LYON's roster " None None).
  - reflexivity.
  - apply LRUProps.wf_new. lia.
  - simpl. lia.
  - reflexivity.
  - reflexivity.
Defined.

Lemma classify_all_labels_known_witness :
  exists labels self',
    classify_all IntentProps.literal_repr (RoutingProps.answers "no idea")
      (init default_intents "phi3:3.8b" true 2 true)
      ["who is player 7?"; "  "; "final score?"; "best tackler?"] = Ok (labels, self')
    /\ List.length labels = 4
    /\ Forall (fun label => In label ("get_stats" :: default_intents)) labels.
Proof.
  apply (classify_all_labels_known IntentProps.literal_repr
           (RoutingProps.answers "no idea") default_intents "phi3:3.8b" true 2 true
           ["who is player 7?"; "  "; "final score?"; "best tackler?"]).
  right. lia.
Defined.

Lemma classify_all_counts_lookups_witness :
  exists labels self' c',
    classify_all IntentProps.literal_repr (RoutingProps.answers "compare")
      (init default_intents "phi3:3.8b" true 2 true)
      ["who is player 7?"; "  "; "Who is player 7? "] = Ok (labels, self')
    /\ cache self' = Some c'
    /\ (cache_hits self' + cache_misses self' = 2)%Z
    /\ (0 <= cache_hits self')%Z
    /\ (Z.of_nat (LRU.size c') <= cache_misses self')%Z
    /\ (Z.of_nat (LRU.size c') <= 2)%Z.
Proof.
  apply (classify_all_counts_lookups IntentProps.literal_repr
           (RoutingProps.answers "compare") default_intents "phi3:3.8b" 2 true
           ["who is player 7?"; "  "; "Who is player 7? "]).
  lia.
Defined.

(** ** An object with a label anywhere in the reply *)

(** The reply the prompt asks for: [{`intent`:`label`}]. *)
Definition intent_object (label : string) : string :=
  (q "{`intent`:`" ++ label ++ q "`}")%string.

(** What stands between its braces. *)
Definition intent_entry (label : string) : string :=
  (q "`intent`:`" ++ label ++ String dquote EmptyString)%string.

Definition not_open (c : ascii) : bool := negb (is_char 123 c).

Lemma intent_object_braces label post :
  (intent_object label ++ post
   = String (ascii_of_N 123) (intent_entry label ++ String (ascii_of_N 125) post))%string.
Proof.
  unfold intent_object, intent_entry.
  change (q "`}") with (String dquote (String (ascii_of_N 125) EmptyString)).
  change (q "{`intent`:`") with (String (ascii_of_N 123) (q "`intent`:`")).
  simpl. f_equal. rewrite !IntentProps.append_assoc. reflexivity.
Qed.

Lemma strip_around pre c mid d post :
  is_space c = false -> is_space d = false ->
  strip (pre ++ String c (mid ++ String d post))
  = (lstrip_by is_space pre ++ String c (mid ++ String d (rstrip_by is_space post)))%string.
Proof.
  intros Hc Hd. unfold strip, strip_by.
  rewrite IntentProps.lstrip_by_app by exact Hc.
  replace (lstrip_by is_space pre ++ String c (mid ++ String d post))%string
    with ((lstrip_by is_space pre ++ String c mid) ++ String d post)%string
    by (rewrite IntentProps.append_assoc; reflexivity).
  rewrite IntentProps.rstrip_by_app by exact Hd.
  rewrite IntentProps.append_assoc. reflexivity.
Qed.

(** No [{...}] span starts before the first opening brace. *)
Lemma search_object_skip pre rest :
  all_chars not_open pre = true -> search_object (pre ++ rest) = search_object rest.
Proof.
  induction pre as [|c pre IH]; simpl; [reflexivity|].
  intros H. apply andb_true_iff in H as [Hc Hpre]. unfold not_open in Hc.
  destruct (is_char 123 c); [discriminate|]. auto.
Qed.

Lemma stage_json_object py_repr pre label post :
  all_chars not_open pre = true -> In label default_intents ->
  stage_json py_repr default_intents
    (pre ++ String (ascii_of_N 123) (intent_entry label ++ String (ascii_of_N 125) post))
  = Some label.
Proof.
  intros Hpre Hin. unfold stage_json. rewrite search_object_skip by exact Hpre.
  simpl in Hin.
  repeat (destruct Hin as [<-|Hin]; [vm_compute; reflexivity|]).
  contradiction.
Qed.

(** X6. The object the prompt asks for wins wherever it stands.  With the
    default seven labels, a reply that holds [{`intent`:`label`}] for one
    of them, with no opening brace before it, is parsed to that label
    whatever text, code fences among it, stands before and after. *)
Theorem parser_json_object_wins (py_repr : json -> ustring)
    (self : IntentClassifierLLM) (pre label post : string) :
  valid_intents self = default_intents -> In label default_intents ->
  all_chars not_open pre = true ->
  _parse_llm_json_or_label py_repr self (pre ++ intent_object label ++ post) = label.
Proof.
  intros Hlabels Hin Hpre. rewrite IntentProps.parse_unfold, Hlabels.
  rewrite intent_object_braces, strip_around by reflexivity.
  rewrite stage_json_object; [reflexivity| |exact Hin].
  now apply IntentProps.all_chars_lstrip.
Qed.

(** A reply in a code fence with a remark after it. *)
Lemma parser_json_object_wins_witness :
  _parse_llm_json_or_label IntentProps.literal_repr default_classifier
    ("```json " ++ intent_object "top_stat_in_game" ++ " ``` (not get_stats)")
  = "top_stat_in_game".
Proof.
  apply (parser_json_object_wins IntentProps.literal_repr default_classifier
           "```json " "top_stat_in_game" " ``` (not get_stats)").
  - reflexivity.
  - simpl. tauto.
  - reflexivity.
Defined.

(** ** Clearing the cache *)

(** X11. [clear_cache] starts over.  For a classifier with caching enabled
    and a cache whose [max_size] is at least one, after [clear_cache] the statistics
    report no entry, no hit, no miss and a hit rate of zero, whatever the
    rounding of a quotient is; and the next call for a query that is not blank asks the
    service again, whatever the cache held before, and is the first
    miss. *)
Theorem clear_cache_resets (py_repr : json -> ustring)
    (round_double : Q -> option Q) (client : service)
    (self : IntentClassifierLLM) (c : LRU.LRUCache string)
    (query : string) (model : option string) :
  cache self = Some c -> enable_caching self = true -> (1 <= LRU.max_size c)%Z ->
  is_empty (strip query) = false ->
  get_cache_stats round_double (clear_cache self)
  = Ok (Data.dict [("enabled", Data.VBool true);
                   ("size", Data.VInt 0);
                   ("max_size", Data.VInt (max_cache_size self));
                   ("hits", Data.VInt 0);
                   ("misses", Data.VInt 0);
                   ("hit_rate", Data.VFloat (Data.Finite 0))])
  /\ exists self',
       classify py_repr client (clear_cache self) query model
       = Ok (_classify_with_llm py_repr client self (strip query) model, self')
       /\ cache_hits self' = 0%Z /\ cache_misses self' = 1%Z
       /\ option_map LRU.cache (cache self')
          = Some [(lower (strip query),
                   _classify_with_llm py_repr client self (strip query) model)].
Proof.
  intros Hc He Hm Hq. unfold clear_cache. rewrite Hc. split.
  - unfold get_cache_stats. simpl. rewrite He. reflexivity.
  - unfold classify. rewrite Hq. simpl. unfold LRU.put. simpl.
    destruct (Z.geb_spec 0 (LRU.max_size c)) as [Hge|_]; [lia|].
    simpl. eexists. split; [reflexivity|]. simpl. auto.
Qed.

(** The default classifier after two queries. *)
Lemma clear_cache_resets_witness :
  get_cache_stats DataProps.exact_double
    (clear_cache
       (with_cache default_classifier
          (Some (LRU.mk_cache 256 [("who is player 7?", "get_player_info");
                                   ("final score?", "get_result")])) 3 2))
  = Ok (Data.dict [("enabled", Data.VBool true);
                   ("size", Data.VInt 0);
                   ("max_size", Data.VInt 256);
                   ("hits", Data.VInt 0);
                   ("misses", Data.VInt 0);
                   ("hit_rate", Data.VFloat (Data.Finite 0))])
  /\ exists self',
       classify IntentProps.literal_repr (RoutingProps.answers "get_grades")
         (clear_cache
            (with_cache default_classifier
               (Some (LRU.mk_cache 256 [("who is player 7?", "get_player_info");
                                        ("final score?", "get_result")])) 3 2))
         "Who is player 7?" None
       = Ok ("get_grades", self')
       /\ cache_hits self' = 0%Z /\ cache_misses self' = 1%Z
       /\ option_map LRU.cache (cache self')
          = Some [("who is player 7?", "get_grades")].
Proof.
  apply (clear_cache_resets IntentProps.literal_repr DataProps.exact_double
           (RoutingProps.answers "get_grades")
           (with_cache default_classifier
              (Some (LRU.mk_cache 256 [("who is player 7?", "get_player_info");
                                       ("final score?", "get_result")])) 3 2)
           (LRU.mk_cache 256 [("who is player 7?", "get_player_info");
                              ("final score?", "get_result")])
           "Who is player 7?" None).
  - reflexivity.
  - reflexivity.
  - simpl. lia.
  - reflexivity.
Defined.

Lemma classify_zero_capacity_raises_witness :
  classify IntentProps.literal_repr (RoutingProps.answers "compare")
    (init default_intents "phi3:3.8b" true 0 true) "who is player 7?" None
  = Raise (mk_exn KeyError "'dictionary is empty'").
Proof.
  apply (classify_zero_capacity_raises IntentProps.literal_repr
           (RoutingProps.answers "compare") default_intents "phi3:3.8b" 0 true
           "who is player 7?" None).
  - lia.
  - reflexivity.
Defined.

End IntentFacts.

(* ================================================================== *)
(** * The client and its callers: messages, failures *)
(* ================================================================== *)

Module ClientFacts.
Import Py PyNotations.

(** ** The messages of the routing classifier *)

Lemma for_each_raises {A S : Type} (f : S -> A -> result S) (x : A) (xs : list A) :
  In x xs -> (forall acc, is_ok (f acc x) = false) ->
  forall acc, is_ok (for_each f xs acc) = false.
Proof.
  intros Hin Hx. induction xs as [|y rest IH]; [contradiction|].
  intros acc. simpl. destruct Hin as [->|Hin].
  - specialize (Hx acc). destruct (f acc x); [discriminate|reflexivity].
  - destruct (f acc y); simpl; auto.
Qed.

Lemma examples_appended exs turns : forall msgs,
  Forall2 (fun ex turn => Routing.lookup "user" ex = Ok (fst turn)
                          /\ Routing.lookup "route" ex = Ok (snd turn)) exs turns ->
  for_each
    (fun msgs example =>
       user <- Routing.lookup "user" example ;;
       route <- Routing.lookup "route" example ;;
       Ok (msgs ++ [("user", user); ("assistant", route)]))
    exs msgs
  = Ok (msgs ++ flat_map (fun turn => [("user", fst turn); ("assistant", snd turn)]) turns).
Proof.
  intros msgs H. revert msgs.
  induction H as [|ex turn exs turns [Hu Hr] _ IH]; intros msgs; simpl.
  - now rewrite app_nil_r.
  - rewrite Hu. cbn [bind]. rewrite Hr. cbn [bind]. rewrite IH.
    now rewrite <- app_assoc.
Qed.

(** X14. The messages sent for routing.  When every example of the prompt
    definition has a user entry and a route entry, the messages are the
    system prompt (empty when the definition has none), then for each
    example in order its user text as a user turn and its route as an
    assistant turn, then the query as the last user turn. *)
Theorem build_messages_frames_examples (sys : option string)
    (exs : list (list (string * string))) (turns : list (string * string))
    (query : string) :
  Forall2 (fun ex turn => Routing.lookup "user" ex = Ok (fst turn)
                          /\ Routing.lookup "route" ex = Ok (snd turn)) exs turns ->
  Routing.build_messages (Routing.mk_prompt sys (Some exs)) query
  = Ok (("system", Routing.option_default sys "")
          :: flat_map (fun turn => [("user", fst turn); ("assistant", snd turn)]) turns
          ++ [("user", query)]).
Proof.
  intros H. unfold Routing.build_messages. simpl.
  rewrite (examples_appended exs turns _ H). reflexivity.
Qed.

Lemma build_messages_frames_examples_witness :
  Routing.build_messages
    (Routing.mk_prompt None
       (Some [[("route", "simple"); ("user", "How many tackles?")];
              [("user", "Has team A improved?"); ("note", "trend"); ("route", "complex")]]))
    "who won?"
  = Ok [("system", ""); ("user", "How many tackles?"); ("assistant", "simple");
        ("user", "Has team A improved?"); ("assistant", "complex");
        ("user", "who won?")].
Proof.
  apply (build_messages_frames_examples None
           [[("route", "simple"); ("user", "How many tackles?")];
            [("user", "Has team A improved?"); ("note", "trend"); ("route", "complex")]]
           [("How many tackles?", "simple"); ("Has team A improved?", "complex")]
           "who won?").
  repeat constructor.
Defined.

(** X15. An example without a user entry or without a route entry makes
    every query route to [simple]: building the messages raises, and the
    route is [simple] whatever the service would answer. *)
Theorem example_without_route_is_simple (sys : option string)
    (exs : list (list (string * string))) (ex : list (string * string))
    (client : Intent.service) (query : string) (model : option string) :
  In ex exs ->
  is_ok (Routing.lookup "user" ex) && is_ok (Routing.lookup "route" ex) = false ->
  is_ok (Routing.build_messages (Routing.mk_prompt sys (Some exs)) query) = false
  /\ Routing.classify_query (Ok (Routing.mk_prompt sys (Some exs))) client query model
     = "simple".
Proof.
  intros Hin Hex.
  assert (Hb : is_ok (Routing.build_messages (Routing.mk_prompt sys (Some exs)) query)
               = false).
  { unfold Routing.build_messages. simpl.
    match goal with
    | |- is_ok (bind (for_each ?f ?xs ?acc) _) = false =>
        assert (Hr : is_ok (for_each f xs acc) = false)
    end.
    { apply (for_each_raises _ ex); [exact Hin|]. intros acc.
      destruct (Routing.lookup "user" ex); simpl in *; [|reflexivity].
      destruct (Routing.lookup "route" ex); simpl in *; [discriminate|reflexivity]. }
    destruct (for_each _ _ _); [discriminate|reflexivity]. }
  split; [exact Hb|].
  unfold Routing.classify_query, Routing.classify_body. cbn [bind].
  destruct (Routing.build_messages _ _); [discriminate|reflexivity].
Qed.

Lemma example_without_route_is_simple_witness :
  is_ok (Routing.build_messages
           (Routing.mk_prompt (Some "Answer simple or complex.")
              (Some [[("user", "How many tackles?"); ("route", "simple")];
                     [("user", "Has team A improved?")]]))
           "Has team B improved?") = false
  /\ Routing.classify_query
       (Ok (Routing.mk_prompt (Some "Answer simple or complex.")
              (Some [[("user", "How many tackles?"); ("route", "simple")];
                     [("user", "Has team A improved?")]])))
       (RoutingProps.answers "complex") "Has team B improved?" None
     = "simple".
Proof.
  apply (example_without_route_is_simple (Some "Answer simple or complex.")
           [[("user", "How many tackles?"); ("route", "simple")];
            [("user", "Has team A improved?")]]
           [("user", "Has team A improved?")]
           (RoutingProps.answers "complex") "Has team B improved?" None).
  - simpl. tauto.
  - reflexivity.
Defined.

(** ** When the call of the client fails *)

(** The ways the [try] block of [chat] ends early: the transport raises,
    the status is an error, or the body does not have the reply where it
    is looked for. *)
Definition fails (post : LLM.transport) (self : LLM.LLMClient) (req : Intent.request)
  : Prop :=
  (exists e, post (LLM.request_of self req) = Raise e)
  \/ (exists response,
        post (LLM.request_of self req) = Ok response
        /\ (LLM.is_error_status (LLM.status_code response) = true
            \/ exists e, LLM.reply_text response = Raise e)).

Lemma fails_sentinel post self req :
  fails post self req -> LLM.chat post self req = LLM.sentinel.
Proof.
  unfold LLM.chat, LLM.chat_attempt.
  intros [[e ->]|(response & -> & [Hs|[e He]])]; simpl.
  - reflexivity.
  - now rewrite Hs.
  - destruct (LLM.is_error_status _); [reflexivity|]. now rewrite He.
Qed.

(** A transport that cannot connect, and one that answers with a status
    and a body. *)
Definition no_route : LLM.transport :=
  fun _ => Raise (mk_exn ConnectionError "connection refused").

Definition answering (status : Z) (document : Data.value) : LLM.transport :=
  fun _ => Ok (LLM.mk_http_response status (Ok document)).

Definition a_client : LLM.LLMClient :=
  LLM.mk_client "key" "phi3:3.8b" "http://localhost" "RugbyBot-Router"
    "https://gpt.matchsense.dev/api/chat/completions".

(** X12. A failed call is routed to [simple].  When the call of the client
    fails for every request (the transport raises, or the status is from
    400 to 599, or the body has no reply text where [chat] looks for it),
    [classify_query] with that client returns [simple] for every query and
    every prompt definition: the sentinel [chat] returns is recognized. *)
Theorem chat_failure_routes_simple (load_prompt : result Routing.prompt_data)
    (post : LLM.transport) (self : LLM.LLMClient) (query : string)
    (model : option string) :
  (forall req, fails post self req) ->
  Routing.classify_query load_prompt (LLM.service_of post self) query model = "simple".
Proof.
  intros Hf. unfold Routing.classify_query, Routing.classify_body.
  destruct load_prompt as [p|]; [|reflexivity]. cbn [bind].
  destruct (Routing.build_messages p query) as [msgs|]; [|reflexivity]. cbn [bind].
  unfold LLM.service_of. rewrite fails_sentinel by apply Hf. reflexivity.
Qed.

(** The service answers 503 with an error document. *)
Lemma chat_failure_routes_simple_witness :
  Routing.classify_query RoutingProps.sample_prompt
    (LLM.service_of
       (answering 503 (Data.dict [("detail", Data.VStr "complex: model is loading")]))
       a_client)
    "Has team A improved throughout the season?" None
  = "simple".
Proof.
  apply (chat_failure_routes_simple RoutingProps.sample_prompt
           (answering 503 (Data.dict [("detail", Data.VStr "complex: model is loading")]))
           a_client "Has team A improved throughout the season?" None).
  intros req. right. eexists. split; [reflexivity|]. left. reflexivity.
Defined.

(** X13. A failed call is cached as [get_stats].  With the default seven
    labels and a cache that holds distinct keys and no more than
    [max_size] entries, [max_size] being at least one, when a query misses the cache and the call of the client fails,
    [classify] returns [get_stats], counts a miss, and stores [get_stats]
    under the normalized query as the most recently used entry: the
    sentinel is parsed like any reply. *)
Theorem chat_failure_is_cached_as_default (py_repr : Json.json -> Json.ustring)
    (post : LLM.transport) (client : LLM.LLMClient)
    (self : Intent.IntentClassifierLLM) (c : LRU.LRUCache string)
    (query : string) (model : option string) :
  Intent.valid_intents self = Intent.default_intents ->
  Intent.cache self = Some c -> LRUProps.wf c -> (1 <= LRU.max_size c)%Z ->
  is_empty (strip query) = false ->
  Intent.misses self query ->
  fails post client (Intent.request_for self (strip query) model) ->
  exists c' older,
    Intent.classify py_repr (LLM.service_of post client) self query model
    = Ok ("get_stats",
          Intent.with_cache self (Some c') (Intent.cache_hits self)
            (Intent.cache_misses self + 1))
    /\ LRU.cache c' = older ++ [(lower (strip query), "get_stats")].
Proof.
  intros Hlabels Hc Hwf Hm Hq Hmiss Hf.
  assert (Hllm : Intent._classify_with_llm py_repr (LLM.service_of post client) self
                   (strip query) model = "get_stats").
  { unfold Intent._classify_with_llm, LLM.service_of.
    rewrite (fails_sentinel _ _ _ Hf).
    rewrite IntentProps.parse_unfold, Hlabels. reflexivity. }
  destruct (LRUProps.get_wf (lower (strip query)) c Hwf)
    as (answer & c1 & Hget & Hmax1 & Hwf1 & _).
  assert (Ha : answer = None \/ answer = Some "").
  { unfold Intent.misses in Hmiss. rewrite Hc in Hmiss.
    unfold LRU.get_value in Hmiss. rewrite Hget in Hmiss. simpl in Hmiss.
    destruct Hmiss as [E|E]; injection E as ->; auto. }
  destruct (LRUProps.put_last (lower (strip query)) "get_stats" c1 Hwf1)
    as (c2 & older & Hput & Hlast & _); [lia|].
  exists c2, older. split; [|exact Hlast].
  rewrite (IntentFacts.classify_miss py_repr _ self c query model answer c1 Hc Hq Hget Ha).
  rewrite Hllm, Hput. reflexivity.
Qed.

(** The first query to the default classifier while the service cannot be
    reached. *)
Lemma chat_failure_is_cached_as_default_witness :
  exists c' older,
    Intent.classify IntentProps.literal_repr (LLM.service_of no_route a_client)
      Intent.default_classifier "Compare 7 and 8 on tackles" None
    = Ok ("get_stats", Intent.with_cache Intent.default_classifier (Some c') 0 1)
    /\ LRU.cache c' = older ++ [("compare 7 and 8 on tackles", "get_stats")].
Proof.
  apply (chat_failure_is_cached_as_default IntentProps.literal_repr no_route a_client
           Intent.default_classifier (LRU.new 256) "Compare 7 and 8 on tackles" None).
  - reflexivity.
  - reflexivity.
  - apply LRUProps.wf_new. lia.
  - simpl. lia.
  - reflexivity.
  - left. reflexivity.
  - left. eexists. reflexivity.
Defined.

End ClientFacts.

(* ================================================================== *)
(** * More on the data handler: loading, finding, counting *)
(* ================================================================== *)

Module DataFacts.
Import Py PyNotations Data Values DataLoad LoadProps.

(** ** Rosters *)

(** What the loop over a roster goes through. *)
Definition roster_of (team : value) : result (list value) :=
  roster <- get team "roster" (VList []) ;;
  iterate roster.

Lemma player_info_side id team side entry p :
  player_info id team side entry = Ok p ->
  team_type p = VStr side /\ game_id p = id
  /\ get team "id" VNone = Ok (team_id p)
  /\ get team "name" VNone = Ok (team_name p)
  /\ get entry "jersey_number" VNone = Ok (jersey_number p)
  /\ player_field entry "id" = Ok (player_id p).
Proof.
  unfold player_info. intros H.
  repeat match type of H with
  | bind ?m _ = _ => destruct m eqn:?; [|discriminate]; cbn [bind] in H
  end.
  injection H as <-. simpl. repeat split; assumption.
Qed.

Lemma roster_players_spec id team side known known' :
  roster_players id team side known = Ok known' ->
  exists entries added,
    roster_of team = Ok entries
    /\ Forall2 (fun e p => player_info id team side e = Ok p) entries added
    /\ known' = known ++ added.
Proof.
  unfold roster_players, roster_of. intros H.
  destruct (get team "roster" (VList [])) as [roster|]; [|discriminate]. cbn [bind] in *.
  destruct (iterate roster) as [entries|]; [|discriminate]. cbn [bind] in H.
  destruct (for_each_collect _ _ _ _ H) as (added & Hall & ->).
  exists entries, added. auto.
Qed.

Lemma extract_players_spec known game_data known' :
  _extract_players_from_game known game_data = Ok known' ->
  exists id home_team away_team home_entries away_entries home away,
    get game_data "id" VNone = Ok id
    /\ get game_data "home_team" (VDict []) = Ok home_team
    /\ get game_data "away_team" (VDict []) = Ok away_team
    /\ roster_of home_team = Ok home_entries
    /\ roster_of away_team = Ok away_entries
    /\ Forall2 (fun e p => player_info id home_team "home" e = Ok p) home_entries home
    /\ Forall2 (fun e p => player_info id away_team "away" e = Ok p) away_entries away
    /\ known' = known ++ home ++ away.
Proof.
  unfold _extract_players_from_game. intros H.
  destruct (get game_data "id" VNone) as [id|]; [|discriminate]. cbn [bind] in H.
  destruct (get game_data "home_team" (VDict [])) as [home_team|]; [|discriminate].
  cbn [bind] in H.
  destruct (roster_players id home_team "home" known) as [known1|] eqn:H1; [|discriminate].
  cbn [bind] in H.
  destruct (get game_data "away_team" (VDict [])) as [away_team|]; [|discriminate].
  cbn [bind] in H.
  destruct (roster_players_spec _ _ _ _ _ H1) as (he & home & Hhe & Hhome & ->).
  destruct (roster_players_spec _ _ _ _ _ H) as (ae & away & Hae & Haway & ->).
  exists id, home_team, away_team, he, ae, home, away.
  rewrite <- app_assoc. auto 10.
Qed.

Lemma Forall2_right {A B : Type} (R : A -> B -> Prop) (P : B -> Prop) xs ys :
  (forall x y, R x y -> P y) -> Forall2 R xs ys -> Forall P ys.
Proof. intros H. induction 1; constructor; eauto. Qed.

(** X16. The players of a game.  When [_extract_players_from_game] goes
    through, the players it appends to those already known are one for each
    entry of the home roster, in roster order and marked [home], then one
    for each entry of the away roster, marked [away]; each carries the
    identifier of the game and the identifier and the name of its team. *)
Theorem extract_players_home_then_away (known : list player) (game_data : value)
    (known' : list player) :
  _extract_players_from_game known game_data = Ok known' ->
  exists id home_team away_team home_entries away_entries home away,
    get game_data "id" VNone = Ok id
    /\ get game_data "home_team" (VDict []) = Ok home_team
    /\ get game_data "away_team" (VDict []) = Ok away_team
    /\ roster_of home_team = Ok home_entries
    /\ roster_of away_team = Ok away_entries
    /\ known' = known ++ home ++ away
    /\ List.length home = List.length home_entries
    /\ List.length away = List.length away_entries
    /\ Forall (fun p => team_type p = VStr "home" /\ game_id p = id
                        /\ get home_team "id" VNone = Ok (team_id p)
                        /\ get home_team "name" VNone = Ok (team_name p)) home
    /\ Forall (fun p => team_type p = VStr "away" /\ game_id p = id
                        /\ get away_team "id" VNone = Ok (team_id p)
                        /\ get away_team "name" VNone = Ok (team_name p)) away
    /\ Forall2 (fun e p => get e "jersey_number" VNone = Ok (jersey_number p)
                           /\ player_field e "id" = Ok (player_id p))
         (home_entries ++ away_entries) (home ++ away).
Proof.
  intros H.
  destruct (extract_players_spec _ _ _ H)
    as (id & ht & at_ & he & ae & home & away & Hid & Hht & Hat & Hhe & Hae & Hh & Ha & ->).
  exists id, ht, at_, he, ae, home, away.
  split; [exact Hid|]. split; [exact Hht|]. split; [exact Hat|].
  split; [exact Hhe|]. split; [exact Hae|]. split; [reflexivity|].
  split; [symmetry; eapply Forall2_length; exact Hh|].
  split; [symmetry; eapply Forall2_length; exact Ha|].
  split; [|split].
  - eapply Forall2_right; [|exact Hh]. intros e p Hp.
    destruct (player_info_side _ _ _ _ _ Hp) as (? & ? & ? & ? & _). auto.
  - eapply Forall2_right; [|exact Ha]. intros e p Hp.
    destruct (player_info_side _ _ _ _ _ Hp) as (? & ? & ? & ? & _). auto.
  - apply Forall2_app.
    + eapply Forall2_impl; [|exact Hh]. intros e p Hp.
      destruct (player_info_side _ _ _ _ _ Hp) as (_ & _ & _ & _ & ? & ?). auto.
    + eapply Forall2_impl; [|exact Ha]. intros e p Hp.
      destruct (player_info_side _ _ _ _ _ Hp) as (_ & _ & _ & _ & ? & ?). auto.
Qed.

(** ** Loading *)

(** X17. A corpus that loaded answers the game query.  When the handler
    was built from the data files, a game-info query on it goes through,
    whatever the entities, and returns one record for each game file that
    exists, a path that does not exist being passed over; it succeeds
    exactly when a game file exists, and passes no error. *)
Theorem loaded_games_are_summarized (game_files event_files : list file)
    (self : handler) (entities : entity_set) :
  init game_files event_files = Ok self ->
  exists r,
    _handle_get_game_info self entities = Ok r
    /\ List.length (data r) = List.length (filter exists_ game_files)
    /\ success r = nonempty (filter exists_ game_files)
    /\ error r = None.
Proof.
  intros H. destruct (init_loaded _ _ _ H) as (Hfiles & Hsum & _).
  destruct (game_info_records self entities Hsum) as (records & -> & Hall).
  eexists. split; [reflexivity|]. simpl.
  assert (Hlen : List.length (filter exists_ game_files) = List.length (games self)).
  { rewrite <- (length_map content), Hfiles. apply length_map. }
  split; [|split; [|reflexivity]].
  - rewrite Hlen. symmetry. eapply Forall2_length. exact Hall.
  - destruct (filter exists_ game_files), (games self); simpl in *;
      try discriminate; reflexivity.
Qed.

(** X18. Loading is all or nothing for the files that exist.  When the
    handler was built, every game file and every event file that exists was
    opened and decoded, the games are the documents of these game files in
    order, and the events are what the documents of these event files hold,
    file after file; only a path that does not exist is passed over. *)
Theorem load_keeps_every_file (game_files event_files : list file)
    (self : handler) :
  init game_files event_files = Ok self ->
  map content (filter exists_ game_files) = map Ok (games self)
  /\ exists parts,
       Forall2 (fun f items => bind (content f) iterate = Ok items)
         (filter exists_ event_files) parts
       /\ events self = List.concat parts.
Proof.
  intros H. destruct (init_loaded _ _ _ H) as (Hfiles & _ & Hparts).
  split; [exact Hfiles|exact Hparts].
Qed.

Lemma extract_players_home_then_away_witness :
  exists home away,
    sample_players = home ++ away
    /\ Forall (fun p => team_type p = VStr "home" /\ game_id p = VInt 1) home
    /\ Forall (fun p => team_type p = VStr "away" /\ game_id p = VInt 1) away
    /\ List.length home = 1 /\ List.length away = 1.
Proof.
  destruct (extract_players_home_then_away [] sample_game sample_players eq_refl)
    as (id & ht & at_ & he & ae & home & away & Hid & Hht & Hat & Hhe & Hae & Hk
        & Hlh & Hla & Hh & Ha & _).
  injection Hid as <-. injection Hht as <-. injection Hat as <-.
  injection Hhe as <-. injection Hae as <-.
  exists home, away. split; [exact Hk|].
  split; [eapply Forall_impl; [|exact Hh]; simpl; tauto|].
  split; [eapply Forall_impl; [|exact Ha]; simpl; tauto|].
  split; assumption.
Defined.

(** Two paths were found for the games, and one of them does not exist. *)
Lemma loaded_games_are_summarized_witness :
  exists r,
    _handle_get_game_info sample_corpus [("teams", ["Pau"])] = Ok r
    /\ List.length (data r) = 1
    /\ success r = true
    /\ error r = None.
Proof.
  apply (loaded_games_are_summarized sample_game_files sample_event_files
           sample_corpus [("teams", ["Pau"])]).
  reflexivity.
Defined.

Lemma load_keeps_every_file_witness :
  [Ok sample_game] = map Ok (games sample_corpus)
  /\ exists parts,
       Forall2 (fun f items => bind (content f) iterate = Ok items)
         [mk_file true (Ok sample_events)] parts
       /\ events sample_corpus = List.concat parts.
Proof.
  apply (load_keeps_every_file sample_game_files sample_event_files sample_corpus).
  reflexivity.
Defined.

(** ** Finding a player *)

Lemma filter_exists {A : Type} (test : A -> result bool) (xs kept : list A) :
  filter_r test xs = Ok kept -> exists_r test xs = Ok (nonempty kept).
Proof.
  revert kept. induction xs as [|x xs IH]; intros kept H; simpl in *.
  - now injection H as <-.
  - destruct (test x) as [b|]; [|discriminate]. cbn [bind] in *.
    destruct (filter_r test xs) as [rest|]; [|discriminate]. cbn [bind] in H.
    injection H as <-. destruct b; [reflexivity|]. now apply IH.
Qed.

Lemma filter_first {A : Type} (test : A -> result bool) (xs kept : list A) :
  filter_r test xs = Ok kept -> first_r test xs = Ok (hd_error kept).
Proof.
  revert kept. induction xs as [|x xs IH]; intros kept H; simpl in *.
  - now injection H as <-.
  - destruct (test x) as [b|]; [|discriminate]. cbn [bind] in *.
    destruct (filter_r test xs) as [rest|]; [|discriminate]. cbn [bind] in H.
    injection H as <-. destruct b; [reflexivity|]. now apply IH.
Qed.

Lemma filter_r_shorter {A : Type} (test : A -> result bool) (xs kept : list A) :
  filter_r test xs = Ok kept -> List.length kept <= List.length xs.
Proof.
  revert kept. induction xs as [|x xs IH]; intros kept H; simpl in *.
  - injection H as <-. simpl. lia.
  - destruct (test x) as [b|]; [|discriminate]. cbn [bind] in *.
    destruct (filter_r test xs) as [rest|]; [|discriminate]. cbn [bind] in H.
    injection H as <-. specialize (IH _ eq_refl). destruct b; simpl; lia.
Qed.

(** The test of the loop of [_find_player] over the players, for a jersey
    number. *)
Definition jersey_test (jersey_num : Z) (teams : list string) (p : player)
  : result bool :=
  if py_eq (jersey_number p) (VInt jersey_num) then
    if nonempty teams
    then exists_r (fun name => on_team name p) teams
    else Ok true
  else Ok false.

Lemma jersey_hits_test jersey_num teams p hits :
  jersey_hits jersey_num teams p = Ok hits ->
  jersey_test jersey_num teams p = Ok (nonempty hits)
  /\ hd_error hits = (if nonempty hits then Some p else None).
Proof.
  unfold jersey_hits, jersey_test.
  destruct (py_eq _ _); [|intros [= <-]; auto].
  destruct (nonempty teams); [|intros [= <-]; auto].
  destruct (filter_r _ teams) as [kept|] eqn:E; [|discriminate]. cbn [bind].
  intros [= <-]. rewrite (filter_exists _ _ _ E).
  destruct kept; simpl; auto.
Qed.

Lemma jersey_loop jersey_num teams ps : forall acc out,
  for_each (fun found p => hits <- jersey_hits jersey_num teams p ;; Ok (found ++ hits))
    ps acc = Ok out ->
  exists rest,
    out = acc ++ rest
    /\ first_r (jersey_test jersey_num teams) ps = Ok (hd_error rest).
Proof.
  induction ps as [|p ps IH]; intros acc out H; simpl in H.
  - injection H as <-. exists []. now rewrite app_nil_r.
  - destruct (jersey_hits jersey_num teams p) as [hits|] eqn:E; [|discriminate].
    cbn [bind] in H. destruct (IH _ _ H) as (rest & -> & Hfirst).
    destruct (jersey_hits_test _ _ _ _ E) as (Htest & Hhd).
    exists (hits ++ rest). split; [now rewrite app_assoc|].
    simpl. rewrite Htest. cbn [bind].
    destruct hits as [|h hits]; simpl in *; [exact Hfirst|].
    now injection Hhd as ->.
Qed.

Section Queries.
Variable py_repr : value -> string.
Variable round_double : Q -> option Q.
Variable self : handler.

(** X19. The one player is the first of all of them.  Whenever the search
    of the player-info handler goes through for a reference, by jersey
    number or by name, [_find_player] goes through too and returns the
    first player that search found, or [None] when it found none. *)
Theorem find_player_is_first_found (player_ref : string) (teams : list string)
    (found : list player) :
  found_players py_repr self player_ref teams = Ok found ->
  _find_player py_repr self player_ref teams = Ok (hd_error found).
Proof.
  unfold found_players, _find_player. destruct (isdigit player_ref).
  - destruct (int_of_str player_ref) as [jersey_num|]; [|discriminate]. cbn [bind].
    intros H. destruct (jersey_loop _ _ _ _ _ H) as (rest & -> & Hfirst).
    exact Hfirst.
  - apply filter_first.
Qed.

(** ** Team queries on a team without a name *)

Lemma filter_r_raises {A : Type} (test : A -> result bool) before x after e :
  Forall (fun y => is_ok (test y) = true) before -> test x = Raise e ->
  filter_r test (before ++ x :: after) = Raise e.
Proof.
  intros Hb Hx. induction Hb as [|y before Hy _ IH]; simpl.
  - now rewrite Hx.
  - destruct (test y); [|discriminate]. cbn [bind]. now rewrite IH.
Qed.

Lemma team_players_raises before p after name :
  players self = before ++ p :: after ->
  Forall (fun x => exists s, team_name x = VStr s) before ->
  (forall s, team_name p <> VStr s) ->
  team_players self name = Raise (attribute_error (team_name p) "lower").
Proof.
  intros Hp Hb Hn. unfold team_players. rewrite Hp. apply filter_r_raises.
  - eapply Forall_impl; [|exact Hb]. intros x [s Hs]. unfold on_team. now rewrite Hs.
  - unfold on_team. destruct (team_name p); try reflexivity.
    exfalso. eapply Hn. reflexivity.
Qed.

(** X23. A team without a name breaks the team queries.  When the first
    player whose team name is not a string stands in the list of players,
    a team-info query naming any team, and a statistics query naming a team
    and no player, return a failed result with no data whose error is the
    [AttributeError] of lowercasing that team name, whatever team was asked
    for. *)
Theorem unnamed_team_fails_team_queries (before : list player) (p : player)
    (after : list player) (name : string) (teams : list string)
    (entities : entity_set) :
  players self = before ++ p :: after ->
  Forall (fun x => exists s, team_name x = VStr s) before ->
  (forall s, team_name p <> VStr s) ->
  entities_get "teams" entities = name :: teams ->
  get_data_for_query py_repr round_double self entities "get_team_info"
  = mk_result "get_team_info" [] false
      (Some (exn_str (attribute_error (team_name p) "lower"))) None
  /\ (entities_get "players" entities = [] ->
      get_data_for_query py_repr round_double self entities "get_stats"
      = mk_result "get_stats" [] false
          (Some (exn_str (attribute_error (team_name p) "lower"))) None).
Proof.
  intros Hp Hb Hn Ht.
  pose proof (team_players_raises before p after name Hp Hb Hn) as Hr.
  split.
  - unfold get_data_for_query.
    cbv [dispatch String.eqb Ascii.eqb Bool.eqb orb].
    unfold _handle_get_team_info. rewrite Ht. simpl. rewrite Hr. reflexivity.
  - intros Hnone. unfold get_data_for_query.
    cbv [dispatch String.eqb Ascii.eqb Bool.eqb orb].
    unfold _handle_get_stats. rewrite Ht, Hnone. simpl. rewrite Hr. reflexivity.
Qed.

(** ** Comparisons *)

Lemma compare_loop (teams : list string) (refs : list string) : forall acc out,
  for_each
    (fun comparison_data player_ref =>
       player_info <- _find_player py_repr self player_ref teams ;;
       match player_info with
       | Some p =>
           stats <- _get_player_event_stats round_double self (player_id p) [] ;;
           Ok (comparison_data ++
               [dict [("player", player_dict p); ("statistics", stats)]])
       | None => Ok comparison_data
       end)
    refs acc = Ok out ->
  List.length out <= List.length acc + List.length refs.
Proof.
  induction refs as [|ref refs IH]; intros acc out H; simpl in H.
  - injection H as <-. lia.
  - destruct (_find_player py_repr self ref teams) as [[p|]|]; try discriminate;
      cbn [bind] in H.
    + destruct (_get_player_event_stats _ _ _ _) as [stats|]; [|discriminate].
      cbn [bind] in H. apply IH in H. rewrite length_app in H. simpl in *. lia.
    + apply IH in H. simpl. lia.
Qed.

(** X22. A comparison needs two players.  With fewer than two player
    references a compare query returns the failed result for insufficient
    data, whatever the corpus; and whenever the compare handler
    succeeds, its data is a single comparison record with at least two
    entries and no more entries than there were references. *)
Theorem compare_needs_two_players (entities : entity_set) :
  (List.length (entities_get "players" entities) < 2 ->
   get_data_for_query py_repr round_double self entities "compare"
   = mk_result "compare" [] false (Some "Insufficient data for comparison") None)
  /\ (forall r,
        _handle_compare py_repr round_double self entities = Ok r ->
        success r = true ->
        exists items,
          data r = [dict [("type", VStr "player_comparison");
                          ("comparison_data", VList items)]]
          /\ 2 <= List.length items
          /\ List.length items <= List.length (entities_get "players" entities)).
Proof.
  split.
  - intros Hfew. unfold get_data_for_query.
    cbv [dispatch String.eqb Ascii.eqb Bool.eqb orb].
    unfold _handle_compare.
    destruct (Nat.leb_spec 2 (List.length (entities_get "players" entities)));
      [lia|reflexivity].
  - intros r H Hs. unfold _handle_compare in H.
    destruct (Nat.leb_spec 2 (List.length (entities_get "players" entities)));
      [|cbn [bind] in H; injection H as <-; discriminate].
    destruct (for_each _ (entities_get "players" entities) []) as [items|] eqn:L;
      [|discriminate].
    cbn [bind] in H. apply compare_loop in L. simpl in L.
    destruct (Nat.leb_spec 2 (List.length items));
      cbn [bind] in H; injection H as <-; [|discriminate].
    exists items. auto.
Qed.

End Queries.

Lemma find_player_is_first_found_witness :
  _find_player DataProps.value_repr DataProps.tie_handler "ar" []
  = Ok (Some (DataProps.roster_entry 1 11 "Ann" "Arnaud")).
Proof.
  apply (find_player_is_first_found DataProps.value_repr DataProps.tie_handler "ar" []
           [DataProps.roster_entry 1 11 "Ann" "Arnaud";
            DataProps.roster_entry 2 14 "Bob" "Bernard"]).
  reflexivity.
Defined.

(** ** Statistics by event type *)

Lemma upsert_cases {X : Type} key (init : X) f d d' :
  upsert key init f d = Ok d' ->
  (exists before k x x' after,
      d = before ++ (k, x) :: after /\ f x = Ok x'
      /\ d' = before ++ (k, x') :: after)
  \/ (exists x', f init = Ok x' /\ d' = d ++ [(key, x')]).
Proof.
  revert d'. induction d as [|[k x] rest IH]; intros d' H; simpl in H.
  - destruct (f init) as [x'|] eqn:E; [|discriminate]. injection H as <-.
    right. now exists x'.
  - destruct (is_or_eq key k).
    + destruct (f x) as [x'|] eqn:E; [|discriminate]. injection H as <-.
      left. now exists [], k, x, x', rest.
    + destruct (upsert key init f rest) as [rest'|]; [|discriminate].
      injection H as <-.
      destruct (IH _ eq_refl)
        as [(before & k0 & x0 & x' & after & -> & Hf & ->)|(x' & Hf & ->)].
      * left. now exists ((k, x) :: before), k0, x0, x', after.
      * right. now exists x'.
Qed.

(** The sum of a number kept in each entry. *)
Definition sum_of {X : Type} (f : X -> Z) (d : list (value * X)) : Z :=
  fold_right Z.add 0%Z (map (fun kv => f (snd kv)) d).

Lemma sum_of_app {X : Type} (f : X -> Z) d1 d2 :
  sum_of f (d1 ++ d2) = (sum_of f d1 + sum_of f d2)%Z.
Proof.
  unfold sum_of. induction d1 as [|e d1 IH]; simpl; [reflexivity|].
  rewrite IH. lia.
Qed.

Lemma sum_of_cons {X : Type} (f : X -> Z) e d :
  sum_of f (e :: d) = (f (snd e) + sum_of f d)%Z.
Proof. reflexivity. Qed.

Section Statistics.
Variable round_double : Q -> option Q.

(** An entry of [grade_stats] that agrees with its grades. *)
Definition consistent (g : grade_stat) : Prop :=
  gs_count g = Z.of_nat (List.length (gs_grades g))
  /\ gs_sum g = DataProps.total (gs_grades g)
  /\ exists lo hi avg,
       gs_min g = Some lo /\ gs_max g = Some hi
       /\ In lo (gs_grades g) /\ In hi (gs_grades g)
       /\ Forall (fun x => (lo <= x <= hi)%Z) (gs_grades g)
       /\ gs_avg g = VFloat (Finite avg)
       /\ truediv round_double (gs_sum g) (gs_count g) = Ok avg.

Lemma add_grade_consistent grade g g' :
  g = empty_grade_stat \/ consistent g ->
  add_grade round_double grade g = Ok g' ->
  consistent g' /\ gs_count g' = (gs_count g + 1)%Z.
Proof.
  intros Hg H. unfold add_grade in H.
  destruct (truediv round_double (gs_sum g + grade) (gs_count g + 1)) as [avg|] eqn:E;
    [|discriminate].
  cbn [bind] in H. injection H as <-. split; [|reflexivity].
  destruct Hg as [->|(Hc & Hs & lo & hi & avg0 & Hlo & Hhi & Ilo & Ihi & Hall & _)].
  - unfold consistent. simpl in *. split; [reflexivity|]. split; [lia|].
    exists grade, grade, avg. repeat split; auto.
    repeat constructor; lia.
  - unfold consistent. cbn [gs_grades gs_count gs_sum gs_avg gs_min gs_max].
    rewrite Hlo, Hhi, length_app, DataProps.total_app. simpl List.length.
    split; [lia|]. split; [lia|].
    rewrite Z.gtb_ltb.
    destruct (Z.ltb_spec grade lo) as [L|L]; destruct (Z.ltb_spec hi grade) as [G|G];
      eexists _, _, avg;
      (split; [reflexivity|]); (split; [reflexivity|]);
      rewrite !in_app_iff, Forall_app; simpl;
      (split; [tauto|]); (split; [tauto|]);
      (split; [split; [eapply Forall_impl; [|exact Hall]; simpl; intros; lia
                      |repeat constructor; lia]|]);
      (split; [reflexivity|exact E]).
Qed.

(** What the loop over the events keeps, after [n] events. *)
Definition tallied (n : nat)
    (acc : list (value * Z) * list (value * grade_stat)) : Prop :=
  sum_of (fun k => k) (fst acc) = Z.of_nat n
  /\ Forall (fun kv => (1 <= snd kv)%Z) (fst acc)
  /\ Forall (fun kv => consistent (snd kv)) (snd acc)
  /\ (sum_of gs_count (snd acc) <= Z.of_nat n)%Z.

Lemma count_event_tallied n acc event acc' :
  tallied n acc -> count_event round_double acc event = Ok acc' -> tallied (S n) acc'.
Proof.
  destruct acc as [counts gstats]. intros (Hsum & Hpos & Hcons & Hgs) H.
  unfold count_event in H. simpl in Hsum, Hpos, Hcons, Hgs.
  destruct (get event "type" (VStr "unknown")) as [ty|]; [|discriminate]. cbn [bind] in H.
  destruct (hash_check ty); [|discriminate]. cbn [bind] in H.
  destruct (upsert ty 0%Z _ counts) as [counts'|] eqn:Uc; [|discriminate].
  cbn [bind] in H.
  assert (Hc' : sum_of (fun k => k) counts' = Z.of_nat (S n)
                /\ Forall (fun kv => (1 <= snd kv)%Z) counts').
  { destruct (upsert_cases _ _ _ _ _ Uc)
      as [(before & k & x & x' & after & -> & Hf & ->)|(x' & Hf & ->)];
      injection Hf as <-.
    - rewrite sum_of_app, sum_of_cons in *. simpl snd in *.
      apply Forall_app in Hpos as [Hb Ha]. inversion Ha as [|? ? Hx Ha']; subst.
      simpl in Hx. split; [lia|].
      apply Forall_app. split; [exact Hb|]. constructor; [simpl; lia|exact Ha'].
    - rewrite sum_of_app. unfold sum_of at 2. simpl. split; [lia|].
      apply Forall_app. split; [exact Hpos|].
      constructor; [simpl; lia|constructor]. }
  destruct Hc' as [Hsum' Hpos'].
  destruct (_extract_grade event) as [[g|]|]; try discriminate; cbn [bind] in H.
  - destruct (upsert ty empty_grade_stat _ gstats) as [gstats'|] eqn:Ug; [|discriminate].
    cbn [bind] in H. injection H as <-. unfold tallied. simpl fst. simpl snd.
    split; [exact Hsum'|]. split; [exact Hpos'|].
    destruct (upsert_cases _ _ _ _ _ Ug)
      as [(before & k & x & x' & after & -> & Hf & ->)|(x' & Hf & ->)].
    + apply Forall_app in Hcons as [Hb Ha]. inversion Ha as [|? ? Hx Ha']; subst.
      destruct (add_grade_consistent g x x' (or_intror Hx) Hf) as [Hx' Hn].
      rewrite sum_of_app, sum_of_cons in *. simpl snd in *. split; [|lia].
      apply Forall_app. split; [exact Hb|]. now constructor.
    + destruct (add_grade_consistent g _ x' (or_introl eq_refl) Hf) as [Hx' Hn].
      rewrite sum_of_app. unfold sum_of at 2. simpl. simpl in Hn. split; [|lia].
      apply Forall_app. split; [exact Hcons|].
      constructor; [exact Hx'|constructor].
  - injection H as <-. unfold tallied. simpl fst. simpl snd.
    split; [exact Hsum'|]. split; [exact Hpos'|]. split; [exact Hcons|]. lia.
Qed.

Lemma for_each_tallied events : forall n acc acc',
  tallied n acc -> for_each (count_event round_double) events acc = Ok acc' ->
  tallied (n + List.length events) acc'.
Proof.
  induction events as [|event events IH]; intros n acc acc' Ht H; simpl in H.
  - injection H as <-. now rewrite Nat.add_0_r.
  - destruct (count_event round_double acc event) as [acc1|] eqn:E; [|discriminate].
    cbn [bind] in H. simpl List.length. rewrite <- Nat.add_succ_comm.
    eapply IH; [|exact H]. eapply count_event_tallied; eassumption.
Qed.

(** The record both statistics functions return. *)
Definition statistics_record (total_events : nat) (event_counts : list (value * Z))
    (grade_stats : list (value * grade_stat)) : value :=
  dict [("total_events", VInt (Z.of_nat total_events));
        ("event_counts", VDict (map (fun kv => (fst kv, VInt (snd kv))) event_counts));
        ("grade_stats",
         VDict (map (fun kv => (fst kv, grade_stat_dict (snd kv))) grade_stats))].

Lemma event_stats_tallied selected event_types stats :
  event_stats round_double selected event_types = Ok stats ->
  exists kept event_counts grade_stats,
    stats = statistics_record (List.length kept) event_counts grade_stats
    /\ (if nonempty event_types
        then filter_r (type_matches event_types) selected = Ok kept
        else kept = selected)
    /\ tallied (List.length kept) (event_counts, grade_stats).
Proof.
  unfold event_stats. intros H.
  destruct (if nonempty event_types then _ else _) as [kept|] eqn:K; [|discriminate].
  cbn [bind] in H.
  destruct (for_each _ kept ([], [])) as [[counts gstats]|] eqn:L; [|discriminate].
  cbn [bind] in H. injection H as <-.
  exists kept, counts, gstats. split; [reflexivity|]. split.
  - destruct (nonempty event_types); [exact K|]. now injection K as <-.
  - apply (for_each_tallied kept 0 ([], []) _); [|exact L].
    repeat split; simpl; try constructor. reflexivity.
Qed.

(** X20. The counts add up.  In the statistics of a player, and in the
    same way of a team, the counts by event type add up to [total_events],
    the number of events that passed the type filter; every event type
    listed has a count of at least one; and the graded events counted in
    [grade_stats] are no more than [total_events]. *)
Theorem event_counts_add_up (self : handler) (pid : value)
    (event_types : list string) (stats : value) :
  _get_player_event_stats round_double self pid event_types = Ok stats ->
  exists total_events event_counts grade_stats,
    stats = statistics_record total_events event_counts grade_stats
    /\ sum_of (fun k => k) event_counts = Z.of_nat total_events
    /\ Forall (fun kv => (1 <= snd kv)%Z) event_counts
    /\ (sum_of gs_count grade_stats <= Z.of_nat total_events)%Z
    /\ total_events <= List.length (events self).
Proof.
  unfold _get_player_event_stats. intros H.
  destruct (filter_r _ (events self)) as [mine|] eqn:F; [|discriminate].
  cbn [bind] in H.
  destruct (event_stats_tallied _ _ _ H)
    as (kept & counts & gstats & -> & Hk & Hsum & Hpos & _ & Hgs).
  exists (List.length kept), counts, gstats. repeat split; auto.
  assert (Hm : List.length mine <= List.length (events self))
    by (eapply filter_r_shorter; exact F).
  destruct (nonempty event_types); [|subst; exact Hm].
  apply filter_r_shorter in Hk. lia.
Qed.

(** X21. The grade statistics agree with the grades.  In the statistics
    of a team, and in the same way of a player, every entry of
    [grade_stats] has at least one grade, its count is the number of its
    grades, its sum is their sum, its minimum and its maximum are grades of
    the list that bound all of them, and its average is the quotient of
    the sum by the count as a float. *)
Theorem grade_stats_are_consistent (self : handler) (tid : value)
    (event_types : list string) (stats : value) :
  _get_team_event_stats round_double self tid event_types = Ok stats ->
  exists total_events event_counts grade_stats,
    stats = statistics_record total_events event_counts grade_stats
    /\ Forall (fun kv => consistent (snd kv)) grade_stats.
Proof.
  unfold _get_team_event_stats. intros H.
  destruct (filter_r _ (events self)) as [mine|]; [|discriminate].
  cbn [bind] in H.
  destruct (event_stats_tallied _ _ _ H)
    as (kept & counts & gstats & -> & _ & _ & _ & Hcons & _).
  exists (List.length kept), counts, gstats. auto.
Qed.

End Statistics.

Lemma event_counts_add_up_witness :
  exists total_events event_counts grade_stats,
    _get_player_event_stats DataProps.exact_double DataProps.tie_handler (VInt 1) ["TRY"]
    = Ok (statistics_record total_events event_counts grade_stats)
    /\ sum_of (fun k => k) event_counts = Z.of_nat total_events
    /\ total_events <= 6.
Proof.
  destruct (event_counts_add_up DataProps.exact_double DataProps.tie_handler (VInt 1)
              ["TRY"]
              (statistics_record 3 [(VStr "try", 3%Z)]
                 [(VStr "try",
                   mk_grade_stat [8%Z; 9%Z] 2 17 (VFloat (Finite (17 # 2)))
                     (Some 8%Z) (Some 9%Z))])
              eq_refl)
    as (n & counts & gstats & E & Hsum & _ & _ & Hn).
  exists n, counts, gstats. rewrite <- E. auto.
Defined.

Lemma grade_stats_are_consistent_witness :
  exists total_events event_counts grade_stats,
    _get_team_event_stats DataProps.exact_double DataProps.tie_handler (VInt 10) []
    = Ok (statistics_record total_events event_counts grade_stats)
    /\ Forall (fun kv => consistent DataProps.exact_double (snd kv)) grade_stats.
Proof.
  destruct (grade_stats_are_consistent DataProps.exact_double DataProps.tie_handler
              (VInt 10) []
              (statistics_record 6 [(VStr "try", 6%Z)]
                 [(VStr "try",
                   mk_grade_stat [5%Z; 8%Z; 9%Z] 3 22 (VFloat (Finite (22 # 3)))
                     (Some 5%Z) (Some 9%Z))])
              eq_refl)
    as (n & counts & gstats & E & Hcons).
  exists n, counts, gstats. rewrite <- E. auto.
Defined.

(** ** Grades, by what the metadata is *)

(** A text whose literal starts with more digits than [int] converts is no
    grade. *)
Lemma long_text_is_not_parsed s digits :
  digit_run (unsigned_part s) false 0 = Some digits ->
  (MAX_STR_DIGITS < digits)%N ->
  DataProps.parsed (VStr s) = None.
Proof.
  intros Hrun Hlong. unfold DataProps.parsed, int_of, int_of_str.
  destruct (unsigned_part s) as [|c r].
  - simpl in Hrun. injection Hrun as <-. discriminate Hlong.
  - destruct (code c =? 95)%N; [reflexivity|]. rewrite Hrun.
    apply N.ltb_lt in Hlong. now rewrite Hlong.
Qed.

(** X24. The grade of an event that is a dictionary.  Without a metadata
    entry the grade is the top-level grade when it parses as an integer;
    with a metadata dictionary it is the grade there when it parses, else
    the top-level grade when that parses, else [None], as long as no grade
    that is tried is an infinite float; and with a metadata entry that is
    not a dictionary, [null] among them, [_extract_grade] raises the
    [AttributeError] of calling [get] on it.  A grade parses when [int]
    accepts it: a text that starts, behind blanks and a sign, with more
    than 4300 digits does not. *)
Theorem extract_grade_by_metadata (pairs : list (value * value)) (top : value) :
  get (VDict pairs) "grade" VNone = Ok top ->
  (lookup_str "metadata" pairs = None ->
   DataProps.is_infinite top = false ->
   _extract_grade (VDict pairs) = Ok (DataProps.parsed top))
  /\ (forall meta nested,
        lookup_str "metadata" pairs = Some (VDict meta) ->
        get (VDict meta) "grade" VNone = Ok nested ->
        DataProps.is_infinite nested = false ->
        (DataProps.parsed nested = None -> DataProps.is_infinite top = false) ->
        _extract_grade (VDict pairs)
        = Ok (match DataProps.parsed nested with
              | Some z => Some z
              | None => DataProps.parsed top
              end))
  /\ (forall other,
        lookup_str "metadata" pairs = Some other ->
        (forall meta, other <> VDict meta) ->
        _extract_grade (VDict pairs) = Raise (attribute_error other "get"))
  /\ (forall s digits,
        digit_run (unsigned_part s) false 0 = Some digits -> (4300 < digits)%N ->
        DataProps.parsed (VStr s) = None).
Proof.
  intros Htop. split; [|split; [|split; [|exact long_text_is_not_parsed]]].
  - intros Hnone Hfin. unfold _extract_grade.
    assert (Hm : get (VDict pairs) "metadata" (VDict []) = Ok (VDict []))
      by (simpl; now rewrite Hnone).
    rewrite Hm. cbn [bind].
    change (get (VDict []) "grade" VNone) with (@Ok value VNone). cbn [bind].
    change (try_int VNone) with (@Ok (option Z) None). cbn [bind].
    rewrite Htop. cbn [bind]. now apply DataProps.try_int_parsed.
  - intros meta nested Hmeta Hnested Hfin1 Hfin2. unfold _extract_grade.
    assert (Hm : get (VDict pairs) "metadata" (VDict []) = Ok (VDict meta))
      by (simpl; now rewrite Hmeta).
    rewrite Hm. cbn [bind]. rewrite Hnested. cbn [bind].
    rewrite (DataProps.try_int_parsed _ Hfin1). cbn [bind].
    destruct (DataProps.parsed nested); [reflexivity|].
    rewrite Htop. cbn [bind]. apply DataProps.try_int_parsed. auto.
  - intros other Hother Hnot. unfold _extract_grade.
    assert (Hm : get (VDict pairs) "metadata" (VDict []) = Ok other)
      by (simpl; now rewrite Hother).
    rewrite Hm. cbn [bind].
    destruct other; try reflexivity. exfalso. eapply Hnot. reflexivity.
Qed.

(** An event whose metadata is [null]. *)
Lemma extract_grade_by_metadata_witness :
  _extract_grade (dict [("type", VStr "try"); ("metadata", VNone); ("grade", VInt 7)])
  = Raise (mk_exn AttributeError "'NoneType' object has no attribute 'get'").
Proof.
  destruct (extract_grade_by_metadata
              [(VStr "type", VStr "try"); (VStr "metadata", VNone);
               (VStr "grade", VInt 7)] (VInt 7) eq_refl) as (_ & _ & H & _).
  apply (H VNone); [reflexivity|discriminate].
Defined.

(** ** The empty corpus *)

Lemma for_each_inert {A S : Type} (f : S -> A -> result S) (xs : list A) :
  (forall acc x acc', f acc x = Ok acc' -> acc' = acc) ->
  forall acc out, for_each f xs acc = Ok out -> out = acc.
Proof.
  intros Hf. induction xs as [|x xs IH]; intros acc out H; simpl in H.
  - now injection H as <-.
  - destruct (f acc x) as [acc1|] eqn:E; [|discriminate]. cbn [bind] in H.
    apply Hf in E. subst acc1. now apply IH.
Qed.

Definition empty_corpus : handler := mk_handler [] [] [].

Section Empty.
Variable py_repr : value -> string.
Variable round_double : Q -> option Q.

Lemma found_players_empty player_ref teams found :
  found_players py_repr empty_corpus player_ref teams = Ok found -> found = [].
Proof.
  unfold found_players. simpl. destruct (isdigit player_ref).
  - destruct (int_of_str player_ref); [|discriminate]. now intros [= <-].
  - now intros [= <-].
Qed.

Lemma find_player_empty player_ref teams answer :
  _find_player py_repr empty_corpus player_ref teams = Ok answer -> answer = None.
Proof.
  unfold _find_player. simpl. destruct (isdigit player_ref).
  - destruct (int_of_str player_ref); [|discriminate]. now intros [= <-].
  - now intros [= <-].
Qed.

Definition nothing (r : QueryResult) : Prop := success r = false /\ data r = [].

Lemma player_info_nothing entities r :
  _handle_get_player_info py_repr empty_corpus entities = Ok r -> nothing r.
Proof.
  unfold _handle_get_player_info. intros H.
  destruct (for_each _ (entities_get "players" entities) []) as [results|] eqn:L;
    [|discriminate].
  cbn [bind] in H. injection H as <-.
  apply for_each_inert in L; [subst; now split|].
  intros acc ref acc' E.
  destruct (found_players py_repr empty_corpus ref _) as [found|] eqn:F; [|discriminate].
  apply found_players_empty in F. subst found. cbn [bind] in E. injection E as <-.
  simpl. apply app_nil_r.
Qed.

Lemma stats_nothing entities r :
  _handle_get_stats py_repr round_double empty_corpus entities = Ok r -> nothing r.
Proof.
  unfold _handle_get_stats. intros H.
  match type of H with
  | bind ?m _ = _ => destruct m as [results|] eqn:L; [|discriminate]
  end.
  cbn [bind] in H. injection H as <-.
  assert (E : results = []); [|subst; now split].
  destruct (nonempty (entities_get "players" entities)).
  - apply for_each_inert in L; [exact L|].
    intros acc ref acc' E.
    destruct (_find_player py_repr empty_corpus ref _) as [answer|] eqn:F; [|discriminate].
    apply find_player_empty in F. subst answer. cbn [bind] in E. now injection E as <-.
  - destruct (nonempty (entities_get "teams" entities)); [|now injection L as <-].
    apply for_each_inert in L; [exact L|].
    intros acc name acc' E. simpl in E. now injection E as <-.
Qed.

Lemma rankings_nothing entities r :
  _handle_get_rankings py_repr round_double empty_corpus entities = Ok r -> nothing r.
Proof.
  unfold _handle_get_rankings, relevant_events. simpl. intros [= <-]. now split.
Qed.

Lemma team_info_nothing entities r :
  _handle_get_team_info empty_corpus entities = Ok r -> nothing r.
Proof.
  unfold _handle_get_team_info. intros H.
  destruct (for_each _ (entities_get "teams" entities) []) as [results|] eqn:L;
    [|discriminate].
  cbn [bind] in H. injection H as <-.
  apply for_each_inert in L; [subst; now split|].
  intros acc name acc' E. simpl in E. now injection E as <-.
Qed.

Lemma compare_nothing entities r :
  _handle_compare py_repr round_double empty_corpus entities = Ok r -> nothing r.
Proof.
  unfold _handle_compare. intros H.
  match type of H with
  | bind ?m _ = _ => destruct m as [results|] eqn:L; [|discriminate]
  end.
  cbn [bind] in H. injection H as <-.
  assert (E : results = []); [|subst; now split].
  destruct (2 <=? List.length (entities_get "players" entities))%nat;
    [|now injection L as <-].
  destruct (for_each _ (entities_get "players" entities) []) as [items|] eqn:I;
    [|discriminate].
  cbn [bind] in L. apply for_each_inert in I.
  - subst items. simpl in L. now injection L as <-.
  - intros acc ref acc' E.
    destruct (_find_player py_repr empty_corpus ref _) as [answer|] eqn:F; [|discriminate].
    apply find_player_empty in F. subst answer. cbn [bind] in E. now injection E as <-.
Qed.

(** X25. Nothing to answer from.  With no data file the handler is built
    without an error, and every query on it, whatever the intent and the
    entities, returns a failed result with no data. *)
Theorem empty_corpus_answers_nothing (entities : entity_set) (intent : string) :
  init [] [] = Ok empty_corpus
  /\ success (get_data_for_query py_repr round_double empty_corpus entities intent)
     = false
  /\ data (get_data_for_query py_repr round_double empty_corpus entities intent) = [].
Proof.
  split; [reflexivity|].
  assert (H : nothing (get_data_for_query py_repr round_double empty_corpus
                         entities intent)); [|exact H].
  unfold get_data_for_query. rewrite DataProps.dispatch_handler.
  unfold DataProps.handler_of.
  destruct (String.eqb intent "get_player_info").
  { destruct (_handle_get_player_info _ _ _) eqn:E;
      [eapply player_info_nothing; exact E|now split]. }
  destruct (String.eqb intent "get_stats").
  { destruct (_handle_get_stats _ _ _ _) eqn:E;
      [eapply stats_nothing; exact E|now split]. }
  destruct (String.eqb intent "get_rankings" || String.eqb intent "top_stat_in_game").
  { destruct (_handle_get_rankings _ _ _ _) eqn:E;
      [eapply rankings_nothing; exact E|now split]. }
  destruct (String.eqb intent "get_team_info").
  { destruct (_handle_get_team_info _ _) eqn:E;
      [eapply team_info_nothing; exact E|now split]. }
  destruct (String.eqb intent "compare").
  { destruct (_handle_compare _ _ _ _) eqn:E;
      [eapply compare_nothing; exact E|now split]. }
  destruct (String.eqb intent "get_game_info"); now split.
Qed.

End Empty.

(** ** A reference of digits that is no integer *)

(** The two ways [int(s)] refuses a text: it is no literal, or the literal
    starts with more digits than the interpreter converts. *)
Lemma int_of_str_error s e :
  int_of_str s = Raise e ->
  e = invalid_literal s
  \/ exists digits,
       digit_run (unsigned_part s) false 0 = Some digits
       /\ (MAX_STR_DIGITS < digits)%N /\ e = too_many_digits digits.
Proof.
  unfold int_of_str. destruct (unsigned_part s) as [|c r] eqn:U;
    [intros [= <-]; now left|].
  destruct (code c =? 95)%N; [intros [= <-]; now left|].
  destruct (digit_run _ _ _) as [digits|] eqn:R; [|intros [= <-]; now left].
  destruct (N.ltb_spec MAX_STR_DIGITS digits) as [Hlong|_].
  - intros [= <-]. right. now exists digits.
  - destruct (int_literal s); [discriminate|intros [= <-]; now left].
Qed.

(** X30. [isdigit] is not enough for [int].  When the first player
    reference passes [str.isdigit] and [int] refuses it, as it does a
    superscript digit or a text that starts with more than 4300 digits, a
    player-info query and a statistics query return a failed result with no
    data whose error is the message of the [ValueError] that [int] raised,
    whatever the corpus and the other references are: the message of an
    invalid literal, with the first 200 characters of the [repr] of the
    reference, or the message of the limit on digits, with their number. *)
Theorem digits_that_are_no_integer_fail (py_repr : value -> string)
    (round_double : Q -> option Q) (self : handler) (entities : entity_set)
    (player_ref : string) (others : list string) (e : exn) :
  entities_get "players" entities = player_ref :: others ->
  isdigit player_ref = true -> int_of_str player_ref = Raise e ->
  get_data_for_query py_repr round_double self entities "get_player_info"
  = mk_result "get_player_info" [] false (Some (exn_str e)) None
  /\ get_data_for_query py_repr round_double self entities "get_stats"
     = mk_result "get_stats" [] false (Some (exn_str e)) None
  /\ exn_type e = ValueError
  /\ (exn_str e
      = ("invalid literal for int() with base 10: "
           ++ substring 0 200 (repr_str player_ref))%string
      \/ exists digits,
           digit_run (unsigned_part player_ref) false 0 = Some digits
           /\ (4300 < digits)%N
           /\ exn_str e
              = ("Exceeds the limit (4300 digits) for integer string conversion: "
                   ++ "value has " ++ str_of_int (Z.of_N digits)
                   ++ " digits; use sys.set_int_max_str_digits() to increase the limit")%string).
Proof.
  intros Hrefs Hd Hint. split; [|split; [|split]].
  - unfold get_data_for_query. cbv [dispatch String.eqb Ascii.eqb Bool.eqb orb].
    unfold _handle_get_player_info. rewrite Hrefs. cbn [for_each].
    unfold found_players. rewrite Hd, Hint. reflexivity.
  - unfold get_data_for_query. cbv [dispatch String.eqb Ascii.eqb Bool.eqb orb].
    unfold _handle_get_stats. rewrite Hrefs. cbn [nonempty for_each].
    unfold _find_player. rewrite Hd, Hint. reflexivity.
  - exact (DataProps.int_of_str_raises _ _ Hint).
  - destruct (int_of_str_error _ _ Hint) as [->|(digits & Hrun & Hlong & ->)].
    + now left.
    + right. exists digits. repeat split; assumption.
Qed.

(** The reference is the superscript two. *)
Lemma digits_that_are_no_integer_fail_witness :
  get_data_for_query DataProps.value_repr DataProps.exact_double DataProps.tie_handler
    [("players", [String (ascii_of_N 178) ""; "11"])] "get_player_info"
  = mk_result "get_player_info" [] false
      (Some ("invalid literal for int() with base 10: '"
               ++ String (ascii_of_N 178) "" ++ "'")%string)
      None.
Proof.
  apply (digits_that_are_no_integer_fail DataProps.value_repr DataProps.exact_double
           DataProps.tie_handler
           [("players", [String (ascii_of_N 178) ""; "11"])]
           (String (ascii_of_N 178) "") ["11"]
           (invalid_literal (String (ascii_of_N 178) ""))); reflexivity.
Defined.

(** [n] times the digit one. *)
Fixpoint ones (n : nat) : string :=
  match n with
  | O => EmptyString
  | S m => String "1" (ones m)
  end.

(** A reference of 5000 digits and a superscript two: the limit on digits is
    what [int] reports, and a grade of 4301 digits is no grade. *)
Example long_reference_exceeds_limit :
  error (get_data_for_query DataProps.value_repr DataProps.exact_double
           DataProps.tie_handler
           [("players", [(ones 5000 ++ String (ascii_of_N 178) "")%string])]
           "get_stats")
  = Some ("Exceeds the limit (4300 digits) for integer string conversion: "
            ++ "value has 5000 digits; "
            ++ "use sys.set_int_max_str_digits() to increase the limit")%string
  /\ DataProps.parsed (VStr (ones 4301)) = None
  /\ DataProps.parsed (VStr (ones 4300)) <> None.
Proof.
  split; [vm_compute; reflexivity|]. split; [vm_compute; reflexivity|].
  vm_compute. discriminate.
Qed.

(** A corpus whose away team has no name: the second player stops every
    team query. *)
Definition unnamed_corpus : handler :=
  mk_handler [] []
    [DataProps.roster_entry 1 11 "Ann" "Arnaud";
     mk_player (VInt 1) (VInt 20) VNone (VStr "away") (VInt 15) VNone
       VNone VNone VNone VNone VNone VNone].

Lemma unnamed_team_fails_team_queries_witness :
  get_data_for_query DataProps.value_repr DataProps.exact_double unnamed_corpus
    [("teams", ["Lyon"])] "get_team_info"
  = mk_result "get_team_info" [] false
      (Some "'NoneType' object has no attribute 'lower'") None.
Proof.
  apply (unnamed_team_fails_team_queries DataProps.value_repr DataProps.exact_double
           unnamed_corpus [DataProps.roster_entry 1 11 "Ann" "Arnaud"]
           (mk_player (VInt 1) (VInt 20) VNone (VStr "away") (VInt 15) VNone
              VNone VNone VNone VNone VNone VNone)
           [] "Lyon" [] [("teams", ["Lyon"])]).
  - reflexivity.
  - repeat constructor. now exists "Lyon".
  - discriminate.
  - reflexivity.
Defined.

End DataFacts.

(* ================================================================== *)
(** * The chat interface: the line that is kept, the direct answer *)
(* ================================================================== *)

Module InterfaceFacts.
Import Py PyNotations Data Values Interface.

(** ** Trimming twice *)

Lemma lstrip_by_lstripped drop s :
  (s = "" \/ exists c r, s = String c r /\ drop c = false) -> lstrip_by drop s = s.
Proof. intros [->|(c & r & -> & H)]; simpl; [reflexivity|now rewrite H]. Qed.

Lemma rstrip_by_idem drop s : rstrip_by drop (rstrip_by drop s) = rstrip_by drop s.
Proof.
  induction s as [|c r IH]; simpl; [reflexivity|].
  destruct (drop c && is_empty (rstrip_by drop r)) eqn:E; [reflexivity|].
  simpl. now rewrite IH, E.
Qed.

Lemma rstrip_by_head drop c r :
  drop c = false -> rstrip_by drop (String c r) = String c (rstrip_by drop r).
Proof. intros H. simpl. now rewrite H. Qed.

Lemma strip_idem s : strip (strip s) = strip s.
Proof.
  unfold strip, strip_by.
  destruct (RoutingProps.lstrip_by_head is_space s) as [->|(c & r & -> & Hc)].
  - reflexivity.
  - rewrite (rstrip_by_head _ _ _ Hc).
    rewrite (lstrip_by_lstripped is_space (String c (rstrip_by is_space r)))
      by (right; eauto).
    rewrite <- (rstrip_by_head _ _ _ Hc). apply rstrip_by_idem.
Qed.

Lemma all_chars_rstrip p drop s :
  all_chars p s = true -> all_chars p (rstrip_by drop s) = true.
Proof.
  induction s as [|c r IH]; simpl; [reflexivity|].
  intros H. apply andb_true_iff in H as [Hc Hr].
  destruct (drop c && is_empty (rstrip_by drop r)); [reflexivity|].
  simpl. now rewrite Hc, IH.
Qed.

Lemma all_chars_strip p s : all_chars p s = true -> all_chars p (strip s) = true.
Proof.
  intros H. unfold strip, strip_by.
  now apply all_chars_rstrip, IntentProps.all_chars_lstrip.
Qed.

(** ** Lines *)

Definition no_break (c : ascii) : bool := negb (is_line_break c).

(** Induction that goes back two characters, as [splitlines] does after a
    carriage return. *)
Lemma string_ind2 (P : string -> Prop) :
  P "" -> (forall c, P (String c "")) ->
  (forall c d r, P r -> P (String d r) -> P (String c (String d r))) ->
  forall s, P s.
Proof.
  intros H0 H1 H2 s.
  assert (H : P s /\ forall c, P (String c s)); [|exact (proj1 H)].
  induction s as [|d r [IHr IHd]]; split; auto.
Qed.

Lemma splitlines_no_break s : Forall (fun ln => all_chars no_break ln = true) (splitlines s).
Proof.
  induction s as [|c|c d r IHr IHd] using string_ind2.
  - constructor.
  - simpl. destruct (is_line_break c) eqn:E; repeat constructor.
    simpl. unfold no_break. now rewrite E.
  - change (splitlines (String c (String d r))) with
      (if is_line_break c
       then if (code c =? 13)%N && (code d =? 10)%N
            then EmptyString :: splitlines r
            else EmptyString :: splitlines (String d r)
       else match splitlines (String d r) with
            | [] => [String c EmptyString]
            | line :: lines => String c line :: lines
            end).
    destruct (is_line_break c) eqn:E.
    + destruct (_ && _); constructor; auto.
    + destruct (splitlines (String d r)) as [|line lines].
      * repeat constructor. simpl. unfold no_break. now rewrite E.
      * inversion IHd as [|? ? Hl Hls]; subst. constructor; [|exact Hls].
        simpl. unfold no_break at 1. now rewrite E.
Qed.

Lemma splitlines_one_line ln :
  all_chars no_break ln = true -> ln <> "" -> splitlines ln = [ln].
Proof.
  induction ln as [|c r IH]; [congruence|]. intros H _. simpl in H.
  apply andb_true_iff in H as [Hc Hr]. unfold no_break in Hc.
  simpl. destruct (is_line_break c); [discriminate|].
  destruct r as [|d r']; [reflexivity|].
  rewrite IH by (auto; discriminate). reflexivity.
Qed.

(** The lines of a text that ends with a boundary and one more line. *)
Lemma splitlines_last_line brk ln :
  is_line_break brk = true -> all_chars no_break ln = true -> ln <> "" ->
  forall t, exists first front,
    splitlines (t ++ String brk ln) = first :: front ++ [ln].
Proof.
  intros Hb Hln Hne.
  assert (Hone := splitlines_one_line ln Hln Hne).
  assert (Hstart : splitlines (String brk ln) = [""; ln]).
  { simpl. rewrite Hb. destruct ln as [|d r']; [congruence|].
    simpl in Hln. apply andb_true_iff in Hln as [Hd _]. unfold no_break in Hd.
    assert (E : (code d =? 10)%N = false).
    { destruct (N.eqb_spec (code d) 10) as [E|]; [|reflexivity].
      unfold is_line_break in Hd. rewrite E in Hd. discriminate. }
    rewrite E, andb_false_r. now rewrite Hone. }
  intros t. induction t as [|c|c d r IHr IHd] using string_ind2.
  - exists "", []. exact Hstart.
  - change (String c "" ++ String brk ln)%string with (String c (String brk ln)).
    change (splitlines (String c (String brk ln))) with
      (if is_line_break c
       then if (code c =? 13)%N && (code brk =? 10)%N
            then EmptyString :: splitlines ln
            else EmptyString :: splitlines (String brk ln)
       else match splitlines (String brk ln) with
            | [] => [String c EmptyString]
            | line :: lines => String c line :: lines
            end).
    rewrite Hstart, Hone. destruct (is_line_break c).
    + destruct (_ && _); [now exists "", []|now exists "", [""]].
    + now exists (String c ""), [].
  - change (String c (String d r) ++ String brk ln)%string
      with (String c (String d (r ++ String brk ln))).
    change (splitlines (String c (String d (r ++ String brk ln)))) with
      (if is_line_break c
       then if (code c =? 13)%N && (code d =? 10)%N
            then EmptyString :: splitlines (r ++ String brk ln)
            else EmptyString :: splitlines (String d r ++ String brk ln)
       else match splitlines (String d r ++ String brk ln) with
            | [] => [String c EmptyString]
            | line :: lines => String c line :: lines
            end).
    destruct IHr as (f1 & fr1 & E1). destruct IHd as (f2 & fr2 & E2).
    rewrite E1, E2. destruct (is_line_break c).
    + destruct (_ && _).
      * now exists "", (f1 :: fr1).
      * now exists "", (f2 :: fr2).
    + now exists (String c f2), fr2.
Qed.

(** ** [_sanitize_user_input] *)

Definition not_blank (ln : string) : bool := negb (is_empty (strip ln)).
Definition not_log (ln : string) : bool := negb (is_log_line ln).

(** The lines that are kept. *)
Definition kept_lines (text : string) : list string :=
  filter not_log (filter not_blank (splitlines text)).

Lemma sanitize_unfold text :
  _sanitize_user_input text =
  match kept_lines text with
  | [] => ""
  | _ => strip (last (kept_lines text) "")
  end.
Proof. reflexivity. Qed.

Lemma is_log_line_strip ln : is_log_line (strip ln) = is_log_line ln.
Proof. unfold is_log_line. now rewrite strip_idem. Qed.

Lemma last_In {A : Type} (xs : list A) (d : A) : xs <> [] -> In (last xs d) xs.
Proof.
  induction xs as [|x xs IH]; [congruence|]. intros _.
  destruct xs as [|y ys]; [now left|]. right. apply IH. discriminate.
Qed.

(** What is returned: nothing, or the trimmed text of a line that was
    kept. *)
Lemma sanitize_cases text :
  (kept_lines text = [] /\ _sanitize_user_input text = "")
  \/ (exists ln,
        In ln (splitlines text) /\ not_blank ln = true /\ not_log ln = true
        /\ all_chars no_break ln = true
        /\ _sanitize_user_input text = strip ln).
Proof.
  rewrite sanitize_unfold. destruct (kept_lines text) as [|l ls] eqn:E; [now left|].
  right. exists (last (l :: ls) "").
  assert (Hin : In (last (l :: ls) "") (kept_lines text)).
  { rewrite E. apply last_In. discriminate. }
  unfold kept_lines in Hin. apply filter_In in Hin as [Hin Hlog].
  apply filter_In in Hin as [Hin Hblank].
  repeat split; auto.
  pose proof (splitlines_no_break text) as Hall. rewrite Forall_forall in Hall. auto.
Qed.

(** A line that needs no cleaning is returned as it is. *)
Lemma sanitize_clean_line ln :
  strip ln = ln -> all_chars no_break ln = true -> is_log_line ln = false ->
  _sanitize_user_input ln = ln.
Proof.
  intros Hs Hb Hl. destruct ln as [|c r]; [reflexivity|].
  rewrite sanitize_unfold. unfold kept_lines.
  rewrite splitlines_one_line by (auto; discriminate).
  cbn [filter]. unfold not_blank. rewrite Hs. cbn [is_empty negb filter].
  unfold not_log. rewrite Hl. cbn [negb last]. exact Hs.
Qed.

(** X26. What the chat loop works on is clean.  Whatever the text typed,
    [_sanitize_user_input] returns either the empty string or the trimmed
    text of one of its lines that is neither blank nor a log line; the
    result has no blank at either end, holds no line boundary, and does
    not start with [INFO:], [DEBUG:], [WARNING:] or [ERROR:]. *)
Theorem sanitize_result_is_clean (text : string) :
  let result := _sanitize_user_input text in
  (result = ""
   \/ exists ln, In ln (splitlines text) /\ result = strip ln /\ is_empty result = false)
  /\ strip result = result
  /\ all_chars no_break result = true
  /\ existsb (fun prefix => starts_with prefix result) log_prefixes = false.
Proof.
  cbv zeta.
  destruct (sanitize_cases text) as [[_ ->]|(ln & Hin & Hblank & Hlog & Hbreak & ->)].
  - repeat split; auto.
  - split; [|split; [|split]].
    + right. exists ln. repeat split; auto.
      unfold not_blank in Hblank. now destruct (is_empty (strip ln)).
    + apply strip_idem.
    + now apply all_chars_strip.
    + unfold not_log, is_log_line in Hlog.
      now destruct (existsb _ log_prefixes).
Qed.

(** X27. Cleaning twice changes nothing:
    [_sanitize_user_input] applied to its own result returns it. *)
Theorem sanitize_idempotent (text : string) :
  _sanitize_user_input (_sanitize_user_input text) = _sanitize_user_input text.
Proof.
  destruct (sanitize_cases text) as [[_ ->]|(ln & Hin & Hblank & Hlog & Hbreak & ->)].
  - reflexivity.
  - apply sanitize_clean_line.
    + apply strip_idem.
    + now apply all_chars_strip.
    + rewrite is_log_line_strip. unfold not_log in Hlog.
      now destruct (is_log_line ln).
Qed.

(** X28. The last line wins.  When the text ends with a line boundary
    followed by a line that is neither blank nor a log line, the result is
    that line, trimmed, whatever stands before the boundary: pasted log
    output above the question is dropped. *)
Theorem sanitize_takes_last_line (before : string) (brk : ascii) (ln : string) :
  is_line_break brk = true -> all_chars no_break ln = true ->
  is_empty (strip ln) = false -> is_log_line ln = false ->
  _sanitize_user_input (before ++ String brk ln) = strip ln.
Proof.
  intros Hb Hln Hblank Hlog.
  assert (Hne : ln <> "") by (intros ->; discriminate).
  destruct (splitlines_last_line brk ln Hb Hln Hne before) as (first & front & E).
  rewrite sanitize_unfold. unfold kept_lines. rewrite E.
  change (first :: front ++ [ln]) with ((first :: front) ++ [ln]).
  generalize (first :: front). intros lines.
  assert (F1 : filter not_blank [ln] = [ln])
    by (simpl; unfold not_blank; now rewrite Hblank).
  assert (F2 : filter not_log [ln] = [ln])
    by (simpl; unfold not_log; now rewrite Hlog).
  rewrite filter_app, F1, filter_app, F2, last_last.
  destruct (filter not_log (filter not_blank lines) ++ [ln]) eqn:F; [|reflexivity].
  apply app_eq_nil in F as [_ F]. discriminate.
Qed.

Lemma sanitize_takes_last_line_witness :
  _sanitize_user_input
    ("INFO: model loaded" ++ String (ascii_of_N 13) (String (ascii_of_N 10)
       "  who is player 7?  "))
  = "who is player 7?".
Proof.
  apply (sanitize_takes_last_line
           ("INFO: model loaded" ++ String (ascii_of_N 13) "")
           (ascii_of_N 10) "  who is player 7?  "); reflexivity.
Defined.

(** ** A rankings record is answered without the client *)

(** X29. The top performer is named without asking the service.  For the
    data of a rankings query that succeeded, handed over under the [data]
    key, [format_response_with_llm] returns the sentence with the team, the
    jersey number and the count of a player of the corpus, whatever the
    query, the prompt template and the client are. *)
Theorem rankings_answer_needs_no_llm (py_repr : value -> string)
    (round_double : Q -> option Q) (self : handler) (entities : entity_set)
    (r : QueryResult) (format_template : string -> string -> result string)
    (llm : Intent.service) (query : string) :
  _handle_get_rankings py_repr round_double self entities = Ok r ->
  success r = true ->
  exists p n,
    In p (players self)
    /\ format_response_with_llm py_repr format_template llm
         (dict [("data", VList (data r))]) query
       = Ok (Text (py_str py_repr (team_name p) ++ " (#"
                     ++ py_str py_repr (jersey_number p)
                     ++ ") had the most with " ++ str_of_int n ++ ".")).
Proof.
  intros H Hs. unfold _handle_get_rankings in H.
  destruct (relevant_events _ _ _) as [relevant|]; [|discriminate]. cbn [bind] in H.
  destruct (for_each _ relevant []) as [stats|]; [|discriminate]. cbn [bind] in H.
  injection H as <-. simpl in Hs. cbn [data].
  destruct stats as [|first rest]; [discriminate|].
  destruct (max_from first rest) as [top_id top_stats].
  destruct (player_with_id self top_id) as [p|] eqn:E; [|discriminate].
  apply find_some in E as [Hin _].
  exists p, (count top_stats). split; [exact Hin|]. reflexivity.
Qed.

Lemma rankings_answer_needs_no_llm_witness :
  exists p n,
    In p (players DataProps.tie_handler)
    /\ format_response_with_llm DataProps.value_repr
         (fun _ _ => Raise (mk_exn KeyError "'record'")) IntentProps.unreachable
         (dict [("data",
                 VList (data (get_data_for_query DataProps.value_repr
                                DataProps.exact_double DataProps.tie_handler
                                [("event_types", ["try"])] "top_stat_in_game")))])
         "who scored the most tries?"
       = Ok (Text (py_str DataProps.value_repr (team_name p) ++ " (#"
                     ++ py_str DataProps.value_repr (jersey_number p)
                     ++ ") had the most with " ++ str_of_int n ++ ".")).
Proof.
  refine (rankings_answer_needs_no_llm DataProps.value_repr DataProps.exact_double
            DataProps.tie_handler [("event_types", ["try"])]
            (get_data_for_query DataProps.value_repr DataProps.exact_double
               DataProps.tie_handler [("event_types", ["try"])] "top_stat_in_game")
            (fun _ _ => Raise (mk_exn KeyError "'record'")) IntentProps.unreachable
            "who scored the most tries?" _ _); reflexivity.
Defined.

End InterfaceFacts.
